(** * Gezeiten: tides of the Earth-Moon system

    A shallow embedding of the numerical core of the [gezeiten] package:
    the fixed-step solvers ([gezeiten/solvers]), the right-hand sides of
    the four models ([gezeiten/differential_equations]) and the ocean-mass
    fit of exercise 2.3c ([gezeiten/exercises/exercise_2_3_c.py]).

    Python's [float] is an IEEE 754 binary64 number.  The solvers are
    written once over an interface [PyFloat] of the arithmetic they use,
    with two instances: the real numbers (exact arithmetic, used for the
    statements quantified over all inputs) and Rocq's primitive binary64
    floats (the arithmetic Python really performs, used to run the solvers
    on concrete inputs).  The fit of exercise 2.3c is written over the
    interface too, for its loop tests a number that can be nan.  The models
    use [sqrt], [sin] and [cos] and are written over the reals. *)

From Stdlib Require Import String Floats Reals Lra Lia ZArith Bool List.
Import ListNotations.

Set Implicit Arguments.

(** ** Exceptions

    A Python exception is modelled by [None]. *)

Definition bind {A B : Type} (m : option A) (k : A -> option B) : option B :=
  match m with
  | Some a => k a
  | None => None
  end.

Notation "x <- m ;; k" := (bind m (fun x => k))
  (at level 61, m at next level, right associativity).
Notation "' p <- m ;; k" := (bind m (fun x => match x with p => k end))
  (at level 61, p pattern, m at next level, right associativity).

(** [for x in xs: s = body(s, x)], stopping at the first exception. *)
Fixpoint for_each {S A : Type} (body : S -> A -> option S) (xs : list A) (s : S)
  : option S :=
  match xs with
  | [] => Some s
  | x :: xs' => s' <- body s x ;; for_each body xs' s'
  end.

(** ** The arithmetic of Python floats *)

Class PyFloat (F : Type) : Type := {
  f_add : F -> F -> F;
  f_sub : F -> F -> F;
  f_mul : F -> F -> F;
  f_div : F -> F -> F;          (* numpy's division: no exception *)
  f_eqb : F -> F -> bool;       (* == *)
  f_of_Z : Z -> F;              (* conversion of a Python int *)
  f_ceil : F -> option Z;       (* ceil to an index; fails on nan and inf *)
  f_abs : F -> F;               (* abs(x) *)
  f_gtb : F -> F -> bool;       (* > *)
  f_round : F -> option Z;      (* round(x): raises on nan and inf *)
  f_pi : F;                     (* np.pi *)
  f_decimal : Z -> Z -> F       (* the literal with digits m and exponent e *)
}.

Declare Scope py_scope.
Delimit Scope py_scope with py.
Notation "x + y" := (f_add x y) : py_scope.
Notation "x - y" := (f_sub x y) : py_scope.
Notation "x * y" := (f_mul x y) : py_scope.
Notation "x / y" := (f_div x y) : py_scope.

(** *** Exact arithmetic: the real numbers *)

Definition Rceil (x : R) : Z := (1 - up (- x))%Z.

(** [round(x)]: the nearest integer, the even one of two that are equally
    near. *)
Definition Rround (x : R) : Z :=
  let n := (up x - 1)%Z in
  let d := (x - IZR n)%R in
  if Rlt_dec d (1 / 2) then n
  else if Rlt_dec (1 / 2) d then (n + 1)%Z
  else if Z.even n then n else (n + 1)%Z.

(** The number a decimal literal stands for: [m * 10 ** e]. *)
Definition R_of_decimal (m e : Z) : R :=
  if (0 <=? e)%Z then (IZR m * IZR (10 ^ e))%R else (IZR m / IZR (10 ^ (- e)))%R.

#[export] Instance PyFloat_R : PyFloat R := {
  f_add := Rplus;
  f_sub := Rminus;
  f_mul := Rmult;
  f_div := Rdiv;
  f_eqb := fun x y => if Req_dec_T x y then true else false;
  f_of_Z := IZR;
  f_ceil := fun x => Some (Rceil x);
  f_abs := Rabs;
  f_gtb := fun x y => if Rgt_dec x y then true else false;
  f_round := fun x => Some (Rround x);
  f_pi := PI;
  f_decimal := R_of_decimal
}.

(** *** binary64 *)

(** The integer [ceil] of a finite binary64 number; numpy refuses nan and
    values outside the range of a 64-bit index. *)
Definition float_ceil (x : float) : option Z :=
  match Prim2SF x with
  | S754_zero _ => Some 0%Z
  | S754_finite s m e =>
      let num := (Zpos m * 2 ^ Z.max e 0)%Z in
      let den := (2 ^ Z.max (- e) 0)%Z in
      let c := if s then (- (num / den))%Z else (- (- num / den))%Z in
      if (Z.abs c <? 2 ^ 63)%Z then Some c else None
  | _ => None
  end.

(** Conversion of an integer, rounded to the nearest binary64 number
    (Python raises [OverflowError] from [2 ^ 1024] on, where this gives
    infinity). *)
Definition float_of_Z (z : Z) : float :=
  SF2Prim (binary_normalize prec emax z 0 false).

(** [round(x)] of a binary64 number, to the nearest integer and to the even
    one of two that are equally near; [ValueError] on nan, [OverflowError]
    on an infinity. *)
Definition float_round (x : float) : option Z :=
  match Prim2SF x with
  | S754_zero _ => Some 0%Z
  | S754_finite s m e =>
      let num := (Zpos m * 2 ^ Z.max e 0)%Z in
      let den := (2 ^ Z.max (- e) 0)%Z in
      let q := (num / den)%Z in
      let r := (num mod den)%Z in
      let n :=
        match (2 * r ?= den)%Z with
        | Lt => q
        | Gt => (q + 1)%Z
        | Eq => if Z.even q then q else (q + 1)%Z
        end in
      Some (if s then (- n)%Z else n)
  | _ => None
  end.

(** A decimal literal, rounded to the nearest binary64 number.  The
    quotient is rounded once, which is the value Python reads a literal as,
    when its digits are below [2 ^ 53] and its exponent is [-22] or
    more. *)
Definition float_of_decimal (m e : Z) : float :=
  if (0 <=? e)%Z then float_of_Z (m * 10 ^ e)
  else PrimFloat.div (float_of_Z m) (float_of_Z (10 ^ (- e))).

#[export] Instance PyFloat_binary64 : PyFloat float := {
  f_add := PrimFloat.add;
  f_sub := PrimFloat.sub;
  f_mul := PrimFloat.mul;
  f_div := PrimFloat.div;
  f_eqb := PrimFloat.eqb;
  f_of_Z := float_of_Z;
  f_ceil := float_ceil;
  f_abs := PrimFloat.abs;
  f_gtb := fun x y => PrimFloat.ltb y x;
  f_round := float_round;
  f_pi := 0x1.921fb54442d18p+1%float;
  f_decimal := float_of_decimal
}.

(** ** numpy arrays of one dimension *)

Section NumPy.
Context {F : Type} `{PyFloat F}.
Local Open Scope py_scope.

Fixpoint zip_with (g : F -> F -> F) (u v : list F) : list F :=
  match u, v with
  | x :: u', y :: v' => g x y :: zip_with g u' v'
  | _, _ => []
  end.

(** [c * v] and [v / c] for a scalar [c]. *)
Definition np_scale (c : F) (v : list F) : list F := map (fun x => c * x) v.

Definition np_div_scalar (v : list F) (c : F) : list F := map (fun x => x / c) v.

(** [u + v] with numpy's broadcasting of an array of one element; arrays
    of other, different lengths raise [ValueError]. *)
Definition np_add (u v : list F) : option (list F) :=
  if (length u =? length v)%nat then Some (zip_with f_add u v)
  else match u, v with
       | _, [y] => Some (map (fun x => x + y) u)
       | [x], _ => Some (map (fun y => x + y) v)
       | _, _ => None
       end.

(** [r += v]: the result must have the shape of [r]. *)
Definition np_iadd (r v : list F) : option (list F) :=
  if (length r =? length v)%nat then Some (zip_with f_add r v)
  else match v with
       | [y] => Some (map (fun x => x + y) r)
       | _ => None
       end.

(** [np.arange(start, stop, step)] for floats, as numpy documents and
    computes it: [ceil((stop - start) / step)] values (none when that is
    negative); the first two are [start] and [start + step], the others
    [start + i * delta] with [delta] the difference of the first two.  A
    zero [step] raises.  (Left out: the length 1 numpy gives when the
    quotient of a nonzero difference underflows to zero.) *)
Definition arange_item (start step : F) (i : nat) : F :=
  match i with
  | 0%nat => start
  | 1%nat => start + step
  | _ => start + f_of_Z (Z.of_nat i) * ((start + step) - start)
  end.

Definition np_arange (start stop step : F) : option (list F) :=
  if f_eqb step (f_of_Z 0) then None
  else
    len <- f_ceil ((stop - start) / step) ;;
    Some (map (arange_item start step) (seq 0 (Z.to_nat len))).

(** [x / n] for a Python float [x] and a Python int [n]:
    [ZeroDivisionError] when [n] is zero. *)
Definition py_truediv (x : F) (n : Z) : option F :=
  if (n =? 0)%Z then None else Some (x / f_of_Z n).

End NumPy.

(** ** Python numbers and the arrays [np.array] makes of them

    An entry of [initial_conditions] is a Python int or a float.  The ints
    are those numpy stores as 64-bit integers ([np.array] gives a list
    with a larger one another dtype; such lists are left out). *)

Record int64 : Type := {
  int64_value : Z;
  int64_range :
    ((- 2 ^ 63 <=? int64_value) && (int64_value <? 2 ^ 63))%Z = true
}.

Inductive number (F : Type) : Type :=
| Int (z : int64)
| Float (x : F).

Arguments Int {F} z.
Arguments Float {F} x.

(** An array of one dimension, with its dtype. *)
Inductive ndarray1 (F : Type) : Type :=
| Int64Array (l : list int64)
| Float64Array (l : list F).

Arguments Int64Array {F} l.
Arguments Float64Array {F} l.

Section PythonNumbers.
Context {F : Type} `{PyFloat F}.

Definition float_of_number (x : number F) : F :=
  match x with
  | Int z => f_of_Z (int64_value z)
  | Float x => x
  end.

(** [np.array(l, float)] *)
Definition np_array_float (l : list (number F)) : list F :=
  map float_of_number l.

(** The ints of a list that holds ints only. *)
Fixpoint all_ints (l : list (number F)) : option (list int64) :=
  match l with
  | [] => Some []
  | Int z :: l' => zs <- all_ints l' ;; Some (z :: zs)
  | Float _ :: _ => None
  end.

(** [np.array(l)]: the dtype is [int64] when every entry is an int and
    there is one, and [float64] otherwise. *)
Definition np_array (l : list (number F)) : ndarray1 F :=
  match l, all_ints l with
  | _ :: _, Some zs => Int64Array zs
  | _, _ => Float64Array (np_array_float l)
  end.

(** The entries of an array, as floats. *)
Definition array_values (r : ndarray1 F) : list F :=
  match r with
  | Int64Array zs => map (fun z => f_of_Z (int64_value z)) zs
  | Float64Array xs => xs
  end.

End PythonNumbers.

(** ** gezeiten/differential_equation.py

    The fields a solver reads.  An entry of [initial_conditions] is an int
    or a float; [time_boundaries] holds floats; the right-hand side is
    given an array of floats and may raise. *)

Record DifferentialEquation (F : Type) : Type := {
  differential_equation_function : F -> list F -> option (list F);
  initial_conditions : list (number F);
  time_boundaries : F * F;
  data_points_amount : Z
}.

(** What [Solver.solve] returns: [t_points] and [r_points].  [r_points] is
    a two-dimensional array of floats, given by its rows;
    [RungeKuttaSolver] returns the Python list [[r]] in its place when it
    takes no step. *)
Inductive r_points_result (F : Type) : Type :=
| Array2D (rows : list (list F))
| ListOfArray (r : ndarray1 F).

Arguments Array2D {F} rows.
Arguments ListOfArray {F} r.

Definition solver_result (F : Type) : Type := (list F * r_points_result F)%type.

(** The rows of [r_points], as floats; [len(r_points)] is their number. *)
Definition rows_of_result {F : Type} `{PyFloat F} (r_points : r_points_result F)
  : list (list F) :=
  match r_points with
  | Array2D rows => rows
  | ListOfArray r => [array_values r]
  end.

(** ** gezeiten/solvers/euler_solver.py *)

Module EulerSolver.
Section WithFloat.
Context {F : Type} `{PyFloat F}.
Local Open Scope py_scope.

(** One turn of the loop: [r] is updated in place with the right-hand side
    taken at the loop variable [t], and a copy of [r] is appended to
    [r_points]. *)
Definition loop_body (f : F -> list F -> option (list F)) (h : F)
    (s : list F * list (list F)) (t : F) : option (list F * list (list F)) :=
  let '(r, r_points) := s in
  d <- f t r ;;
  r <- np_iadd r (np_scale h d) ;;
  Some (r, r_points ++ [r]).

Definition solve (de : DifferentialEquation F) : option (solver_result F) :=
  let '(a, b) := time_boundaries de in
  h <- py_truediv (b - a) (data_points_amount de) ;;
  t_points <- np_arange a b h ;;
  let r := np_array_float (initial_conditions de) in
  let r_points := [r] in
  ' (_, r_points) <-
    for_each (loop_body (differential_equation_function de) h)
             (tl t_points) (r, r_points) ;;
  Some (t_points, Array2D r_points).

End WithFloat.
End EulerSolver.

(** ** gezeiten/solvers/runge_kutta_solver.py

    [np.array(initial_conditions)] has no dtype given: it is an array of
    floats as soon as one initial condition is a float, and an array of
    ints when all of them are ints. *)

Module RungeKuttaSolver.
Section WithFloat.
Context {F : Type} `{PyFloat F}.
Local Open Scope py_scope.

(** [r_points] starts as the Python list [[r]], whose only element is the
    array [r] itself, and becomes a fresh two-dimensional array at the
    first [np.append]. *)
Inductive r_points_value : Type :=
| ListOfR
| NdArray (rows : list (list F)).

(** The rows [r_points] stands for when the array [r] holds [r]. *)
Definition rows_of (r_points : r_points_value) (r : list F) : list (list F) :=
  match r_points with
  | ListOfR => [r]
  | NdArray rows => rows
  end.

(** [np.append(r_points, [r], axis=0)]. *)
Definition np_append (r_points : r_points_value) (r : list F) : r_points_value :=
  NdArray (rows_of r_points r ++ [r]).

(** The four stages and the update [r += (k_1 + 2 * k_2 + 2 * k_3 + k_4) / 6]
    of one turn of the loop, at the loop variable [t]. *)
Definition update (f : F -> list F -> option (list F)) (h : F)
    (r : list F) (t : F) : option (list F) :=
  d_1 <- f t r ;;
  let k_1 := np_scale h d_1 in
  r_1 <- np_add r (np_div_scalar k_1 (f_of_Z 2)) ;;
  d_2 <- f (t + h / f_of_Z 2) r_1 ;;
  let k_2 := np_scale h d_2 in
  r_2 <- np_add r (np_div_scalar k_2 (f_of_Z 2)) ;;
  d_3 <- f (t + h / f_of_Z 2) r_2 ;;
  let k_3 := np_scale h d_3 in
  r_3 <- np_add r k_3 ;;
  d_4 <- f (t + h) r_3 ;;
  let k_4 := np_scale h d_4 in
  s_1 <- np_add k_1 (np_scale (f_of_Z 2) k_2) ;;
  s_2 <- np_add s_1 (np_scale (f_of_Z 2) k_3) ;;
  s_3 <- np_add s_2 k_4 ;;
  np_iadd r (np_div_scalar s_3 (f_of_Z 6)).

(** One turn of the loop.  On an array of ints [r +=] raises, whatever the
    stages are: their sum is an array of floats, which numpy does not cast
    to [int64]. *)
Definition loop_body (f : F -> list F -> option (list F)) (h : F)
    (s : ndarray1 F * r_points_value) (t : F)
  : option (ndarray1 F * r_points_value) :=
  let '(r, r_points) := s in
  match r with
  | Float64Array r =>
      r <- update f h r t ;;
      Some (Float64Array r, np_append r_points r)
  | Int64Array _ => None
  end.

(** The value of [r_points] at the [return]. *)
Definition returned (r_points : r_points_value) (r : ndarray1 F)
  : r_points_result F :=
  match r_points with
  | ListOfR => ListOfArray r
  | NdArray rows => Array2D rows
  end.

Definition solve (de : DifferentialEquation F) : option (solver_result F) :=
  let '(a, b) := time_boundaries de in
  h <- py_truediv (b - a) (data_points_amount de) ;;
  t_points <- np_arange a b h ;;
  let r := np_array (initial_conditions de) in
  let r_points := ListOfR in
  ' (r, r_points) <-
    for_each (loop_body (differential_equation_function de) h)
             (tl t_points) (r, r_points) ;;
  Some (t_points, returned r_points r).

End WithFloat.
End RungeKuttaSolver.

(** ** gezeiten/constants.py *)

Module constants.
Local Open Scope R_scope.

Definition DEFAULT_TIME_BOUNDARIES : R * R := (0, 60 * 24 * 60 * 60).

Definition m_E : R := 5.9721986e24.
Definition m_O : R := 0.0014e24.
Definition r_E : R := 6.3675e6.
Definition m_M : R := 7.3459e22.
Definition r_M : R := 3.836e8.
Definition T_M : R := 27.32166140 * 24 * 3600.
Definition T_E : R := 86164.100.
Definition tau : R := 0.0021.
Definition G : R := 6.67430e-11.
Definition r_C : R := r_M * m_M / (m_M + m_E).
Definition k : R := 2e-12.

End constants.

(** [range(0, 2 * N, 2)] *)
Definition range_0_2N_2 (N : nat) : list nat := map (fun j => (2 * j)%nat) (seq 0 N).

(** [l[::2]] *)
Fixpoint every_other {A : Type} (l : list A) : list A :=
  match l with
  | [] => []
  | [x] => [x]
  | x :: _ :: l' => x :: every_other l'
  end.

(** ** gezeiten/differential_equations/two_body_problem.py

    The [initial_conditions] of the four models are tuples (a list, for the
    n-body problem) of floats and of the int [0].  [np.array] makes an array
    of floats of such a tuple, with a dtype given or without: the models
    hold the entries as floats, and [init] hands them on as floats. *)

Module TwoBodyProblem.
Import constants.
Local Open Scope R_scope.

Definition initial_conditions : list R :=
  [ - r_C;
    0;
    0;
    - 2 * PI * r_C / T_M;
    r_M - r_C;
    0;
    0;
    2 * PI * (r_M - r_C) / T_M ].

(** Unpacking [r] into eight names raises [ValueError] for another length. *)
Definition f (t : R) (r : list R) : option (list R) :=
  match r with
  | [x_E; vx_E; y_E; vy_E; x_M; vx_M; y_M; vy_M] =>
      let abs_r := sqrt ((x_E - x_M) ^ 2 + (y_E - y_M) ^ 2) in
      let f_1 := vx_E in
      let f_2 := - G * m_M * (x_E - x_M) / abs_r ^ 3 in
      let f_3 := vy_E in
      let f_4 := - G * m_M * (y_E - y_M) / abs_r ^ 3 in
      let f_5 := vx_M in
      let f_6 := - G * m_E * (x_M - x_E) / abs_r ^ 3 in
      let f_7 := vy_M in
      let f_8 := - G * m_E * (y_M - y_E) / abs_r ^ 3 in
      Some [f_1; f_2; f_3; f_4; f_5; f_6; f_7; f_8]
  | _ => None
  end.

(** [__init__] *)
Definition init (time_boundaries : R * R) (data_points_amount : Z)
  : DifferentialEquation R :=
  Build_DifferentialEquation f (map Float initial_conditions) time_boundaries
                             data_points_amount.

End TwoBodyProblem.

(** ** gezeiten/differential_equations/four_body_problem_simple.py *)

Module FourBodyProblemSimple.
Import constants.
Local Open Scope R_scope.

Definition initial_conditions : list R :=
  [ - r_C;
    0;
    0;
    - 2 * PI * r_C / T_M;
    r_M - r_C;
    0;
    0;
    2 * PI * (r_M - r_C) / T_M;
    0;
    2 * PI / T_M;
    PI;
    2 * PI / T_M ].

Definition f (t : R) (r : list R) : option (list R) :=
  match r with
  | [x_E; vx_E; y_E; vy_E; x_M; vx_M; y_M; vy_M; phi1; vphi1; phi2; vphi2] =>
      let distance_earth_moon := sqrt ((x_M - x_E) ^ 2 + (y_M - y_E) ^ 2) in
      let distance_F1_moon :=
        sqrt ((r_E * cos phi1 + x_E - x_M) ^ 2 + (r_E * sin phi1 + y_E - y_M) ^ 2) in
      let distance_F2_moon :=
        sqrt ((r_E * cos phi2 + x_E - x_M) ^ 2 + (r_E * sin phi2 + y_E - y_M) ^ 2) in
      let f_1 := vx_E in
      let f_2 := - G * m_M * (x_E - x_M) / distance_earth_moon ^ 3 in
      let f_3 := vy_E in
      let f_4 := - G * m_M * (y_E - y_M) / distance_earth_moon ^ 3 in
      let f_5 := vx_M in
      let f_6 :=
        - G * (
          m_E * (x_M - x_E) / distance_earth_moon ^ 3
          + 1 / 2 * m_O * (
              (x_M - r_E * cos phi1 - x_E) / distance_F1_moon ^ 3
              + (x_M - r_E * cos phi2 - x_E) / distance_F2_moon ^ 3)) in
      let f_7 := vy_M in
      let f_8 :=
        - G * (
          m_E * (y_M - y_E) / distance_earth_moon ^ 3
          + 1 / 2 * m_O * (
              (y_M - r_E * sin phi1 - y_E) / distance_F1_moon ^ 3
              + (y_M - r_E * sin phi2 - y_E) / distance_F2_moon ^ 3)) in
      let f_9 := vphi1 in
      let f_10 :=
        1 / r_E * (
          (- G * m_M * (x_E - x_M) / distance_earth_moon ^ 3) * sin phi1
          - (- G * m_M * (y_E - y_M) / distance_earth_moon ^ 3) * cos phi1
          - m_M * G * ((r_E * sin phi1 + y_E - y_M) * cos phi1
                       - (r_E * cos phi1 + x_E - x_M) * sin phi1)
            / distance_F1_moon ^ 3) in
      let f_11 := vphi2 in
      let f_12 :=
        1 / r_E * (
          (- G * m_M * (x_E - x_M) / distance_earth_moon ^ 3) * sin phi2
          - (- G * m_M * (y_E - y_M) / distance_earth_moon ^ 3) * cos phi2
          - m_M * G * ((r_E * sin phi2 + y_E - y_M) * cos phi2
                       - (r_E * cos phi2 + x_E - x_M) * sin phi2)
            / distance_F2_moon ^ 3) in
      Some [f_1; f_2; f_3; f_4; f_5; f_6; f_7; f_8; f_9; f_10; f_11; f_12]
  | _ => None
  end.

Definition init (time_boundaries : R * R) (data_points_amount : Z)
  : DifferentialEquation R :=
  Build_DifferentialEquation f (map Float initial_conditions) time_boundaries
                             data_points_amount.

End FourBodyProblemSimple.

(** ** Python containers used by the models *)

(** [l[-1]] *)
Definition py_last {A : Type} (l : list A) : option A := nth_error l (length l - 1).

Fixpoint map_option {A B : Type} (g : A -> option B) (l : list A) : option (list B) :=
  match l with
  | [] => Some []
  | x :: l' => y <- g x ;; ys <- map_option g l' ;; Some (y :: ys)
  end.

(** Column [k] of a two-dimensional array given by its rows: [rows.T[k]]. *)
Definition column {A : Type} (k : nat) (rows : list (list A)) : option (list A) :=
  map_option (fun row => nth_error row k) rows.

(** [r_points.T[k]] for the [r_points] a solver returned: a Python list has
    no attribute [T] ([AttributeError]). *)
Definition T_row {F : Type} (k : nat) (r_points : r_points_result F)
  : option (list F) :=
  match r_points with
  | Array2D rows => column k rows
  | ListOfArray _ => None
  end.

(** A [dict] with string keys, in insertion order; a missing key raises
    [KeyError]. *)
Definition dict (V : Type) : Type := list (string * V).

Fixpoint dict_get {V : Type} (key : string) (d : dict V) : option V :=
  match d with
  | [] => None
  | (k, v) :: d' => if String.eqb k key then Some v else dict_get key d'
  end.

(** ** gezeiten/differential_equations/four_body_problem_complex.py *)

Module FourBodyProblemComplex.
Import constants.
Local Open Scope R_scope.

(** The class attribute. *)
Definition class_initial_conditions : list R :=
  [ - r_C;
    0;
    0;
    - 2 * PI * r_C / T_M;
    r_M - r_C;
    0;
    0;
    2 * PI * (r_M - r_C) / T_M;
    0;
    2 * PI / T_M;
    PI;
    2 * PI / T_M;
    0;
    2 * PI / (24 * 60 * 60) ].

(** An instance: the attributes read through [self], in the arithmetic
    [F].  [solution] is [None] until [solve] has run. *)
Record instance (F : Type) : Type := {
  initial_conditions : list F;
  time_boundaries : F * F;
  data_points_amount : Z;
  m_O : F;
  solution : option (dict (list F))
}.

(** [__init__] *)
Definition init (time_boundaries : R * R) (data_points_amount : Z) : instance R :=
  Build_instance class_initial_conditions time_boundaries data_points_amount
                 constants.m_O None.

Definition f (self : instance R) (t : R) (r : list R) : option (list R) :=
  match r with
  | [x_E; vx_E; y_E; vy_E; x_M; vx_M; y_M; vy_M; phi1; vphi1; phi2; vphi2;
     phi_E; vphi_E] =>
      let distance_earth_moon := sqrt ((x_M - x_E) ^ 2 + (y_M - y_E) ^ 2) in
      let distance_F1_moon :=
        sqrt ((r_E * cos phi1 + x_E - x_M) ^ 2 + (r_E * sin phi1 + y_E - y_M) ^ 2) in
      let distance_F2_moon :=
        sqrt ((r_E * cos phi2 + x_E - x_M) ^ 2 + (r_E * sin phi2 + y_E - y_M) ^ 2) in
      let f_1 := vx_E in
      let f_2 := - G * m_M * (x_E - x_M) / distance_earth_moon ^ 3 in
      let f_3 := vy_E in
      let f_4 := - G * m_M * (y_E - y_M) / distance_earth_moon ^ 3 in
      let f_5 := vx_M in
      let f_6 :=
        - G * (
          m_E * (x_M - x_E) / distance_earth_moon ^ 3
          + 1 / 2 * m_O self * (
              (x_M - r_E * cos phi1 - x_E) / distance_F1_moon ^ 3
              + (x_M - r_E * cos phi2 - x_E) / distance_F2_moon ^ 3)) in
      let f_7 := vy_M in
      let f_8 :=
        - G * (
          m_E * (y_M - y_E) / distance_earth_moon ^ 3
          + 1 / 2 * m_O self * (
              (y_M - r_E * sin phi1 - y_E) / distance_F1_moon ^ 3
              + (y_M - r_E * sin phi2 - y_E) / distance_F2_moon ^ 3)) in
      let f_9 := vphi1 in
      let f_10 :=
        1 / r_E * (
          (- G * m_M * (x_E - x_M) / distance_earth_moon ^ 3) * sin phi1
          - (- G * m_M * (y_E - y_M) / distance_earth_moon ^ 3) * cos phi1
          - m_M * G * ((r_E * sin phi1 + y_E - y_M) * cos phi1
                       - (r_E * cos phi1 + x_E - x_M) * sin phi1)
            / distance_F1_moon ^ 3)
        - r_E * k * Rabs (vphi1 - vphi_E) * (vphi1 - vphi_E) in
      let f_11 := vphi2 in
      let f_12 :=
        1 / r_E * (
          (- G * m_M * (x_E - x_M) / distance_earth_moon ^ 3) * sin phi2
          - (- G * m_M * (y_E - y_M) / distance_earth_moon ^ 3) * cos phi2
          - m_M * G * ((r_E * sin phi2 + y_E - y_M) * cos phi2
                       - (r_E * cos phi2 + x_E - x_M) * sin phi2)
            / distance_F2_moon ^ 3)
        - r_E * k * Rabs (vphi2 - vphi_E) * (vphi2 - vphi_E) in
      let f_13 := vphi_E in
      let f_14 :=
        5 / 4 * r_E * m_O self / m_E * k * (
          Rabs (vphi1 - vphi_E) * (vphi1 - vphi_E)
          + Rabs (vphi2 - vphi_E) * (vphi2 - vphi_E)) in
      Some [f_1; f_2; f_3; f_4; f_5; f_6; f_7; f_8; f_9; f_10; f_11; f_12;
            f_13; f_14]
  | _ => None
  end.

(** What a solver reads of [self]: [differential_equation_function] is the
    bound method [self.f]. *)
Definition as_differential_equation (self : instance R) : DifferentialEquation R :=
  Build_DifferentialEquation (f self) (map Float (initial_conditions self))
                             (time_boundaries self) (data_points_amount self).

Definition set_m_O {F : Type} (m : F) (self : instance F) : instance F :=
  Build_instance (initial_conditions self) (time_boundaries self)
                 (data_points_amount self) m (solution self).

Definition set_solution {F : Type} (d : dict (list F)) (self : instance F)
  : instance F :=
  Build_instance (initial_conditions self) (time_boundaries self)
                 (data_points_amount self) (m_O self) (Some d).

Definition solution_keys : list string :=
  [ "x_E"; "vx_E"; "y_E"; "vy_E"; "x_M"; "vx_M"; "y_M"; "vy_M";
    "phi1"; "vphi1"; "phi2"; "vphi2"; "phi_E"; "vphi_E" ]%string.

(** The dictionary [solve] builds: ["t"], then [solution[1].T[i]] under
    the [i]-th key. *)
Definition solution_dict {F : Type} (result : solver_result F)
  : option (dict (list F)) :=
  let '(t_points, r_points) := result in
  columns <- map_option (fun i => T_row i r_points) (seq 0 14) ;;
  Some (("t"%string, t_points) :: combine solution_keys columns).

(** [solve(self, solver, m_O)]: the new state of [self], and [Some tt] for
    a normal return or [None] for an exception. *)
Definition solve (solver : DifferentialEquation R -> option (solver_result R))
    (m_O : R) (self : instance R) : instance R * option unit :=
  let self := set_m_O m_O self in
  match solver (as_differential_equation self) with
  | None => (self, None)
  | Some result =>
      match solution_dict result with
      | None => (self, None)
      | Some d => (set_solution d self, Some tt)
      end
  end.

(** [solve(self, solver)]: the default of [m_O] is the value the global
    [m_O] had when the method was defined. *)
Definition solve_default_m_O
    (solver : DifferentialEquation R -> option (solver_result R))
    (self : instance R) : instance R * option unit :=
  solve solver constants.m_O self.

End FourBodyProblemComplex.

(** ** gezeiten/differential_equations/n_body_problem.py

    The class attribute [N] (10 in the source) is a parameter of the
    definitions that read it. *)

Module NBodyProblem.
Import constants.
Local Open Scope R_scope.

Definition N : nat := 10.

Definition initial_conditions_for (N : nat) : list R :=
  [ - r_C;
    0;
    0;
    - 2 * PI * r_C / T_M;
    r_M - r_C;
    0;
    0;
    2 * PI * (r_M - r_C) / T_M;
    0;
    2 * PI / (24 * 60 * 60) ]
  ++ flat_map (fun i => [PI / INR N * INR i; 2 * PI / T_M]) (range_0_2N_2 N).

Definition initial_conditions : list R := initial_conditions_for N.

(** One turn of the loop over the tide particles; an index out of the
    bounds of [r_N] raises [IndexError]. *)
Definition loop_body (x_E y_E x_M y_M vphi_E distance_earth_moon : R)
    (r_N distance_FN_moon : list R)
    (s : R * R * R * list R) (i : nat) : option (R * R * R * list R) :=
  let '(sum_M_x, sum_M_y, sum_E, f_N) := s in
  vphi_i <- nth_error r_N (i + 1) ;;
  phi_i <- nth_error r_N i ;;
  distance_i <- nth_error distance_FN_moon (i / 2) ;;
  let f_N := f_N ++ [vphi_i] in
  let f_N := f_N ++ [
      1 / r_E * (
        (- G * m_M * (x_E - x_M) / distance_earth_moon ^ 3) * sin phi_i
        - (- G * m_M * (y_E - y_M) / distance_earth_moon ^ 3) * cos phi_i
        - m_M * G * ((r_E * sin phi_i + y_E - y_M) * cos phi_i
                     - (r_E * cos phi_i + x_E - x_M) * sin phi_i)
          / distance_i ^ 3)
      - r_E * k * Rabs (vphi_i - vphi_E) * (vphi_i - vphi_E) ] in
  let sum_M_x := sum_M_x + (x_M - r_E * cos phi_i - x_E) / distance_i ^ 3 in
  let sum_M_y := sum_M_y + (y_M - r_E * sin phi_i - y_E) / distance_i ^ 3 in
  let sum_E := sum_E + Rabs (vphi_i - vphi_E) * (vphi_i - vphi_E) in
  Some (sum_M_x, sum_M_y, sum_E, f_N).

Definition f_for (N : nat) (t : R) (r : list R) : option (list R) :=
  match firstn 10 r with
  | [x_E; vx_E; y_E; vy_E; x_M; vx_M; y_M; vy_M; phi_E; vphi_E] =>
      let r_N := skipn 10 r in
      let distance_earth_moon := sqrt ((x_M - x_E) ^ 2 + (y_M - y_E) ^ 2) in
      let distance_FN_moon :=
        map (fun phi => sqrt ((r_E * cos phi + x_E - x_M) ^ 2
                              + (r_E * sin phi + y_E - y_M) ^ 2))
            (every_other r_N) in
      let f_1 := vx_E in
      let f_2 := - G * m_M * (x_E - x_M) / distance_earth_moon ^ 3 in
      let f_3 := vy_E in
      let f_4 := - G * m_M * (y_E - y_M) / distance_earth_moon ^ 3 in
      ' (sum_M_x, sum_M_y, sum_E, f_N) <-
        for_each (loop_body x_E y_E x_M y_M vphi_E distance_earth_moon
                            r_N distance_FN_moon)
                 (range_0_2N_2 N) (0, 0, 0, []) ;;
      if (N =? 0)%nat then None (* [m_O / N]: ZeroDivisionError *) else
      let f_5 := vx_M in
      let f_6 := - G * (m_E * (x_M - x_E) / distance_earth_moon ^ 3
                        + m_O / INR N * sum_M_x) in
      let f_7 := vy_M in
      let f_8 := - G * (m_E * (y_M - y_E) / distance_earth_moon ^ 3
                        + m_O / INR N * sum_M_y) in
      let f_9 := vphi_E in
      let f_10 := 5 / 2 * r_E * m_O / (INR N * m_E) * k * sum_E in
      Some ([f_1; f_2; f_3; f_4; f_5; f_6; f_7; f_8; f_9; f_10] ++ f_N)
  | _ => None
  end.

Definition f : R -> list R -> option (list R) := f_for N.

Definition init (time_boundaries : R * R) (data_points_amount : Z)
  : DifferentialEquation R :=
  Build_DifferentialEquation f (map Float initial_conditions) time_boundaries
                             data_points_amount.

End NBodyProblem.

(** ** gezeiten/exercises/exercise_2_3_c.py

    The fit is written over the arithmetic [F].  It calls
    [four_body_problem_complex.solve(m_O=...)], which runs the [MagicSolver]
    built on [scipy.integrate.solve_ivp]: that call is a parameter here.
    Of the [print]s the fit keeps what can raise, the calls of [round]; it
    returns what it prints last, the fitted mass, and the instance as it
    leaves it.  The numbers read from the solution are numpy floats, whose
    division never raises. *)

(** How a loop that need not end is run: with a bound on its turns. *)
Inductive outcome (A : Type) : Type :=
| Returned (a : A)
| Raised
| StillRunning.

Arguments Returned {A} a.
Arguments Raised {A}.
Arguments StillRunning {A}.

Module exercise_2_3_c.
Section WithFloat.
Context {F : Type} `{PyFloat F}.
Local Open Scope py_scope.

(** [gezeiten.constants.tau] and [gezeiten.constants.m_O] in the
    arithmetic [F] *)
Definition tau : F := f_decimal 21 (-4).
Definition m_O : F := f_decimal 14 20.

Definition accuracy : F := f_decimal 1 (-2).

Definition _calculate_current_tau
    (four_body_problem_complex : FourBodyProblemComplex.instance F)
  : option F :=
  solution <- FourBodyProblemComplex.solution four_body_problem_complex ;;
  solution_t <- dict_get "t" solution ;;
  solution_vphi_E <- dict_get "vphi_E" solution ;;
  let t_one_year := (length solution_t / 2)%nat in
  vphi_E_one_year <- nth_error solution_vphi_E t_one_year ;;
  vphi_E_last <- py_last solution_vphi_E ;;
  t_last <- py_last solution_t ;;
  t_at_one_year <- nth_error solution_t t_one_year ;;
  let final_angular_velocity :=
    vphi_E_one_year
    + f_of_Z 100 * f_decimal 36524 (-2) * f_of_Z 24 * f_of_Z 3600
      * ((vphi_E_last - vphi_E_one_year) / (t_last - t_at_one_year)) in
  let current_tau :=
    f_of_Z 2 * f_pi
    * (f_of_Z 1 / final_angular_velocity - f_of_Z 1 / vphi_E_one_year) in
  Some current_tau.

(** The condition of the [while] loop: [abs(1 - current_tau / tau) >
    accuracy]. *)
Definition loop_condition (current_tau : F) : bool :=
  f_gtb (f_abs (f_of_Z 1 - current_tau / tau)) accuracy.

Section WithMagicSolver.
Variable solve :
  F -> FourBodyProblemComplex.instance F ->
  FourBodyProblemComplex.instance F * option unit.

(** [four_body_problem_complex.solve(m_O=current_m_O)] followed by
    [_calculate_current_tau(four_body_problem_complex)]. *)
Definition solve_and_calculate (current_m_O : F)
    (four_body_problem_complex : FourBodyProblemComplex.instance F)
  : option (FourBodyProblemComplex.instance F * F) :=
  let '(four_body_problem_complex, ok) :=
    solve current_m_O four_body_problem_complex in
  _ <- ok ;;
  current_tau <- _calculate_current_tau four_body_problem_complex ;;
  Some (four_body_problem_complex, current_tau).

(** The [while] loop, run for at most [fuel] turns, and the two [print]s
    after it, of which the first calls [round(current_m_O / 10 ** 12)]. *)
Fixpoint while_loop (fuel : nat)
    (four_body_problem_complex : FourBodyProblemComplex.instance F)
    (current_m_O current_tau : F)
  : outcome (F * FourBodyProblemComplex.instance F) :=
  if loop_condition current_tau then
    match fuel with
    | O => StillRunning
    | S fuel' =>
        let current_m_O := current_m_O / (current_tau / tau) in
        match solve_and_calculate current_m_O four_body_problem_complex with
        | None => Raised
        | Some (four_body_problem_complex, current_tau) =>
            while_loop fuel' four_body_problem_complex current_m_O current_tau
        end
    end
  else
    match f_round (current_m_O / f_of_Z (10 ^ 12)) with
    | None => Raised
    | Some _ => Returned (current_m_O, four_body_problem_complex)
    end.

(** The first [print] calls [round(current_tau / tau)]. *)
Definition _fit_mass_oceans (fuel : nat)
    (four_body_problem_complex : FourBodyProblemComplex.instance F)
  : outcome (F * FourBodyProblemComplex.instance F) :=
  let current_m_O := m_O in
  match solve_and_calculate current_m_O four_body_problem_complex with
  | None => Raised
  | Some (four_body_problem_complex, current_tau) =>
      match f_round (current_tau / tau) with
      | None => Raised
      | Some _ =>
          while_loop fuel four_body_problem_complex current_m_O current_tau
      end
  end.

(** The state at the head of the [k]-th test of the loop condition, were
    the loop never left: the instance, the guess and the achieved drift. *)
Fixpoint iterate (k : nat)
    (four_body_problem_complex : FourBodyProblemComplex.instance F)
  : option (FourBodyProblemComplex.instance F * F * F) :=
  match k with
  | O =>
      ' (self, current_tau) <- solve_and_calculate m_O four_body_problem_complex ;;
      _ <- f_round (current_tau / tau) ;;
      Some (self, m_O, current_tau)
  | S k' =>
      ' (self, current_m_O, current_tau) <- iterate k' four_body_problem_complex ;;
      let current_m_O := current_m_O / (current_tau / tau) in
      ' (self, current_tau) <- solve_and_calculate current_m_O self ;;
      Some (self, current_m_O, current_tau)
  end.

End WithMagicSolver.
End WithFloat.

(** In exact arithmetic: the achieved drift is within the tolerance. *)
Definition within_tolerance (current_tau : R) : Prop :=
  (Rabs (1 - current_tau / constants.tau) <= 0.01)%R.

End exercise_2_3_c.

(** ** What the specification says of a step

    The specification describes a step of a fixed-step solver as a function
    of the time [t] and the state [s] it starts from.  For Euler it is
    [s + h * rhs(t, s)]; for Runge-Kutta it is [RungeKuttaSolver.update].
    The rows a solver computes by taking the step [step t] at each [t] of
    a list of times: *)

Section Steps.
Context {F : Type} `{PyFloat F}.

Definition euler_step (f : F -> list F -> option (list F)) (h t : F) (s : list F)
  : option (list F) :=
  d <- f t s ;; np_iadd s (np_scale h d).

Fixpoint trajectory (step : F -> list F -> option (list F)) (ts : list F)
    (s : list F) : option (list (list F)) :=
  match ts with
  | [] => Some []
  | t :: ts' =>
      s' <- step t s ;;
      rows <- trajectory step ts' s' ;;
      Some (s' :: rows)
  end.

(** The same right-hand side read at another time. *)
Definition retime (g : F -> F) (de : DifferentialEquation F) : DifferentialEquation F :=
  Build_DifferentialEquation
    (fun t s => differential_equation_function de (g t) s)
    (initial_conditions de) (time_boundaries de) (data_points_amount de).

End Steps.

(** ** The two layouts of the state

    [FourBodyProblemComplex] keeps the rotation of Earth in the entries 12
    and 13, after the two tide particles; [NBodyProblem] keeps it in the
    entries 8 and 9, before them. *)

Definition n_body_order {A : Type} (r : list A) : list A :=
  firstn 8 r ++ skipn 12 r ++ firstn 4 (skipn 8 r).

(** The distances the right-hand side of [FourBodyProblemComplex] divides
    by, for a state in its layout. *)
Definition nonzero_separations (r : list R) : Prop :=
  match r with
  | [x_E; _; y_E; _; x_M; _; y_M; _; phi1; _; phi2; _; _; _] =>
      (sqrt ((x_M - x_E) ^ 2 + (y_M - y_E) ^ 2) <> 0
       /\ sqrt ((constants.r_E * cos phi1 + x_E - x_M) ^ 2
                + (constants.r_E * sin phi1 + y_E - y_M) ^ 2) <> 0
       /\ sqrt ((constants.r_E * cos phi2 + x_E - x_M) ^ 2
                + (constants.r_E * sin phi2 + y_E - y_M) ^ 2) <> 0)%R
  | _ => False
  end.

(** ** Concrete equations, in binary64 *)

Module inputs.
Local Open Scope float_scope.

(** [DifferentialEquation(lambda t, r: [t], (0.0,), (0, 2), 2)] *)
Definition clock : DifferentialEquation float :=
  Build_DifferentialEquation (fun t r => Some [t]) [Float 0] (0, 2) 2.

(** [DifferentialEquation(lambda t, r: [0.0], (0.0,), DEFAULT_TIME_BOUNDARIES, 7)] *)
Definition seven_points : DifferentialEquation float :=
  Build_DifferentialEquation (fun t r => Some [0]) [Float 0] (0, 5184000) 7.

(** The number of time points, the last time point and the number of rows
    of a result. *)
Definition shape_of (result : option (solver_result float))
  : option (nat * float * nat) :=
  ' (t_points, r_points) <- result ;;
  Some (length t_points, last t_points 0, length (rows_of_result r_points)).

End inputs.

(** ** Solvers in place of the [MagicSolver], for running the fit

    Black boxes of the type of a solver.  A [fixed_solver] ignores the
    equation and returns the times [t_points] with rows whose last entry,
    [vphi_E], runs through the given angular velocities (the other entries
    are zero). *)

Module fits.
Import constants.
Local Open Scope R_scope.

Definition century : R := 100 * 365.24 * 24 * 3600.

Definition spin_rows {F : Type} `{PyFloat F} (vphi_E : list F) : list (list F) :=
  map (fun w => repeat (f_of_Z 0) 13 ++ [w]) vphi_E.

Definition fixed_solver (t_points vphi_E : list R)
  : DifferentialEquation R -> option (solver_result R) :=
  fun _ => Some (t_points, Array2D (spin_rows vphi_E)).

(** Achieves the drift [PI], far from [tau]. *)
Definition stuck_solver := fixed_solver [0; century; 2 * century] [2; 2; 1].

(** Achieves the drift [tau]. *)
Definition exact_solver :=
  fixed_solver [0; century; 2 * century] [1; 1; 1 / (1 + tau / (2 * PI))].

(** Eight samples whose second half is no straight line. *)
Definition wobble_solver :=
  fixed_solver [0; 1; 2; 3; 4; 5; 6; 7] [1; 1; 1; 1; 1; 2; 1; 1].

(** A solver that looks at the right-hand side: it reads the deceleration
    of Earth's spin at the state [probe], which is proportional to the
    ocean mass, and returns the first velocities for the nominal mass and
    the second for any other mass. *)
Definition probe : list R := [0; 0; 0; 0; 1; 0; 0; 0; 0; 1; 0; 0; 0; 0].

Definition spin_change (de : DifferentialEquation R) : option R :=
  out <- differential_equation_function de 0 probe ;; nth_error out 13.

Definition relaxing_solver (de : DifferentialEquation R)
  : option (solver_result R) :=
  x <- spin_change de ;;
  if Req_dec_T x (5 / 4 * r_E * m_O / m_E * k) then stuck_solver de
  else exact_solver de.

(** The instance exercise 2.3c builds. *)
Definition start : FourBodyProblemComplex.instance R :=
  FourBodyProblemComplex.init (0, 2 * 365.24 * 24 * 3600) 5000.

(** *** In binary64

    The same instance in binary64: the class attribute
    [initial_conditions], the time boundaries [(0, 2 * 365.24 * 24 * 3600)]
    and the nominal ocean mass as Python computes them. *)
Definition start_binary64 : FourBodyProblemComplex.instance float :=
  FourBodyProblemComplex.Build_instance
    [ (-0x1.1c7c493cb4e50p+22)%float; 0%float; 0%float;
      (-0x1.8cffa980b9374p+3)%float; 0x1.696266db0d2c7p+28%float; 0%float;
      0%float; 0x1.f84f945ae3e04p+9%float; 0%float;
      0x1.653f4c4bb858bp-19%float; 0x1.921fb54442d18p+1%float;
      0x1.653f4c4bb858bp-19%float; 0%float; 0x1.3104b57cf96a3p-14%float ]
    (0%float, 63113472%float) 5000 0x1.2f939c99edab8p+70%float None.

(** A [solve] in place of [FourBodyProblemComplex.solve] with the
    [MagicSolver]: it assigns [m_O] like the method, and stores the
    solution made of the times and angular velocities [nominal] when the
    mass is the nominal one, and of [other] for any other mass. *)
Definition recorded_solve (nominal other : list float * list float)
    (m_O : float) (self : FourBodyProblemComplex.instance float)
  : FourBodyProblemComplex.instance float * option unit :=
  let self := FourBodyProblemComplex.set_m_O m_O self in
  let '(t_points, vphi_E) :=
    if PrimFloat.eqb m_O exercise_2_3_c.m_O then nominal else other in
  match FourBodyProblemComplex.solution_dict
          (t_points, Array2D (spin_rows vphi_E)) with
  | None => (self, None)
  | Some d => (FourBodyProblemComplex.set_solution d self, Some tt)
  end.

(** With the nominal mass three samples over two centuries, on which Earth
    slows down much more than by [tau]; with any other mass two samples,
    whose last is also the middle one. *)
Definition nan_solve :=
  recorded_solve ([0; 3155673600; 6311347200]%float, [2; 2; 1]%float)
                 ([0; 1]%float, [1; 1]%float).

End fits.

(** ** The estimate as the specification words it

    The specification has the achieved drift estimated "by linear
    regression of spin angular velocity over the second half of the
    simulated horizon".  [regression.calculate_current_tau] is
    [_calculate_current_tau] with the slope of the least-squares line
    through the samples from [t_one_year] on in place of the slope the code
    takes. *)

Module regression.
Local Open Scope R_scope.

Definition sum (l : list R) : R := fold_right Rplus 0 l.

Definition mean (l : list R) : R := sum l / INR (length l).

(** The slope of the least-squares line through the points [(x, y)]. *)
Definition linear_regression_slope (xs ys : list R) : R :=
  let x_mean := mean xs in
  let y_mean := mean ys in
  sum (zip_with (fun x y => (x - x_mean) * (y - y_mean)) xs ys)
  / sum (map (fun x => (x - x_mean) ^ 2) xs).

Definition calculate_current_tau
    (four_body_problem_complex : FourBodyProblemComplex.instance R) : option R :=
  solution <- FourBodyProblemComplex.solution four_body_problem_complex ;;
  solution_t <- dict_get "t" solution ;;
  solution_vphi_E <- dict_get "vphi_E" solution ;;
  let t_one_year := (length solution_t / 2)%nat in
  vphi_E_one_year <- nth_error solution_vphi_E t_one_year ;;
  let slope :=
    linear_regression_slope (skipn t_one_year solution_t)
                            (skipn t_one_year solution_vphi_E) in
  let final_angular_velocity :=
    vphi_E_one_year + 100 * 365.24 * 24 * 3600 * slope in
  Some (2 * PI * (1 / final_angular_velocity - 1 / vphi_E_one_year)).

End regression.

(** ** More of numpy: products, differences and [np.linspace] *)

Section NumPyMore.
Context {F : Type} `{PyFloat F}.
Local Open Scope py_scope.


Definition np_sub (u v : list F) : option (list F) :=
  if (length u =? length v)%nat then Some (zip_with f_sub u v)
  else match u, v with
       | _, [y] => Some (map (fun x => x - y) u)
       | [x], _ => Some (map (fun y => x - y) v)
       | _, _ => None
       end.

(** [np.linspace(start, stop, num)] as numpy computes it: [num] values
    [i * step + start] with [step = (stop - start) / (num - 1)], the last
    of them overwritten by [stop]; a negative [num] raises [ValueError].
    When [step] is zero the values are [(i / (num - 1)) * (stop - start)
    + start]. *)
Definition linspace_item (start stop : F) (num : Z) (i : nat) : F :=
  let div := (num - 1)%Z in
  let delta := stop - start in
  let y := f_of_Z (Z.of_nat i) in
  if (0 <? div)%Z then
    let step := delta / f_of_Z div in
    if f_eqb step (f_of_Z 0) then (y / f_of_Z div) * delta + start
    else y * step + start
  else y * delta + start.

Definition np_linspace (start stop : F) (num : Z) : option (list F) :=
  if (num <? 0)%Z then None
  else
    let y := map (linspace_item start stop num) (seq 0 (Z.to_nat num)) in
    Some (if (1 <? num)%Z then removelast y ++ [stop] else y).

End NumPyMore.

(** ** gezeiten/solvers/magic_solver.py

    [scipy.integrate.solve_ivp] is a parameter: it is given the right-hand
    side, the time boundaries, the initial conditions and the times
    [t_eval] at which to sample, and returns [solution.t] and
    [solution.y], which has one row per component of the state; [.T]
    turns it into one row per time. *)

Module MagicSolver.
Section WithSciPy.
Context {F : Type} `{PyFloat F}.
Variable solve_ivp :
  (F -> list F -> option (list F)) -> F * F -> list (number F) -> list F ->
  option (list F * list (list F)).

(** [y.T] for a two-dimensional array given by its rows. *)
Definition transpose (y : list (list F)) : option (list (list F)) :=
  map_option (fun j => column j y) (seq 0 (length (hd [] y))).

Definition solve (de : DifferentialEquation F) : option (solver_result F) :=
  let '(a, b) := time_boundaries de in
  t_points <- np_linspace a b (data_points_amount de) ;;
  ' (solution_t, solution_y) <-
    solve_ivp (differential_equation_function de) (time_boundaries de)
              (initial_conditions de) t_points ;;
  solution_y_T <- transpose solution_y ;;
  Some (solution_t, Array2D solution_y_T).

End WithSciPy.
End MagicSolver.

(** ** Methods of the models that read [self.solution]

    [solve] returns the dictionary it stores in [self.solution]; an
    accessor takes that dictionary.  The rows of a two-dimensional array a
    solver returns are one or more. *)

(** [gezeiten/differential_equations/two_body_problem.py] *)

Module two_body_problem.
Import constants.
Local Open Scope R_scope.

(** The dictionary literal of [solve], its entries evaluated in the order
    they are written. *)
Definition solution_dict (solution : solver_result R) : option (dict (list R)) :=
  let '(t_points, r_points) := solution in
  x_E <- T_row 0 r_points ;;
  y_E <- T_row 2 r_points ;;
  vx_E <- T_row 1 r_points ;;
  vy_E <- T_row 3 r_points ;;
  x_M <- T_row 4 r_points ;;
  y_M <- T_row 6 r_points ;;
  vx_M <- T_row 5 r_points ;;
  vy_M <- T_row 7 r_points ;;
  Some [ ("t", t_points); ("x_E", x_E); ("y_E", y_E); ("vx_E", vx_E);
         ("vy_E", vy_E); ("x_M", x_M); ("y_M", y_M); ("vx_M", vx_M);
         ("vy_M", vy_M) ]%string.

Definition solve (solver : DifferentialEquation R -> option (solver_result R))
    (self : DifferentialEquation R) : option (dict (list R)) :=
  solution <- solver self ;;
  solution_dict solution.

(** [np.array([xs, ys])] of two arrays of one length. *)
Definition np_array2 (xs ys : list R) : option (list R * list R) :=
  if (length xs =? length ys)%nat then Some (xs, ys) else None.

(** The value given to [self.r_points_center]: its two rows. *)
Definition _render_center_of_mass (solution : dict (list R))
  : option (list R * list R) :=
  x_points_earth <- dict_get "x_E" solution ;;
  y_points_earth <- dict_get "y_E" solution ;;
  x_points_moon <- dict_get "x_M" solution ;;
  y_points_moon <- dict_get "y_M" solution ;;
  ' (x_earth, y_earth) <- np_array2 x_points_earth y_points_earth ;;
  ' (x_moon, y_moon) <- np_array2 x_points_moon y_points_moon ;;
  x_sum <- np_add (np_scale m_E x_earth) (np_scale m_M x_moon) ;;
  y_sum <- np_add (np_scale m_E y_earth) (np_scale m_M y_moon) ;;
  Some (np_div_scalar x_sum (m_E + m_M), np_div_scalar y_sum (m_E + m_M)).

(** The states in which the centre of mass of Earth and Moon is at the
    origin and at rest (no total momentum). *)
Definition centre_of_mass_at_rest (r : list R) : Prop :=
  match r with
  | [x_E; vx_E; y_E; vy_E; x_M; vx_M; y_M; vy_M] =>
      m_E * x_E + m_M * x_M = 0 /\ m_E * vx_E + m_M * vx_M = 0 /\
      m_E * y_E + m_M * y_M = 0 /\ m_E * vy_E + m_M * vy_M = 0
  | _ => False
  end.

End two_body_problem.

(** [gezeiten/differential_equations/four_body_problem_simple.py] *)

Module four_body_problem_simple.
Import constants.
Local Open Scope R_scope.

Definition solution_keys : list string :=
  [ "x_E"; "vx_E"; "y_E"; "vy_E"; "x_M"; "vx_M"; "y_M"; "vy_M";
    "phi1"; "vphi1"; "phi2"; "vphi2" ]%string.

Definition solution_dict (solution : solver_result R) : option (dict (list R)) :=
  let '(t_points, r_points) := solution in
  columns <- map_option (fun i => T_row i r_points) (seq 0 12) ;;
  Some (("t"%string, t_points) :: combine solution_keys columns).

Definition solve (solver : DifferentialEquation R -> option (solver_result R))
    (self : DifferentialEquation R) : option (dict (list R)) :=
  solution <- solver self ;;
  solution_dict solution.

Definition _x_points_phi (solution : dict (list R)) (phi_points : list R)
  : option (list R) :=
  x_E <- dict_get "x_E" solution ;;
  np_add (np_scale r_E (map cos phi_points)) x_E.

Definition _y_points_phi (solution : dict (list R)) (phi_points : list R)
  : option (list R) :=
  y_E <- dict_get "y_E" solution ;;
  np_add (np_scale r_E (map sin phi_points)) y_E.



(** [np.sqrt(x ** 2 + y ** 2)] *)
Definition np_hypot (x y : list R) : option (list R) :=
  s <- np_add (map (fun a => a ^ 2) x) (map (fun a => a ^ 2) y) ;;
  Some (map sqrt s).

(** The two curves [plot_distance_earth_tide] draws over
    [self.solution["t"]]: [r_rel1] and [r_rel2]. *)
Definition plot_distance_earth_tide (solution : dict (list R))
  : option (list R * list R) :=
  phi1 <- dict_get "phi1" solution ;;
  x_F1 <- _x_points_phi solution phi1 ;;
  x_E <- dict_get "x_E" solution ;;
  x_rel1 <- np_sub x_F1 x_E ;;
  y_F1 <- _y_points_phi solution phi1 ;;
  y_E <- dict_get "y_E" solution ;;
  y_rel1 <- np_sub y_F1 y_E ;;
  phi2 <- dict_get "phi2" solution ;;
  x_F2 <- _x_points_phi solution phi2 ;;
  x_rel2 <- np_sub x_F2 x_E ;;
  y_F2 <- _y_points_phi solution phi2 ;;
  y_rel2 <- np_sub y_F2 y_E ;;
  r_rel1 <- np_hypot x_rel1 y_rel1 ;;
  r_rel2 <- np_hypot x_rel2 y_rel2 ;;
  Some (r_rel1, r_rel2).

End four_body_problem_simple.

(** [gezeiten/differential_equations/four_body_problem_complex.py]: the
    two curves [plot_velocity_high_tides] draws. *)

Module four_body_problem_complex.
Import four_body_problem_simple.


End four_body_problem_complex.

(** [gezeiten/differential_equations/n_body_problem.py]: the entry
    ["r_N"] of the dictionary is two-dimensional. *)

Module n_body_problem.
Local Open Scope R_scope.

Inductive ndarray : Type :=
| Array1 (values : list R)
| Array2 (rows : list (list R)).

(** [rows.T[k:]]: the columns from [k] on; a slice never raises. *)
Definition columns_from (k : nat) (rows : list (list R)) : option (list (list R)) :=
  map_option (fun i => column i rows) (seq k (length (hd [] rows) - k)).

(** [r_points.T[k:]] for the [r_points] a solver returned. *)
Definition T_rows_from (k : nat) (r_points : r_points_result R)
  : option (list (list R)) :=
  match r_points with
  | Array2D rows => columns_from k rows
  | ListOfArray _ => None
  end.

Definition solution_dict (solution : solver_result R) : option (dict ndarray) :=
  let '(t_points, r_points) := solution in
  x_E <- T_row 0 r_points ;;
  vx_E <- T_row 1 r_points ;;
  y_E <- T_row 2 r_points ;;
  vy_E <- T_row 3 r_points ;;
  x_M <- T_row 4 r_points ;;
  vx_M <- T_row 5 r_points ;;
  y_M <- T_row 6 r_points ;;
  vy_M <- T_row 7 r_points ;;
  phi_E <- T_row 8 r_points ;;
  vphi_E <- T_row 9 r_points ;;
  r_N <- T_rows_from 10 r_points ;;
  phi1 <- T_row 10 r_points ;;
  vphi1 <- T_row 11 r_points ;;
  phi2 <- T_row 12 r_points ;;
  vphi2 <- T_row 13 r_points ;;
  Some [ ("t", Array1 t_points); ("x_E", Array1 x_E); ("vx_E", Array1 vx_E);
         ("y_E", Array1 y_E); ("vy_E", Array1 vy_E); ("x_M", Array1 x_M);
         ("vx_M", Array1 vx_M); ("y_M", Array1 y_M); ("vy_M", Array1 vy_M);
         ("phi_E", Array1 phi_E); ("vphi_E", Array1 vphi_E);
         ("r_N", Array2 r_N); ("phi1", Array1 phi1); ("vphi1", Array1 vphi1);
         ("phi2", Array1 phi2); ("vphi2", Array1 vphi2) ]%string.

Definition solve (solver : DifferentialEquation R -> option (solver_result R))
    (self : DifferentialEquation R) : option (dict ndarray) :=
  solution <- solver self ;;
  solution_dict solution.

(** [NBodyProblem] with another value of the class attribute [N]. *)
Definition init_for (N : nat) (time_boundaries : R * R) (data_points_amount : Z)
  : DifferentialEquation R :=
  Build_DifferentialEquation (NBodyProblem.f_for N)
                             (map Float (NBodyProblem.initial_conditions_for N))
                             time_boundaries data_points_amount.

End n_body_problem.

(** * Properties *)

(** ** Exceptions and loops *)

Ltac bind_inv H :=
  match type of H with
  | bind ?m _ = Some _ =>
      let E := fresh "E" in
      destruct m eqn:E; [cbn [bind] in H | discriminate H]
  end.

Lemma bind_Some {A B : Type} (m : option A) (k : A -> option B) (b : B) :
  bind m k = Some b <-> exists a, m = Some a /\ k a = Some b.
Proof.
  split.
  - destruct m as [a|]; [intros E; exists a; split; trivial | discriminate].
  - intros (a & -> & E). exact E.
Qed.

Lemma for_each_ext {S A : Type} (body body' : S -> A -> option S) (xs : list A) :
  (forall s x, body s x = body' s x) ->
  forall s, for_each body xs s = for_each body' xs s.
Proof.
  intros Hb. induction xs as [|x xs IH]; intros s; cbn; [reflexivity|].
  rewrite Hb. destruct (body' s x); cbn; auto.
Qed.

(** ** The loops of the solvers compute a trajectory *)

Section SolverLoops.
Context {F : Type} `{PyFloat F}.

Lemma trajectory_length step (ts : list F) : forall s rows,
  trajectory step ts s = Some rows -> length rows = length ts.
Proof.
  induction ts as [|t ts IH]; intros s rows E; cbn in E.
  - now inversion E.
  - bind_inv E. bind_inv E. inversion E; subst. cbn. f_equal. eauto.
Qed.

(** Row [k + 1] is the step taken from row [k] at the [k]-th time of [ts]. *)
Lemma trajectory_nth step (ts : list F) : forall s rows k d0 d1,
  trajectory step ts s = Some rows ->
  (k < length ts)%nat ->
  step (nth k ts d0) (nth k (s :: rows) d1) = Some (nth k rows d1).
Proof.
  induction ts as [|t ts IH]; intros s rows k d0 d1 E Hk; cbn in *; [lia|].
  bind_inv E. bind_inv E. inversion E; subst; clear E.
  destruct k as [|k]; [exact E0|].
  cbn. apply IH; [assumption | lia].
Qed.

Lemma last_cons_default {A : Type} (l : list A) : forall x d d',
  last (x :: l) d = last (x :: l) d'.
Proof.
  induction l as [|y l IH]; intros x d d'; [reflexivity|].
  change (last (y :: l) d = last (y :: l) d'). apply IH.
Qed.

Lemma trajectory_ext step step' (ts : list F) :
  (forall t s, step t s = step' t s) ->
  forall s, trajectory step ts s = trajectory step' ts s.
Proof.
  intros Hs. induction ts as [|t ts IH]; intros s; cbn; [reflexivity|].
  rewrite Hs. destruct (step' t s); cbn; [rewrite IH|]; reflexivity.
Qed.

Lemma EulerSolver_loop f h (ts : list F) : forall r r_points,
  for_each (EulerSolver.loop_body f h) ts (r, r_points) =
  (rows <- trajectory (euler_step f h) ts r ;;
   Some (last rows r, r_points ++ rows)).
Proof.
  induction ts as [|t ts IH]; intros r r_points; cbn.
  - now rewrite app_nil_r.
  - unfold euler_step at 1. destruct (f t r) as [d|]; cbn; [|reflexivity].
    destruct (np_iadd r (np_scale h d)) as [r'|]; cbn; [|reflexivity].
    rewrite IH. destruct (trajectory (euler_step f h) ts r') as [rows|]; cbn;
      [|reflexivity].
    rewrite <- app_assoc. cbn [app].
    destruct rows as [|row rows]; [reflexivity|].
    change (last (r' :: row :: rows) r) with (last (row :: rows) r).
    now rewrite (last_cons_default rows row r r').
Qed.

Lemma RungeKuttaSolver_loop f h (ts : list F) : forall r rows0,
  for_each (RungeKuttaSolver.loop_body f h) ts
           (Float64Array r, RungeKuttaSolver.NdArray rows0) =
  (rows <- trajectory (fun t s => RungeKuttaSolver.update f h s t) ts r ;;
   Some (Float64Array (last rows r), RungeKuttaSolver.NdArray (rows0 ++ rows))).
Proof.
  induction ts as [|t ts IH]; intros r rows0; cbn.
  - now rewrite app_nil_r.
  - destruct (RungeKuttaSolver.update f h r t) as [r'|]; cbn; [|reflexivity].
    unfold RungeKuttaSolver.np_append. cbn. rewrite IH.
    destruct (trajectory _ ts r') as [rows|]; cbn; [|reflexivity].
    rewrite <- app_assoc. cbn [app].
    destruct rows as [|row rows]; [reflexivity|].
    change (last (r' :: row :: rows) r) with (last (row :: rows) r).
    now rewrite (last_cons_default rows row r r').
Qed.

(** The entries [np.array] keeps are those of [np.array(..., float)],
    whatever the dtype. *)
Lemma all_ints_values (l : list (number F)) : forall zs,
  all_ints l = Some zs ->
  map (fun z => f_of_Z (int64_value z)) zs = np_array_float l.
Proof.
  induction l as [|[z|x] l IH]; intros zs E; cbn in E.
  - now inversion E.
  - bind_inv E. inversion E; subst. cbn. f_equal. now apply IH.
  - discriminate.
Qed.

Lemma array_values_np_array (l : list (number F)) :
  array_values (np_array l) = np_array_float l.
Proof.
  unfold np_array. destruct l as [|x l]; [reflexivity|].
  destruct (all_ints (x :: l)) as [zs|] eqn:E; [|reflexivity].
  cbn [array_values]. now apply all_ints_values.
Qed.

(** The dtype is [float64] as soon as one entry is a float. *)
Lemma np_array_with_float (l : list (number F)) :
  all_ints l = None -> np_array l = Float64Array (np_array_float l).
Proof.
  intros E. destruct l as [|x l]; [reflexivity|].
  unfold np_array. now rewrite E.
Qed.

Lemma np_array_map_Float (l : list F) :
  np_array (map Float l) = Float64Array l
  /\ np_array_float (map (@Float F) l) = l.
Proof.
  assert (E : np_array_float (map (@Float F) l) = l).
  { unfold np_array_float. rewrite map_map. cbn. apply map_id. }
  split; [|exact E].
  destruct l as [|x l]; [reflexivity|].
  now rewrite np_array_with_float, E.
Qed.

(** What [EulerSolver.solve] returns: the first row is the initial state
    and every further row is the Euler step from the row before it, with
    the right-hand side read at the time of the NEW row. *)
Lemma EulerSolver_solve_rows (de : DifferentialEquation F) t_points r_points :
  EulerSolver.solve de = Some (t_points, r_points) ->
  exists h rows,
    py_truediv (f_sub (snd (time_boundaries de)) (fst (time_boundaries de)))
               (data_points_amount de) = Some h /\
    np_arange (fst (time_boundaries de)) (snd (time_boundaries de)) h
      = Some t_points /\
    trajectory (euler_step (differential_equation_function de) h)
               (tl t_points) (np_array_float (initial_conditions de))
      = Some rows /\
    r_points = Array2D (np_array_float (initial_conditions de) :: rows).
Proof.
  unfold EulerSolver.solve. destruct (time_boundaries de) as [a b]. cbn [fst snd].
  intros E. bind_inv E. bind_inv E. rewrite EulerSolver_loop in E.
  destruct (trajectory _ (tl l) (np_array_float (initial_conditions de)))
    as [rows|] eqn:ET; cbn in E; [|discriminate].
  inversion E; subst. exists f, rows. auto.
Qed.

(** What [RungeKuttaSolver.solve] returns.  When no step is taken it is
    the Python list [[r]] with [r = np.array(initial_conditions)].  When a
    step is taken the initial conditions hold a float, [r_points] is a
    two-dimensional array, its rows after the first are the Runge-Kutta
    steps, taken at the time of the new row, and its first row is the state
    after the first step, for the list [[r]] holds the array that the step
    updates in place. *)
Lemma RungeKuttaSolver_solve_rows (de : DifferentialEquation F) t_points r_points :
  RungeKuttaSolver.solve de = Some (t_points, r_points) ->
  exists h rows,
    py_truediv (f_sub (snd (time_boundaries de)) (fst (time_boundaries de)))
               (data_points_amount de) = Some h /\
    np_arange (fst (time_boundaries de)) (snd (time_boundaries de)) h
      = Some t_points /\
    trajectory (fun t s =>
                  RungeKuttaSolver.update (differential_equation_function de) h s t)
               (tl t_points) (np_array_float (initial_conditions de))
      = Some rows /\
    rows_of_result r_points
      = hd (np_array_float (initial_conditions de)) rows :: rows /\
    (rows = [] -> r_points = ListOfArray (np_array (initial_conditions de))) /\
    (rows <> [] ->
     r_points = Array2D (hd [] rows :: rows) /\
     np_array (initial_conditions de)
     = Float64Array (np_array_float (initial_conditions de))).
Proof.
  unfold RungeKuttaSolver.solve. destruct (time_boundaries de) as [a b]. cbn [fst snd].
  intros E. bind_inv E. bind_inv E.
  destruct (tl l) as [|t ts] eqn:Etl.
  - cbn in E. inversion E; subst. exists f, []. rewrite Etl.
    cbn [rows_of_result hd]. rewrite array_values_np_array.
    repeat split; trivial; congruence.
  - cbn [for_each] in E.
    destruct (np_array (initial_conditions de)) as [zs|r] eqn:Er;
      [discriminate E|].
    pose proof (array_values_np_array (initial_conditions de)) as Ev.
    rewrite Er in Ev. cbn [array_values] in Ev. subst r.
    cbn [RungeKuttaSolver.loop_body] in E.
    destruct (RungeKuttaSolver.update _ f (np_array_float (initial_conditions de)) t)
      as [r'|] eqn:EU; cbn [bind] in E; [|discriminate].
    unfold RungeKuttaSolver.np_append in E. cbn [RungeKuttaSolver.rows_of app] in E.
    rewrite RungeKuttaSolver_loop in E.
    destruct (trajectory _ ts r') as [rows|] eqn:ET; cbn in E; [|discriminate].
    inversion E; subst. exists f, (r' :: rows). rewrite Etl. cbn [trajectory].
    rewrite EU. cbn [bind]. rewrite ET. cbn [bind rows_of_result hd].
    repeat split; trivial; discriminate.
Qed.

Lemma nth_tl {A : Type} (l : list A) (k : nat) (d : A) :
  nth k (tl l) d = nth (S k) l d.
Proof. destruct l; [destruct k|]; reflexivity. Qed.

(** Row [k + 1] of [EulerSolver.solve] is the Euler step from row [k] with
    the right-hand side read at [t_points[k + 1]]. *)
Lemma EulerSolver_solve_step (de : DifferentialEquation F) t_points r_points
    (k : nat) (d : F) :
  EulerSolver.solve de = Some (t_points, r_points) ->
  (S k < length t_points)%nat ->
  exists h,
    py_truediv (f_sub (snd (time_boundaries de)) (fst (time_boundaries de)))
               (data_points_amount de) = Some h /\
    nth 0 (rows_of_result r_points) []
    = np_array_float (initial_conditions de) /\
    euler_step (differential_equation_function de) h
               (nth (S k) t_points d) (nth k (rows_of_result r_points) [])
    = Some (nth (S k) (rows_of_result r_points) []).
Proof.
  intros E Hk. apply EulerSolver_solve_rows in E.
  destruct E as (h & rows & Eh & _ & ET & ->). cbn [rows_of_result].
  exists h. split; [exact Eh|]. split; [reflexivity|].
  rewrite <- nth_tl. cbn [nth].
  apply (trajectory_nth _ _ _ d [] ET).
  destruct t_points; cbn in *; lia.
Qed.

(** For a right-hand side that ignores the time, the rows of
    [EulerSolver.solve] are the steps the specification describes, with the
    right-hand side read at [t_points[k]]. *)
Lemma EulerSolver_solve_step_autonomous (de : DifferentialEquation F)
    t_points r_points (k : nat) (d : F) :
  (forall t t' s, differential_equation_function de t s
                  = differential_equation_function de t' s) ->
  EulerSolver.solve de = Some (t_points, r_points) ->
  (S k < length t_points)%nat ->
  exists h,
    py_truediv (f_sub (snd (time_boundaries de)) (fst (time_boundaries de)))
               (data_points_amount de) = Some h /\
    euler_step (differential_equation_function de) h
               (nth k t_points d) (nth k (rows_of_result r_points) [])
    = Some (nth (S k) (rows_of_result r_points) []).
Proof.
  intros Hf E Hk.
  destruct (@EulerSolver_solve_step de t_points r_points k d E Hk)
    as (h & Eh & _ & Estep).
  exists h. split; [exact Eh|].
  unfold euler_step in *. now rewrite (Hf _ (nth (S k) t_points d)).
Qed.

(** The rows of [RungeKuttaSolver.solve] when a step is taken: the first
    step starts from the initial state, and the rows 0 and 1 both hold the
    state after it; each later row is the Runge-Kutta step from the row
    before it.  The stages read the right-hand side from [t_points[k + 1]]
    on. *)
Lemma RungeKuttaSolver_solve_step (de : DifferentialEquation F) t_points r_points
    (d : F) :
  RungeKuttaSolver.solve de = Some (t_points, r_points) ->
  (1 < length t_points)%nat ->
  exists h,
    py_truediv (f_sub (snd (time_boundaries de)) (fst (time_boundaries de)))
               (data_points_amount de) = Some h /\
    nth 0 (rows_of_result r_points) [] = nth 1 (rows_of_result r_points) [] /\
    RungeKuttaSolver.update (differential_equation_function de) h
                            (np_array_float (initial_conditions de))
                            (nth 1 t_points d)
    = Some (nth 1 (rows_of_result r_points) []) /\
    forall k, (1 <= k)%nat -> (S k < length t_points)%nat ->
      RungeKuttaSolver.update (differential_equation_function de) h
                              (nth k (rows_of_result r_points) [])
                              (nth (S k) t_points d)
      = Some (nth (S k) (rows_of_result r_points) []).
Proof.
  intros E Hlen. apply RungeKuttaSolver_solve_rows in E.
  destruct E as (h & rows & Eh & _ & ET & -> & _).
  exists h. split; [exact Eh|].
  assert (Hrows : length rows = length (tl t_points))
    by (eapply trajectory_length; exact ET).
  assert (Htl : (0 < length (tl t_points))%nat)
    by (destruct t_points; cbn in *; lia).
  destruct rows as [|row rows]; [cbn in Hrows; lia|]. cbn [hd].
  split; [reflexivity|]. split.
  - rewrite <- nth_tl.
    exact (@trajectory_nth _ (tl t_points)
             (np_array_float (initial_conditions de)) (row :: rows)
             0%nat d [] ET Htl).
  - intros k Hk HSk. rewrite <- nth_tl.
    destruct k as [|k]; [lia|].
    change (nth (S k) (row :: row :: rows) [])
      with (nth (S k) (np_array_float (initial_conditions de) :: row :: rows) []).
    apply (@trajectory_nth _ (tl t_points)
             (np_array_float (initial_conditions de)) (row :: rows)
             (S k) d [] ET).
    destruct t_points; cbn in *; lia.
Qed.

End SolverLoops.

(** ** The solvers run in binary64 *)

(** C1 (code bug).  The claim: [EulerSolver.solve] advances by
    [state_{k+1} = state_k + h * rhs(t_k, state_k)], with [t_k] the time at
    which [state_k] is recorded.  The loop runs over [t_points[1:]] and
    hands its loop variable to the right-hand side, so the step from
    [state_k] reads the right-hand side at [t_{k+1}].  On the equation
    [r' = t], [r(0) = 0] over [(0, 2)] with 2 points ([h = 1]), the solver
    returns the rows [[0], [1]]: the second row is the step taken at time 1,
    where the claim asks for the step taken at time 0, which is [[0]]. *)
Theorem EulerSolver_reads_rhs_at_new_time :
  EulerSolver.solve inputs.clock = Some ([0; 1], Array2D [[0]; [1]])%float /\
  euler_step (differential_equation_function inputs.clock) 1%float 0%float
    [0%float] = Some [0%float] /\
  euler_step (differential_equation_function inputs.clock) 1%float 1%float
    [0%float] = Some [1%float] /\
  PrimFloat.eqb 1 0 = false.
Proof. repeat split; vm_compute; reflexivity. Qed.

(** C2 (code bug).  The claim: each step of [RungeKuttaSolver.solve] from
    the sampled time [t_k] computes the four stages at [t_k], [t_k + h/2],
    [t_k + h/2], [t_k + h] and adds [(k1 + 2*k2 + 2*k3 + k4)/6].  The loop
    hands [t_{k+1}] to the stages.  On the equation [r' = t], [r(0) = 0]
    over [(0, 2)] with 2 points ([h = 1]) the state after the step is
    [[1.5]], the step taken at time 1, where the step taken at time 0 gives
    [[0.5]]; and the first row returned is [[1.5]] too, not the initial
    state, since the list [[r]] holds the array updated in place. *)
Theorem RungeKuttaSolver_reads_rhs_at_new_time :
  RungeKuttaSolver.solve inputs.clock
    = Some ([0; 1], Array2D [[1.5]; [1.5]])%float /\
  RungeKuttaSolver.update (differential_equation_function inputs.clock) 1%float
    [0%float] 0%float = Some [0.5%float] /\
  RungeKuttaSolver.update (differential_equation_function inputs.clock) 1%float
    [0%float] 1%float = Some [1.5%float] /\
  PrimFloat.eqb 1.5 0.5 = false.
Proof. repeat split; vm_compute; reflexivity. Qed.

(** C4 (code bug).  The claim: for [t1 > t0] and [n >= 1] points both
    solvers return exactly [n] time points on the half-open grid from [t0]
    with step [h = (t1 - t0) / n], never [t1], and one row per time point.
    [np.arange] takes [ceil((t1 - t0) / h)] points, and in binary64 the
    quotient can come out above [n].  Over the default time boundaries
    [(0, 5184000)] with [n = 7], [(t1 - t0) / h] is [7.000000000000001]:
    both solvers return 8 time points, the last of them [t1 = 5184000], and
    8 rows. *)
Theorem fixed_step_solvers_one_point_too_many :
  data_points_amount inputs.seven_points = 7%Z /\
  time_boundaries inputs.seven_points = (0, 5184000)%float /\
  inputs.shape_of (EulerSolver.solve inputs.seven_points)
    = Some (8%nat, 5184000%float, 8%nat) /\
  inputs.shape_of (RungeKuttaSolver.solve inputs.seven_points)
    = Some (8%nat, 5184000%float, 8%nat).
Proof. repeat split; vm_compute; reflexivity. Qed.

(** The right-hand side and the initial conditions play no part in it:
    over these time boundaries with 7 points, whatever equation either
    solver returns from, it returns 8 time points ending in [t1] and 8
    rows. *)
Lemma seven_points_any_equation (de : DifferentialEquation float) t_points r_points :
  time_boundaries de = (0, 5184000)%float ->
  data_points_amount de = 7%Z ->
  EulerSolver.solve de = Some (t_points, r_points) \/
  RungeKuttaSolver.solve de = Some (t_points, r_points) ->
  length t_points = 8%nat /\ last t_points 0%float = 5184000%float
  /\ length (rows_of_result r_points) = 8%nat.
Proof.
  intros Htb Hn Hsolve.
  assert (Hgrid : forall (h : float) (rows : list (list float)),
    py_truediv (f_sub (snd (time_boundaries de)) (fst (time_boundaries de)))
               (data_points_amount de) = Some h ->
    np_arange (fst (time_boundaries de)) (snd (time_boundaries de)) h
      = Some t_points ->
    length rows = length (tl t_points) ->
    length t_points = 8%nat /\ last t_points 0%float = 5184000%float
    /\ S (length rows) = 8%nat).
  { intros h rows Eh Et Hrows. rewrite Htb, Hn in Eh. rewrite Htb in Et.
    vm_compute in Eh. injection Eh as <-.
    vm_compute in Et. injection Et as <-.
    rewrite Hrows. repeat split. }
  destruct Hsolve as [E|E].
  - apply EulerSolver_solve_rows in E. destruct E as (h & rows & Eh & Et & ET & ->).
    apply trajectory_length in ET. cbn [rows_of_result length].
    now apply (Hgrid h rows).
  - apply RungeKuttaSolver_solve_rows in E.
    destruct E as (h & rows & Eh & Et & ET & -> & _).
    apply trajectory_length in ET. cbn [length]. now apply (Hgrid h rows).
Qed.

(** ** The solvers in exact arithmetic *)

Section ExactArithmetic.
Local Open Scope R_scope.

Lemma Rceil_IZR (n : Z) : Rceil (IZR n) = n.
Proof.
  unfold Rceil.
  assert (E : (1 - n)%Z = up (- IZR n)).
  { apply tech_up; rewrite <- opp_IZR.
    - apply IZR_lt. lia.
    - rewrite <- (plus_IZR (- n) 1). apply IZR_le. lia. }
  rewrite <- E. lia.
Qed.

Lemma arange_item_exact (a h : R) (i : nat) :
  arange_item a h i = a + INR i * h.
Proof.
  destruct i as [|[|i]]; unfold arange_item;
    cbn [f_add f_sub f_mul f_of_Z PyFloat_R].
  - cbn. ring.
  - cbn. ring.
  - rewrite <- INR_IZR_INZ. ring.
Qed.

(** In exact arithmetic [np.arange(a, b, (b - a) / n)] is the grid of [n]
    points [a + i * h]. *)
Lemma np_arange_exact (a b : R) (n : Z) :
  a < b -> (1 <= n)%Z ->
  np_arange a b ((b - a) / IZR n) =
  Some (map (fun i => a + INR i * ((b - a) / IZR n)) (seq 0 (Z.to_nat n))).
Proof.
  intros Hab Hn.
  assert (Hn' : 0 < IZR n) by (apply IZR_lt; lia).
  assert (Hh : 0 < (b - a) / IZR n) by (apply Rdiv_lt_0_compat; lra).
  unfold np_arange. cbn -[Rceil].
  destruct (Req_dec_T ((b - a) / IZR n) 0) as [E|_]; [lra|].
  replace ((b - a) / ((b - a) / IZR n)) with (IZR n) by (field; lra).
  rewrite Rceil_IZR. f_equal. apply map_ext. intros i. apply arange_item_exact.
Qed.

Lemma grid_point_before_end (a b : R) (n : Z) (i : nat) :
  a < b -> (i < Z.to_nat n)%nat -> a + INR i * ((b - a) / IZR n) < b.
Proof.
  intros Hab Hi.
  assert (Hn : (1 <= n)%Z) by lia.
  assert (Hn' : 0 < IZR n) by (apply IZR_lt; lia).
  assert (Hin : INR i < IZR n).
  { rewrite INR_IZR_INZ. apply IZR_lt. lia. }
  replace b with (a + IZR n * ((b - a) / IZR n)) at 2 by (field; lra).
  apply Rplus_lt_compat_l, Rmult_lt_compat_r; [|exact Hin].
  apply Rdiv_lt_0_compat; lra.
Qed.

(** In exact arithmetic the claim C4 holds of both solvers whenever they
    return: [n] time points [t0 + i * h], all of them before [t1], and as
    many rows. *)
Lemma fixed_step_grid_exact (de : DifferentialEquation R) t_points r_points :
  fst (time_boundaries de) < snd (time_boundaries de) ->
  (1 <= data_points_amount de)%Z ->
  EulerSolver.solve de = Some (t_points, r_points) \/
  RungeKuttaSolver.solve de = Some (t_points, r_points) ->
  let t0 := fst (time_boundaries de) in
  let t1 := snd (time_boundaries de) in
  let h := (t1 - t0) / IZR (data_points_amount de) in
  t_points = map (fun i => t0 + INR i * h) (seq 0 (Z.to_nat (data_points_amount de)))
  /\ length t_points = Z.to_nat (data_points_amount de)
  /\ Forall (fun t => t < t1) t_points
  /\ length (rows_of_result r_points) = length t_points.
Proof.
  intros Hab Hn Hsolve t0 t1 h.
  assert (Hgrid : forall (h' : R) (rows : list (list R)),
    py_truediv (f_sub t1 t0) (data_points_amount de) = Some h' ->
    np_arange t0 t1 h' = Some t_points ->
    length rows = length (tl t_points) ->
    t_points = map (fun i => t0 + INR i * h) (seq 0 (Z.to_nat (data_points_amount de)))
    /\ length t_points = Z.to_nat (data_points_amount de)
    /\ Forall (fun t => t < t1) t_points
    /\ S (length rows) = length t_points).
  { intros h' rows Eh Et Hrows. unfold py_truediv in Eh.
    destruct (Z.eqb_spec (data_points_amount de) 0) as [E|_]; [lia|].
    inversion Eh; subst h'; clear Eh.
    change (np_arange t0 t1 ((t1 - t0) / IZR (data_points_amount de))
            = Some t_points) in Et.
    unfold t0, t1 in Et.
    rewrite (np_arange_exact Hab Hn) in Et. injection Et as Et'.
    fold t0 t1 h in Et'.
    assert (Hlen : length t_points = Z.to_nat (data_points_amount de)).
    { rewrite <- Et'. now rewrite length_map, length_seq. }
    split; [now rewrite Et'|]. split; [exact Hlen|]. split.
    - rewrite <- Et'. apply Forall_forall. intros t Ht.
      apply in_map_iff in Ht. destruct Ht as (i & <- & Hi).
      apply in_seq in Hi. apply grid_point_before_end; [exact Hab | lia].
    - rewrite Hrows. destruct t_points; cbn in *; lia. }
  destruct Hsolve as [E|E].
  - apply EulerSolver_solve_rows in E. destruct E as (h' & rows & Eh & Et & ET & ->).
    apply trajectory_length in ET. cbn [rows_of_result length].
    now apply (Hgrid h' rows).
  - apply RungeKuttaSolver_solve_rows in E.
    destruct E as (h' & rows & Eh & Et & ET & -> & _).
    apply trajectory_length in ET. cbn [length]. now apply (Hgrid h' rows).
Qed.

End ExactArithmetic.

(** ** One data point *)

(** With one data point the step is [t1 - t0] divided by 1.  When
    [np.arange] makes the one point [t0] of it, the loop over
    [t_points[1:]] is empty: [EulerSolver] returns the array with the row
    [np.array(initial_conditions, float)] and [RungeKuttaSolver] the list
    [[np.array(initial_conditions)]], whatever the right-hand side. *)
Lemma one_time_point {F : Type} `{PyFloat F} (de : DifferentialEquation F) :
  data_points_amount de = 1%Z ->
  np_arange (fst (time_boundaries de)) (snd (time_boundaries de))
            (f_div (f_sub (snd (time_boundaries de)) (fst (time_boundaries de)))
                   (f_of_Z 1))
  = Some [fst (time_boundaries de)] ->
  EulerSolver.solve de
  = Some ([fst (time_boundaries de)],
          Array2D [np_array_float (initial_conditions de)]) /\
  RungeKuttaSolver.solve de
  = Some ([fst (time_boundaries de)],
          ListOfArray (np_array (initial_conditions de))).
Proof.
  intros Hn Ht. unfold EulerSolver.solve, RungeKuttaSolver.solve.
  destruct (time_boundaries de) as [a b]. cbn [fst snd] in *.
  rewrite Hn. unfold py_truediv. cbn [Z.eqb bind]. rewrite Ht.
  split; reflexivity.
Qed.

(** *** In binary64: dividing by one and by itself *)

Lemma div_eucl_exact (a b : Z) : (0 < b)%Z -> Z.div_eucl (a * b) b = (a, 0%Z).
Proof.
  intros Hb.
  assert (Hq : (a * b / b = a)%Z) by (apply Z.div_mul; lia).
  assert (Hr : ((a * b) mod b = 0)%Z) by (apply Z.mod_mul; lia).
  unfold Z.div, Z.modulo in Hq, Hr.
  destruct (Z.div_eucl (a * b) b) as [q r]. cbn in Hq, Hr. now subst.
Qed.

(** The mantissa and the exponent of a binary64 number: a number of the
    lowest binade or below it (exponent [-1074], up to 53 digits) or a
    normal number above (53 digits). *)
Lemma binary64_bounded (m : positive) (e : Z) :
  SpecFloat.bounded prec emax m e = true ->
  (e <= 971)%Z /\
  ((e = -1074 /\ Z.pos (digits2_pos m) <= 53) \/
   (-1074 < e /\ Z.pos (digits2_pos m) = 53))%Z.
Proof.
  unfold SpecFloat.bounded, canonical_mantissa, fexp, emin, prec, emax.
  intros Hb. apply andb_prop in Hb. destruct Hb as [H1 H2].
  apply Z.eqb_eq in H1. apply Z.leb_le in H2. lia.
Qed.

(** A positive number below infinity is finite. *)
Lemma binary64_positive_finite (d : float) :
  PrimFloat.ltb 0 d = true -> PrimFloat.ltb d infinity = true ->
  exists m e, Prim2SF d = S754_finite false m e.
Proof.
  rewrite !ltb_spec. change (Prim2SF 0) with (S754_zero false).
  change (Prim2SF infinity) with (S754_infinity false).
  destruct (Prim2SF d) as [s|s| |s m e]; cbn; try discriminate.
  - destruct s; discriminate.
  - destruct s; [discriminate|]. intros _ _. eauto.
Qed.

Lemma binary64_div_self (d : float) (m : positive) (e : Z) :
  Prim2SF d = S754_finite false m e -> PrimFloat.div d d = 1%float.
Proof.
  intros E. apply Prim2SF_inj. rewrite div_spec, E.
  unfold SF64div, SFdiv, SFdiv_core_binary.
  replace (Zdigits2 (Z.pos m) + e - (Zdigits2 (Z.pos m) + e))%Z with 0%Z by lia.
  replace (e - e)%Z with 0%Z by lia.
  change (Z.min (fexp prec emax 0) 0) with (-53)%Z.
  change (0 - -53)%Z with 53%Z. cbv iota beta.
  rewrite Z.shiftl_mul_pow2 by lia.
  rewrite (Z.mul_comm (Z.pos m)), div_eucl_exact by lia.
  unfold new_location.
  destruct (Z.even (Z.pos m)); reflexivity.
Qed.

Lemma binary64_div_one (d : float) (m : positive) (e : Z) :
  Prim2SF d = S754_finite false m e -> PrimFloat.div d 1 = d.
Proof.
  intros E. apply Prim2SF_inj. rewrite div_spec, E.
  pose proof (Prim2SF_valid d) as V. rewrite E in V. cbn [SpecFloat.valid_binary] in V.
  apply binary64_bounded in V. destruct V as [Hmax Hcases].
  change (Prim2SF 1) with (S754_finite false 4503599627370496 (-52)).
  unfold SF64div, SFdiv, SFdiv_core_binary. cbn [xorb].
  change (Zdigits2 (Z.pos 4503599627370496)) with 53%Z.
  cbn [Zdigits2].
  assert (Hround : forall q e',
     (q = Z.pos m /\ e' = e) \/
     (q = Z.pos m~0 /\ e' = (e - 1)%Z /\ (-1074 < e)%Z) ->
     binary_round_aux prec emax false q e' loc_Exact = S754_finite false m e).
  { intros q e' [[-> ->]|(-> & -> & He)].
    - unfold binary_round_aux, shr_fexp. cbn [Zdigits2 shr_record_of_loc].
      replace (fexp prec emax (Z.pos (digits2_pos m) + e) - e)%Z with 0%Z
        by (unfold fexp, emin, prec, emax; lia).
      cbn [shr shr_m loc_of_shr_record round_nearest_even Zdigits2 shr_record_of_loc].
      replace (fexp prec emax (Z.pos (digits2_pos m) + e) - e)%Z with 0%Z
        by (unfold fexp, emin, prec, emax; lia).
      cbn [shr shr_m].
      replace (e <=? emax - prec)%Z with true; [reflexivity|].
      symmetry. apply Z.leb_le. unfold emax, prec. lia.
    - unfold binary_round_aux, shr_fexp. cbn [Zdigits2 shr_record_of_loc digits2_pos].
      replace (fexp prec emax (Z.pos (Pos.succ (digits2_pos m)) + (e - 1)) - (e - 1))%Z
        with 1%Z by (unfold fexp, emin, prec, emax; lia).
      cbn [shr SpecFloat.iter_pos shr_1 orb shr_m shr_r shr_s loc_of_shr_record
           round_nearest_even Zdigits2 shr_record_of_loc].
      replace (e - 1 + 1)%Z with e by lia.
      replace (fexp prec emax (Z.pos (digits2_pos m) + e) - e)%Z with 0%Z
        by (unfold fexp, emin, prec, emax; lia).
      cbn [shr shr_m].
      replace (e <=? emax - prec)%Z with true; [reflexivity|].
      symmetry. apply Z.leb_le. unfold emax, prec. lia. }
  destruct Hcases as [[He Hd]|[He Hd]].
  - replace (Z.min (fexp prec emax (Z.pos (digits2_pos m) + e - (53 + -52))) (e - -52))
      with e by (unfold fexp, emin, prec, emax; lia).
    replace (e - -52 - e)%Z with 52%Z by lia. cbv iota beta.
    rewrite Z.shiftl_mul_pow2 by lia.
    change (2 ^ 52)%Z with 4503599627370496%Z.
    rewrite div_eucl_exact by lia.
    change (new_location 4503599627370496 0) with loc_Exact.
    apply Hround. left. auto.
  - replace (Z.min (fexp prec emax (Z.pos (digits2_pos m) + e - (53 + -52))) (e - -52))
      with (e - 1)%Z by (unfold fexp, emin, prec, emax; lia).
    replace (e - -52 - (e - 1))%Z with 53%Z by lia. cbv iota beta.
    rewrite Z.shiftl_mul_pow2 by lia.
    replace (Z.pos m * 2 ^ 53)%Z with (Z.pos m~0 * 4503599627370496)%Z by lia.
    rewrite div_eucl_exact by lia.
    change (new_location 4503599627370496 0) with loc_Exact.
    apply Hround. right. auto.
Qed.

(** [np.arange(t0, t1, (t1 - t0) / 1)] in binary64 when [t1 - t0] is
    positive and finite: the one point [t0]. *)
Lemma np_arange_one_point_binary64 (a b : float) :
  PrimFloat.ltb 0 (PrimFloat.sub b a) = true ->
  PrimFloat.ltb (PrimFloat.sub b a) infinity = true ->
  np_arange a b (PrimFloat.div (PrimFloat.sub b a) (float_of_Z 1)) = Some [a].
Proof.
  intros Hpos Hfin.
  destruct (binary64_positive_finite Hpos Hfin) as (m & e & E).
  change (float_of_Z 1) with 1%float. rewrite (binary64_div_one _ E).
  unfold np_arange. cbn [f_eqb f_sub f_div f_of_Z f_ceil PyFloat_binary64].
  rewrite (binary64_div_self _ E).
  change (float_of_Z 0) with 0%float.
  rewrite FloatAxioms.eqb_spec, E. change (Prim2SF 0) with (S754_zero false).
  cbn [SFeqb SFcompare]. reflexivity.
Qed.

(** C8, as amended.  With [data_points_amount = 1] and [t0 < t1], both
    [EulerSolver.solve] and [RungeKuttaSolver.solve] return without an
    exception, whatever the right-hand side: one time point, [t0], and one
    row, the initial conditions, as long as the difference [t1 - t0] is
    finite.  [h] is [t1 - t0] and [np.arange] has [ceil((t1 - t0) / h) = 1]
    point.  That holds in exact arithmetic for all [t0 < t1], and in
    binary64 whenever [t1 - t0] is above zero and below infinity.
    [EulerSolver] returns the row in a two-dimensional array,
    [RungeKuttaSolver] in the Python list [[r]]. *)
Theorem single_data_point :
  (forall de : DifferentialEquation R,
     (fst (time_boundaries de) < snd (time_boundaries de))%R ->
     data_points_amount de = 1%Z ->
     EulerSolver.solve de
     = Some ([fst (time_boundaries de)],
             Array2D [np_array_float (initial_conditions de)]) /\
     RungeKuttaSolver.solve de
     = Some ([fst (time_boundaries de)],
             ListOfArray (np_array (initial_conditions de)))) /\
  (forall de : DifferentialEquation float,
     PrimFloat.ltb 0 (PrimFloat.sub (snd (time_boundaries de))
                                    (fst (time_boundaries de))) = true ->
     PrimFloat.ltb (PrimFloat.sub (snd (time_boundaries de))
                                  (fst (time_boundaries de))) infinity = true ->
     data_points_amount de = 1%Z ->
     EulerSolver.solve de
     = Some ([fst (time_boundaries de)],
             Array2D [np_array_float (initial_conditions de)]) /\
     RungeKuttaSolver.solve de
     = Some ([fst (time_boundaries de)],
             ListOfArray (np_array (initial_conditions de)))).
Proof.
  split.
  - intros de Hab Hn. apply one_time_point; [exact Hn|].
    cbn [f_div f_sub f_of_Z PyFloat_R].
    rewrite (@np_arange_exact _ _ 1 Hab) by lia.
    change (Z.to_nat 1) with 1%nat. cbn [seq map]. do 2 f_equal.
    cbn [INR]. ring.
  - intros de Hpos Hfin Hn. apply one_time_point; [exact Hn|].
    now apply np_arange_one_point_binary64.
Qed.

(** Two equations the theorem applies to: in exact arithmetic the two-body
    problem over the default time boundaries with one data point, and in
    binary64 the equation [r' = t] from the ints [(0,)] over the same
    boundaries. *)
Lemma single_data_point_witness :
  (EulerSolver.solve (TwoBodyProblem.init constants.DEFAULT_TIME_BOUNDARIES 1)
   = Some ([0%R], Array2D [TwoBodyProblem.initial_conditions]) /\
   RungeKuttaSolver.solve (TwoBodyProblem.init constants.DEFAULT_TIME_BOUNDARIES 1)
   = Some ([0%R], ListOfArray (Float64Array TwoBodyProblem.initial_conditions))) /\
  (let de := Build_DifferentialEquation
               (fun t r => Some [t])
               [Int (Build_int64 0 eq_refl)] (0, 5184000)%float 1 in
   EulerSolver.solve de = Some ([0%float], Array2D [[0%float]]) /\
   RungeKuttaSolver.solve de
   = Some ([0%float], ListOfArray (Int64Array [Build_int64 0 eq_refl]))).
Proof.
  split.
  - pose proof (proj1 single_data_point
                  (TwoBodyProblem.init constants.DEFAULT_TIME_BOUNDARIES 1)) as Hw.
    cbn [TwoBodyProblem.init initial_conditions time_boundaries data_points_amount
         constants.DEFAULT_TIME_BOUNDARIES fst snd] in Hw.
    destruct (np_array_map_Float TwoBodyProblem.initial_conditions) as [E1 E2].
    rewrite E1, E2 in Hw. apply Hw; [lra | reflexivity].
  - exact (proj2 single_data_point
             (Build_DifferentialEquation
                (fun t r => Some [t])
                [Int (Build_int64 0 eq_refl)] (0, 5184000)%float 1)
             eq_refl eq_refl eq_refl).
Defined.

(** C8 fails as stated.  Over [(-1e308, 1e308)] the difference [t1 - t0]
    overflows: [h] is infinite, [(t1 - t0) / h] is nan, and [np.arange]
    raises in both solvers. *)
Lemma single_data_point_overflow :
  let t0 := (-0x1.1ccf385ebc8a0p+1023)%float in
  let t1 := 0x1.1ccf385ebc8a0p+1023%float in
  let de := Build_DifferentialEquation
              (fun t r => Some r) [Float 0%float] (t0, t1) 1 in
  PrimFloat.ltb t0 t1 = true /\
  PrimFloat.sub t1 t0 = infinity /\
  EulerSolver.solve de = None /\
  RungeKuttaSolver.solve de = None.
Proof. repeat split; vm_compute; reflexivity. Qed.

(** ** The right-hand sides *)

Section RightHandSides.
Local Open Scope R_scope.

Lemma nth_error_in_bounds {A : Type} (l : list A) (n : nat) :
  (n < length l)%nat -> exists x, nth_error l n = Some x.
Proof.
  intros Hn. destruct (nth_error l n) as [x|] eqn:E; [now exists x|].
  apply nth_error_None in E. lia.
Qed.








(** C9.  Every right-hand side ignores its time argument: [f(t, s)] and
    [f(t', s)] are the same for [TwoBodyProblem.f],
    [FourBodyProblemSimple.f], [FourBodyProblemComplex.f] and
    [NBodyProblem.f], at every state [s] (whatever its length and the
    separations).  Consequently both fixed-step solvers return the same
    result on each model when the right-hand side is read at any other
    time [g t] in place of [t]. *)
Theorem rhs_autonomous :
  (forall t t' s, TwoBodyProblem.f t s = TwoBodyProblem.f t' s) /\
  (forall t t' s, FourBodyProblemSimple.f t s = FourBodyProblemSimple.f t' s) /\
  (forall self t t' s,
     FourBodyProblemComplex.f self t s = FourBodyProblemComplex.f self t' s) /\
  (forall t t' s, NBodyProblem.f t s = NBodyProblem.f t' s) /\
  (forall (g : R -> R) time_boundaries data_points_amount self,
     Forall (fun de => EulerSolver.solve (retime g de) = EulerSolver.solve de
                       /\ RungeKuttaSolver.solve (retime g de)
                          = RungeKuttaSolver.solve de)
            [ TwoBodyProblem.init time_boundaries data_points_amount;
              FourBodyProblemSimple.init time_boundaries data_points_amount;
              FourBodyProblemComplex.as_differential_equation self;
              NBodyProblem.init time_boundaries data_points_amount ]).
Proof.
  repeat split; try reflexivity.
  repeat constructor.
Qed.

Lemma sqrt_sum_squares_nonzero (x y : R) : x <> 0 -> sqrt (x ^ 2 + y ^ 2) <> 0.
Proof.
  intros Hx. apply Rgt_not_eq, sqrt_lt_R0.
  assert (0 < x ^ 2) by (rewrite <- Rsqr_pow2; apply Rsqr_pos_lt; exact Hx).
  assert (0 <= y ^ 2) by apply pow2_ge_0.
  lra.
Qed.

(** The tide angles among the initial conditions of [NBodyProblem]. *)
Lemma NBodyProblem_tide_angle (N j : nat) :
  (j < N)%nat ->
  nth (10 + 2 * j) (NBodyProblem.initial_conditions_for N) 0
  = PI / INR N * INR (2 * j).
Proof.
  intros Hj. unfold NBodyProblem.initial_conditions_for.
  rewrite app_nth2; cbn [length]; [|lia].
  replace (10 + 2 * j - 10)%nat with (2 * j)%nat by lia.
  unfold range_0_2N_2.
  assert (Hgen : forall m a i, (i < m)%nat ->
    nth (2 * i)
        (flat_map (fun i0 => [PI / INR N * INR i0; 2 * PI / constants.T_M])
                  (map (fun j0 => (2 * j0)%nat) (seq a m))) 0
    = PI / INR N * INR (2 * (a + i))).
  { induction m as [|m IH]; intros a i Hi; [lia|].
    cbn [seq map flat_map app].
    destruct i as [|i].
    - rewrite Nat.add_0_r. reflexivity.
    - replace (2 * S i)%nat with (S (S (2 * i))) by lia. cbn [nth].
      rewrite IH by lia. do 2 f_equal. lia. }
  now rewrite Hgen.
Qed.

(** C6.  With [N = 2], the right-hand side of [NBodyProblem] is that of
    [FourBodyProblemComplex] with the nominal ocean mass [m_O]: on every
    state with nonzero Earth-Moon and tide-Moon separations, at every time,
    it returns the same derivatives, once state and derivatives are put in
    its own order ([phi_E], [vphi_E] in the entries 8 and 9 in place of 12
    and 13).  The [N] initial tide angles of [NBodyProblem] are [pi / N * i]
    for [i = 0, 2, ..., 2 * N - 2].  (Numbers are the reals.) *)
Theorem NBodyProblem_two_particles (self : FourBodyProblemComplex.instance R)
    (t : R) (r : list R) :
  FourBodyProblemComplex.m_O self = constants.m_O ->
  nonzero_separations r ->
  (exists out,
     FourBodyProblemComplex.f self t r = Some out /\
     NBodyProblem.f_for 2 t (n_body_order r) = Some (n_body_order out)) /\
  (forall N : nat,
     map (fun j => nth (10 + 2 * j) (NBodyProblem.initial_conditions_for N) 0)
         (seq 0 N)
     = map (fun i => PI / INR N * INR i) (range_0_2N_2 N)).
Proof.
  intros Hm Hsep. split.
  - do 14 (destruct r as [|? r]; [contradiction|]).
    destruct r; [|contradiction].
    cbn [nonzero_separations] in Hsep. destruct Hsep as (H1 & H2 & H3).
    unfold FourBodyProblemComplex.f. eexists. split; [reflexivity|].
    unfold NBodyProblem.f_for, n_body_order.
    cbn [firstn skipn app].
    cbn [range_0_2N_2 seq map for_each every_other Nat.mul Nat.add Nat.eqb].
    unfold NBodyProblem.loop_body.
    change (0 / 2)%nat with 0%nat. change (2 / 2)%nat with 1%nat.
    cbn [nth_error bind app Nat.add].
    rewrite Hm. change (INR 2) with (1 + 1).
    assert (HmE : constants.m_E <> 0) by (unfold constants.m_E; lra).
    revert H1 H2 H3 HmE.
    generalize constants.m_E constants.m_O constants.G
      constants.m_M constants.r_E constants.k.
    intros m_E m_O G m_M r_E k H1 H2 H3 HmE.
    apply f_equal.
    do 5 (apply f_equal2; [reflexivity|]).
    apply f_equal2; [field; auto|].
    apply f_equal2; [reflexivity|].
    apply f_equal2; [field; auto|].
    apply f_equal2; [reflexivity|].
    apply f_equal2; [field; auto|].
    reflexivity.
  - intros N. unfold range_0_2N_2. rewrite map_map.
    apply map_ext_in. intros j Hj. apply in_seq in Hj.
    apply NBodyProblem_tide_angle. lia.
Qed.

(** The theorem at the initial conditions of [FourBodyProblemComplex]. *)
Lemma NBodyProblem_two_particles_witness :
  exists out,
    FourBodyProblemComplex.f
      (FourBodyProblemComplex.init constants.DEFAULT_TIME_BOUNDARIES 150) 0
      FourBodyProblemComplex.class_initial_conditions = Some out /\
    NBodyProblem.f_for 2 0
      (n_body_order FourBodyProblemComplex.class_initial_conditions)
    = Some (n_body_order out).
Proof.
  apply (NBodyProblem_two_particles
           (FourBodyProblemComplex.init constants.DEFAULT_TIME_BOUNDARIES 150) 0
           FourBodyProblemComplex.class_initial_conditions).
  - reflexivity.
  - unfold FourBodyProblemComplex.class_initial_conditions.
    cbn [nonzero_separations]. rewrite cos_0, sin_0, cos_PI, sin_PI.
    generalize constants.r_C. intros c.
    unfold constants.r_M, constants.r_E.
    repeat split; apply sqrt_sum_squares_nonzero; lra.
Defined.

End RightHandSides.

(** ** The fit of the ocean mass *)

Section Fit.
Import exercise_2_3_c.

Lemma map_option_length {A B : Type} (g : A -> option B) (l : list A) :
  forall l', map_option g l = Some l' -> length l' = length l.
Proof.
  induction l as [|x l IH]; intros l' E; cbn in E.
  - now inversion E.
  - bind_inv E. bind_inv E. inversion E; subst. cbn. f_equal. now apply IH.
Qed.

Lemma map_option_nth_error {A B : Type} (g : A -> option B) (l : list A) :
  forall l' i x, map_option g l = Some l' -> nth_error l i = Some x ->
  exists y, nth_error l' i = Some y /\ g x = Some y.
Proof.
  induction l as [|x0 l IH]; intros l' i x E Hi; cbn in E.
  - destruct i; discriminate.
  - destruct (g x0) as [y0|] eqn:E0; [cbn in E | discriminate].
    destruct (map_option g l) as [ys|] eqn:E1; [cbn in E | discriminate].
    inversion E; subst l'; clear E.
    destruct i as [|i]; cbn in Hi |- *.
    + inversion Hi; subst. now exists y0.
    + eapply IH; [reflexivity | exact Hi].
Qed.

Lemma solution_dict_get {F : Type} (t_points : list F) (rows : list (list F)) d :
  FourBodyProblemComplex.solution_dict (t_points, Array2D rows) = Some d ->
  dict_get "t" d = Some t_points /\ dict_get "vphi_E" d = column 13 rows.
Proof.
  unfold FourBodyProblemComplex.solution_dict. intros E.
  destruct (map_option _ (seq 0 14)) as [columns|] eqn:Ec; [cbn in E | discriminate].
  inversion E; subst d; clear E. split; [reflexivity|].
  destruct (@map_option_nth_error _ _ _ _ _ 13%nat 13%nat Ec eq_refl)
    as (c & Hc & Hc'). cbn [T_row] in Hc'. rewrite Hc'.
  apply map_option_length in Ec. cbn [length seq] in Ec.
  do 14 (destruct columns as [|? columns]; [discriminate|]).
  destruct columns; [|discriminate].
  cbn in Hc. inversion Hc; subst. reflexivity.
Qed.

(** The literals of the fit: in exact arithmetic they are the constants of
    [gezeiten.constants], in binary64 the numbers Python reads them as. *)
Lemma fit_literals_exact :
  @tau R _ = constants.tau /\ @m_O R _ = constants.m_O
  /\ @accuracy R _ = 0.01%R
  /\ (f_of_Z 100 * f_decimal 36524 (-2) * f_of_Z 24 * f_of_Z 3600)%py
     = fits.century.
Proof.
  split; [reflexivity|]. split; [|split; reflexivity].
  unfold m_O, constants.m_O. cbn [f_decimal PyFloat_R]. unfold R_of_decimal.
  cbn [Z.leb Z.compare]. lra.
Qed.

Lemma fit_literals_binary64 :
  @tau float _ = 0x1.13404ea4a8c15p-9%float
  /\ @m_O float _ = 0x1.2f939c99edab8p+70%float
  /\ @accuracy float _ = 0x1.47ae147ae147bp-7%float
  /\ @f_decimal float _ 36524 (-2) = 0x1.6d3d70a3d70a4p+8%float.
Proof. repeat split; vm_compute; reflexivity. Qed.

(** *** The loop, in any arithmetic *)

Section Trace.
Context {F : Type} `{PyFloat F}.
Local Open Scope py_scope.
Variable solve :
  F -> FourBodyProblemComplex.instance F ->
  FourBodyProblemComplex.instance F * option unit.
Variable self : FourBodyProblemComplex.instance F.

Lemma calculate_current_tau_two_points
    (s : FourBodyProblemComplex.instance F) d ts ws :
  FourBodyProblemComplex.solution s = Some d ->
  dict_get "t" d = Some ts -> dict_get "vphi_E" d = Some ws ->
  _calculate_current_tau s =
    (w_h <- nth_error ws (length ts / 2) ;;
     w_last <- py_last ws ;;
     t_last <- py_last ts ;;
     t_h <- nth_error ts (length ts / 2) ;;
     Some (f_of_Z 2 * f_pi
           * (f_of_Z 1
              / (w_h + f_of_Z 100 * f_decimal 36524 (-2) * f_of_Z 24 * f_of_Z 3600
                       * ((w_last - w_h) / (t_last - t_h)))
              - f_of_Z 1 / w_h))).
Proof.
  intros Es Et Ew. unfold _calculate_current_tau. rewrite Es. cbn [bind].
  rewrite Et, Ew. reflexivity.
Qed.

Lemma solve_and_calculate_Some m s s' tau' :
  solve_and_calculate solve m s = Some (s', tau') ->
  (exists ok, solve m s = (s', ok)) /\ _calculate_current_tau s' = Some tau'.
Proof.
  unfold solve_and_calculate. destruct (solve m s) as [s0 [[]|]]; [|discriminate].
  cbn [bind]. intros E. bind_inv E. inversion E; subst. split; [eauto | assumption].
Qed.

Lemma iterate_S k s m tau' :
  iterate solve k self = Some (s, m, tau') ->
  iterate solve (S k) self =
  (' (s', tau'') <- solve_and_calculate solve (m / (tau' / tau)) s ;;
   Some (s', m / (tau' / tau), tau'')).
Proof. intros E. cbn [iterate]. rewrite E. reflexivity. Qed.

(** The loop started in the state of the [k]-th test runs on as long as
    the condition of the loop holds of the achieved drifts. *)
Lemma while_loop_runs_on :
  (forall k, exists s m tau', iterate solve k self = Some (s, m, tau')
                              /\ loop_condition tau' = true) ->
  forall fuel k s m tau',
    iterate solve k self = Some (s, m, tau') ->
    while_loop solve fuel s m tau' = StillRunning.
Proof.
  intros Hout. induction fuel as [|fuel IH]; intros k s m tau' Ek;
    cbn [while_loop];
    (destruct (Hout k) as (s0 & m0 & tau0 & E0 & Hc); rewrite Ek in E0;
     inversion E0; subst s0 m0 tau0; clear E0; rewrite Hc); [reflexivity|].
  destruct (Hout (S k)) as (s1 & m1 & tau1 & E1 & _).
  pose proof E1 as E1'. rewrite (@iterate_S k s m tau' Ek) in E1.
  destruct (solve_and_calculate solve _ s) as [[s' tau'']|];
    [cbn in E1 | discriminate].
  inversion E1; subst. apply (IH (S k)). exact E1'.
Qed.

(** When the loop returns, it returns the state of a test at which the
    condition of the loop does not hold, the first such test. *)
Lemma while_loop_returned :
  forall fuel k s m tau' m_end s_end,
    iterate solve k self = Some (s, m, tau') ->
    while_loop solve fuel s m tau' = Returned (m_end, s_end) ->
    exists k' tau_end,
      (k <= k' <= k + fuel)%nat /\
      iterate solve k' self = Some (s_end, m_end, tau_end) /\
      loop_condition tau_end = false /\
      (forall j, (k <= j < k')%nat ->
         exists s_j m_j tau_j, iterate solve j self = Some (s_j, m_j, tau_j)
                               /\ loop_condition tau_j = true).
Proof.
  assert (Hexit : forall k s m tau' m_end s_end,
    iterate solve k self = Some (s, m, tau') ->
    loop_condition tau' = false ->
    match f_round (m / f_of_Z (10 ^ 12)) with
    | Some _ => Returned (m, s)
    | None => Raised
    end = Returned (m_end, s_end) ->
    exists k' tau_end,
      (k <= k' <= k)%nat /\
      iterate solve k' self = Some (s_end, m_end, tau_end) /\
      loop_condition tau_end = false /\
      (forall j, (k <= j < k')%nat ->
         exists s_j m_j tau_j, iterate solve j self = Some (s_j, m_j, tau_j)
                               /\ loop_condition tau_j = true)).
  { intros k s m tau' m_end s_end Ek Hc Eloop.
    destruct (f_round _); [|discriminate]. inversion Eloop; subst.
    exists k, tau'. repeat split; [lia | lia | exact Ek | exact Hc |].
    intros j Hj. lia. }
  induction fuel as [|fuel IH]; intros k s m tau' m_end s_end Ek Eloop;
    cbn [while_loop] in Eloop;
    destruct (loop_condition tau') eqn:Hc.
  - discriminate.
  - destruct (Hexit k s m tau' m_end s_end Ek Hc Eloop)
      as (k' & tau_end & Hk & E & Hw & Hbefore).
    exists k', tau_end. repeat split; [lia | lia | exact E | exact Hw | exact Hbefore].
  - destruct (solve_and_calculate solve _ s) as [[s' tau'']|] eqn:E1;
      [|discriminate].
    destruct (IH (S k) s' (m / (tau' / tau)) tau'' m_end s_end)
      as (k' & tau_end & Hk & E & Hw & Hbefore); [|exact Eloop|].
    + rewrite (@iterate_S k s m tau' Ek), E1. reflexivity.
    + exists k', tau_end. repeat split; [lia | lia | exact E | exact Hw |].
      intros j Hj. destruct (Nat.eq_dec j k) as [->|Hne].
      * exists s, m, tau'. split; [exact Ek | exact Hc].
      * apply Hbefore. lia.
  - destruct (Hexit k s m tau' m_end s_end Ek Hc Eloop)
      as (k' & tau_end & Hk & E & Hw & Hbefore).
    exists k', tau_end. repeat split; [lia | lia | exact E | exact Hw | exact Hbefore].
Qed.

(** The loop is left at the first test at which its condition does not
    hold, given turns enough to reach it; the fit returns the state of
    that test unless [round] raises in the [print] that follows. *)
Lemma while_loop_first_exit k s_k m_k tau_k :
  iterate solve k self = Some (s_k, m_k, tau_k) ->
  loop_condition tau_k = false ->
  (forall j, (j < k)%nat ->
     exists s m tau', iterate solve j self = Some (s, m, tau')
                      /\ loop_condition tau' = true) ->
  forall d j s m tau' fuel,
    (j + d = k)%nat -> (d <= fuel)%nat ->
    iterate solve j self = Some (s, m, tau') ->
    while_loop solve fuel s m tau' =
    match f_round (m_k / f_of_Z (10 ^ 12)) with
    | Some _ => Returned (m_k, s_k)
    | None => Raised
    end.
Proof.
  intros Ek Hin Hout. induction d as [|d IH]; intros j s m tau' fuel Hj Hfuel Ej.
  - assert (j = k) by lia. subst j. rewrite Ek in Ej. inversion Ej; subst.
    destruct fuel; cbn [while_loop]; rewrite Hin; reflexivity.
  - destruct fuel as [|fuel]; [lia|]. cbn [while_loop].
    destruct (Hout j) as (s0 & m0 & tau0 & E0 & Hn); [lia|].
    rewrite Ej in E0. inversion E0; subst s0 m0 tau0; clear E0. rewrite Hn.
    assert (Enext : exists s' m' tau'',
               iterate solve (S j) self = Some (s', m', tau'')).
    { destruct (Nat.eq_dec (S j) k) as [->|Hne]; [eauto|].
      destruct (Hout (S j)) as (s' & m' & tau'' & E & _); [lia | eauto]. }
    destruct Enext as (s' & m' & tau'' & Enext). pose proof Enext as Enext'.
    rewrite (@iterate_S j s m tau' Ej) in Enext.
    destruct (solve_and_calculate solve _ s) as [[s2 tau2]|];
      [cbn in Enext | discriminate].
    inversion Enext; subst. apply (IH (S j)); [lia | lia | exact Enext'].
Qed.

Lemma fit_mass_oceans_iterate_0 fuel :
  _fit_mass_oceans solve fuel self =
  match iterate solve 0 self with
  | None => Raised
  | Some (s, m, tau') => while_loop solve fuel s m tau'
  end.
Proof.
  unfold _fit_mass_oceans. cbn [iterate].
  destruct (solve_and_calculate solve m_O self) as [[s tau']|]; [|reflexivity].
  cbn [bind]. destruct (f_round (tau' / tau)); reflexivity.
Qed.

End Trace.

(** *** The condition of the loop *)

Lemma loop_condition_exact (x : R) :
  loop_condition x = false <-> within_tolerance x.
Proof.
  unfold loop_condition, within_tolerance.
  cbn [f_gtb f_abs f_sub f_div f_of_Z PyFloat_R].
  change (@tau R _) with constants.tau. change (@accuracy R _) with 0.01%R.
  destruct (Rgt_dec (Rabs (1 - x / constants.tau)) 0.01) as [Hgt|Hle];
    split; intros Hx; try discriminate; try reflexivity; lra.
Qed.

(** A comparison with a number that is not nan comes out one way or the
    other. *)
Lemma SFcompare_antisym (x y : spec_float) :
  SFcompare y x =
  match SFcompare x y with
  | Some c => Some (CompOpp c)
  | None => None
  end.
Proof.
  destruct x as [sx|sx| |sx mx ex], y as [sy|sy| |sy my ey]; cbn;
    try reflexivity;
    try (destruct sx; reflexivity); try (destruct sy; reflexivity);
    try (destruct sx, sy; reflexivity).
  destruct sx, sy; try reflexivity;
    rewrite (Z.compare_antisym ex ey);
    destruct (ex ?= ey)%Z; cbn [CompOpp]; try reflexivity;
    rewrite (Pos.compare_cont_antisym mx my Eq); reflexivity.
Qed.

Lemma binary64_not_gt (y a : float) :
  PrimFloat.ltb a y = false <->
  PrimFloat.leb y a = true \/ PrimFloat.is_nan y = true \/ PrimFloat.is_nan a = true.
Proof.
  unfold PrimFloat.is_nan.
  rewrite ltb_spec, leb_spec, !FloatAxioms.eqb_spec.
  unfold SFltb, SFleb, SFeqb. rewrite (SFcompare_antisym (Prim2SF a) (Prim2SF y)).
  assert (Hrefl : forall z, SFcompare z z = None \/ SFcompare z z = Some Eq).
  { intros [s|s| |s m e]; cbn; auto.
    - destruct s; auto.
    - destruct s; rewrite Z.compare_refl, ?Pos.compare_cont_refl; cbn; auto. }
  assert (Hnan : forall z w, SFcompare z w = None ->
                 SFcompare z z = None \/ SFcompare w w = None).
  { intros [s|s| |s m e] [s'|s'| |s' m' e']; cbn; auto; try discriminate;
      destruct s; try destruct s'; discriminate. }
  destruct (SFcompare (Prim2SF a) (Prim2SF y)) as [[]|] eqn:E; cbn.
  - split; auto.
  - split; [discriminate|]. intros [Hd|[Hd|Hd]]; [discriminate| |].
    + destruct (Hrefl (Prim2SF y)) as [E'|E']; rewrite E' in Hd; [|discriminate].
      exfalso. clear Hd. revert E E'.
      destruct (Prim2SF a) as [s|s| |s m e], (Prim2SF y) as [s'|s'| |s' m' e'];
        cbn; try discriminate;
        try (destruct s; discriminate); try (destruct s'; discriminate).
    + destruct (Hrefl (Prim2SF a)) as [E'|E']; rewrite E' in Hd; [|discriminate].
      exfalso. clear Hd. revert E E'.
      destruct (Prim2SF a) as [s|s| |s m e], (Prim2SF y) as [s'|s'| |s' m' e'];
        cbn; try discriminate;
        try (destruct s; discriminate); try (destruct s'; discriminate).
  - split; auto.
  - split; [intros _|reflexivity]. right.
    destruct (Hnan _ _ E) as [E'|E']; rewrite E'; auto.
Qed.

Lemma loop_condition_binary64 (x : float) :
  loop_condition x = false <->
  PrimFloat.leb (PrimFloat.abs (1 - x / tau)) accuracy = true
  \/ PrimFloat.is_nan (PrimFloat.abs (1 - x / tau)) = true.
Proof.
  unfold loop_condition. cbn [f_gtb f_abs f_sub f_div f_of_Z PyFloat_binary64].
  change (float_of_Z 1) with 1%float.
  rewrite binary64_not_gt. split; [|tauto].
  intros [Hle|[Hn|Hn]]; auto. vm_compute in Hn. discriminate.
Qed.

(** C5, as amended.  The fitting loop has no cap on its turns, and its one
    exit is the test of its condition [abs(1 - achieved / tau) > 0.01]: as
    long as the condition holds of the achieved drifts, the fit is still
    running after any number of turns, whatever the bound; and when the fit
    returns, the condition did not hold of the drift achieved at the last
    test.  The condition not holding is the drift being within the
    tolerance in exact arithmetic; in binary64 it is that or
    [abs(1 - achieved / tau)] being nan. *)
Theorem fit_mass_oceans_no_iteration_cap :
  (forall (F : Type) (arithmetic : PyFloat F)
          (solve : F -> FourBodyProblemComplex.instance F ->
                   FourBodyProblemComplex.instance F * option unit)
          (self : FourBodyProblemComplex.instance F),
     ((forall k, exists s m achieved,
         iterate solve k self = Some (s, m, achieved)
         /\ loop_condition achieved = true) ->
      forall fuel, _fit_mass_oceans solve fuel self = StillRunning) /\
     (forall fuel m_end s_end,
        _fit_mass_oceans solve fuel self = Returned (m_end, s_end) ->
        exists k achieved,
          (k <= fuel)%nat /\
          iterate solve k self = Some (s_end, m_end, achieved) /\
          loop_condition achieved = false)) /\
  (forall achieved : R,
     loop_condition achieved = false <-> within_tolerance achieved) /\
  (forall achieved : float,
     loop_condition achieved = false <->
     PrimFloat.leb (PrimFloat.abs (1 - achieved / tau)) accuracy = true
     \/ PrimFloat.is_nan (PrimFloat.abs (1 - achieved / tau)) = true).
Proof.
  split; [|split; [exact loop_condition_exact | exact loop_condition_binary64]].
  intros F arithmetic solve self. split.
  - intros Hout fuel. rewrite fit_mass_oceans_iterate_0.
    destruct (Hout 0%nat) as (s & m & tau' & E & _). rewrite E.
    exact (@while_loop_runs_on F arithmetic solve self Hout fuel 0%nat s m tau' E).
  - intros fuel m_end s_end. rewrite fit_mass_oceans_iterate_0.
    destruct (iterate solve 0 self) as [[[s m] tau']|] eqn:E; [|discriminate].
    intros Eloop.
    destruct (@while_loop_returned F arithmetic solve self fuel 0%nat s m tau'
                m_end s_end E Eloop) as (k & achieved & Hk & Ek & Hw & _).
    exists k, achieved. repeat split; [lia | exact Ek | exact Hw].
Qed.

(** *** Runs of the fit in exact arithmetic *)

Local Open Scope R_scope.

Lemma column_spin_rows_last (ws : list R) :
  column 13 (fits.spin_rows ws) = Some ws.
Proof.
  unfold column, fits.spin_rows. induction ws as [|w ws IH]; [reflexivity|].
  cbn [map map_option]. rewrite IH. reflexivity.
Qed.

Lemma column_spin_rows_other (i : nat) (ws : list R) :
  (i < 13)%nat -> column i (fits.spin_rows ws) = Some (map (fun _ => 0) ws).
Proof.
  intros Hi. unfold column, fits.spin_rows.
  induction ws as [|w ws IH]; [reflexivity|].
  cbn [map map_option]. rewrite IH.
  do 13 (destruct i as [|i]; [reflexivity|]). lia.
Qed.

Lemma solution_dict_spin_rows (ts ws : list R) :
  exists d,
    FourBodyProblemComplex.solution_dict (ts, Array2D (fits.spin_rows ws)) = Some d
    /\ dict_get "t" d = Some ts /\ dict_get "vphi_E" d = Some ws.
Proof.
  destruct (FourBodyProblemComplex.solution_dict (ts, Array2D (fits.spin_rows ws)))
    as [d|] eqn:Ed.
  - destruct (@solution_dict_get _ ts (fits.spin_rows ws) d Ed) as [Et Ew].
    rewrite column_spin_rows_last in Ew. eauto.
  - exfalso. unfold FourBodyProblemComplex.solution_dict in Ed.
    cbn [seq map_option T_row] in Ed.
    rewrite !column_spin_rows_other in Ed by lia.
    rewrite column_spin_rows_last in Ed. discriminate.
Qed.

(** What the fit reads after a solver has returned the times [ts] and the
    angular velocities [ws] of Earth. *)
Lemma solve_and_calculate_fixed (ts ws : list R) (m : R)
    (s : FourBodyProblemComplex.instance R) :
  exists s',
    solve_and_calculate (FourBodyProblemComplex.solve (fits.fixed_solver ts ws)) m s =
    (w_h <- nth_error ws (length ts / 2) ;;
     w_last <- py_last ws ;;
     t_last <- py_last ts ;;
     t_h <- nth_error ts (length ts / 2) ;;
     Some (s', 2 * PI * (1 / (w_h + 100 * 365.24 * 24 * 3600
                                    * ((w_last - w_h) / (t_last - t_h)))
                         - 1 / w_h)))
    /\ FourBodyProblemComplex.solution s' <> None
    /\ (forall d, FourBodyProblemComplex.solution s' = Some d ->
          dict_get "t" d = Some ts /\ dict_get "vphi_E" d = Some ws).
Proof.
  unfold solve_and_calculate, FourBodyProblemComplex.solve, fits.fixed_solver.
  destruct (solution_dict_spin_rows ts ws) as (d & -> & Et & Ew).
  exists (FourBodyProblemComplex.set_solution d
            (FourBodyProblemComplex.set_m_O m s)).
  split; [|split].
  - cbn [bind].
    rewrite (@calculate_current_tau_two_points _ _
               (FourBodyProblemComplex.set_solution d
                  (FourBodyProblemComplex.set_m_O m s)) d ts ws eq_refl Et Ew).
    destruct (nth_error ws _); [cbn [bind]|reflexivity].
    destruct (py_last ws); [cbn [bind]|reflexivity].
    destruct (py_last ts); [cbn [bind]|reflexivity].
    destruct (nth_error ts _); reflexivity.
  - discriminate.
  - cbn. intros d' E. inversion E; subst. auto.
Qed.

Lemma century_pos : 0 < fits.century.
Proof. unfold fits.century. lra. Qed.

Lemma PI_gt_2 : 2 < PI.
Proof. pose proof PI2_1. lra. Qed.

(** With [stuck_solver] every solve achieves the drift [PI]. *)
Lemma stuck_solver_achieves (m : R) (s : FourBodyProblemComplex.instance R) :
  exists s',
    solve_and_calculate (FourBodyProblemComplex.solve fits.stuck_solver) m s
    = Some (s', PI).
Proof.
  destruct (solve_and_calculate_fixed
              [0; fits.century; 2 * fits.century] [2; 2; 1] m s)
    as (s' & E & _).
  exists s'. unfold fits.stuck_solver. rewrite E.
  unfold py_last. cbn [length]. change (3 / 2)%nat with 1%nat.
  cbn [nth_error Nat.sub bind].
  fold fits.century. pose proof century_pos.
  do 2 f_equal. field. lra.
Qed.

Lemma PI_not_within_tolerance : ~ within_tolerance PI.
Proof.
  unfold within_tolerance, constants.tau. pose proof PI_gt_2.
  intros Hw. rewrite Rabs_left in Hw; lra.
Qed.

Lemma loop_condition_PI : loop_condition PI = true.
Proof.
  destruct (loop_condition PI) eqn:E; [reflexivity|].
  apply loop_condition_exact in E. now elim PI_not_within_tolerance.
Qed.

Lemma stuck_solver_never_within (k : nat) :
  exists s m achieved,
    iterate (FourBodyProblemComplex.solve fits.stuck_solver) k fits.start
    = Some (s, m, achieved)
    /\ loop_condition achieved = true.
Proof.
  assert (E : exists s m,
            iterate (FourBodyProblemComplex.solve fits.stuck_solver) k fits.start
            = Some (s, m, PI)).
  { induction k as [|k (s & m & IH)].
    - cbn [iterate].
      destruct (stuck_solver_achieves m_O fits.start) as (s' & ->).
      cbn [bind f_round PyFloat_R]. eauto.
    - rewrite (@iterate_S _ _ _ fits.start k s m PI IH).
      destruct (stuck_solver_achieves (f_div m (f_div PI tau)) s) as (s' & ->).
      cbn [bind]. eauto. }
  destruct E as (s & m & E). exists s, m, PI.
  split; [exact E | exact loop_condition_PI].
Qed.

(** A fit that does not end: with [stuck_solver] the fit is still running
    after a thousand turns (and after any other number). *)
Lemma fit_mass_oceans_no_iteration_cap_witness :
  _fit_mass_oceans (FourBodyProblemComplex.solve fits.stuck_solver) 1000 fits.start
  = StillRunning.
Proof.
  apply (proj1 (proj1 fit_mass_oceans_no_iteration_cap R _
                  (FourBodyProblemComplex.solve fits.stuck_solver) fits.start)).
  exact stuck_solver_never_within.
Defined.

(** C5 fails as stated.  In binary64, with a solution of three samples for
    the nominal mass and of two samples for any other mass, the first drift
    achieved is far out of the tolerance and the second is nan, for the
    last sample is the middle one and the slope is [0 / 0].  Neither is
    within the tolerance, and the fit returns after one turn of the
    loop. *)
Lemma fit_leaves_the_loop_on_nan :
  let achieved k :=
    ' (_, _, current_tau) <- iterate fits.nan_solve k fits.start_binary64 ;;
    Some (current_tau,
          PrimFloat.leb (PrimFloat.abs (1 - current_tau / tau)) accuracy) in
  achieved 0%nat = Some (0x1.921fb54442d18p+1%float, false) /\
  achieved 1%nat = Some (nan, false) /\
  exists m s,
    _fit_mass_oceans fits.nan_solve 1000 fits.start_binary64 = Returned (m, s).
Proof.
  split; [vm_compute; reflexivity|]. split; [vm_compute; reflexivity|].
  eexists. eexists. vm_compute. reflexivity.
Qed.

(** C3, as amended.  The fit first solves with the nominal mass; then, as
    long as the condition [abs(1 - achieved / tau) > 0.01] of the loop
    holds, it divides the guess by [achieved / tau] and solves again with
    the new guess; it leaves the loop at the first test at which the
    condition does not hold, and returns the guess of that test unless
    [round] raises on it.  The condition not holding is the drift being
    within the tolerance in exact arithmetic; in binary64 it is that or
    [abs(1 - achieved / tau)] being nan.  The achieved drift is read off two samples only, the one at the index
    [len / 2] and the last one: the slope of [vphi_E] between them is
    extended over 100 years from the first, and the drift is
    [2 * pi * (1 / final - 1 / first)].  It is no linear regression.  All
    of this holds in any arithmetic and for any [solve]; with
    [FourBodyProblemComplex.solve], the instance holds the guess of each
    test in its field [m_O]. *)
Theorem fit_mass_oceans_two_point_relaxation :
  (forall (F : Type) (arithmetic : PyFloat F)
          (solve : F -> FourBodyProblemComplex.instance F ->
                   FourBodyProblemComplex.instance F * option unit)
          (self : FourBodyProblemComplex.instance F),
     (forall s d ts ws w_h w_last t_h t_last,
        FourBodyProblemComplex.solution s = Some d ->
        dict_get "t" d = Some ts ->
        dict_get "vphi_E" d = Some ws ->
        nth_error ws (length ts / 2) = Some w_h ->
        py_last ws = Some w_last ->
        nth_error ts (length ts / 2) = Some t_h ->
        py_last ts = Some t_last ->
        _calculate_current_tau s =
        Some (f_of_Z 2 * f_pi
              * (f_of_Z 1
                 / (w_h + f_of_Z 100 * f_decimal 36524 (-2) * f_of_Z 24
                          * f_of_Z 3600
                          * ((w_last - w_h) / (t_last - t_h)))
                 - f_of_Z 1 / w_h))%py) /\
     (forall k s_k m_k achieved,
        iterate solve k self = Some (s_k, m_k, achieved) ->
        _calculate_current_tau s_k = Some achieved /\
        (k = 0%nat -> m_k = m_O /\ exists ok, solve m_O self = (s_k, ok)) /\
        (forall s' m' achieved',
           iterate solve (S k) self = Some (s', m', achieved') ->
           m' = (m_k / (achieved / tau))%py
           /\ exists ok, solve m' s_k = (s', ok))) /\
     (forall k s_k m_k achieved fuel,
        iterate solve k self = Some (s_k, m_k, achieved) ->
        loop_condition achieved = false ->
        (forall j, (j < k)%nat ->
           exists s m a, iterate solve j self = Some (s, m, a)
                         /\ loop_condition a = true) ->
        (k <= fuel)%nat ->
        f_round (m_k / f_of_Z (10 ^ 12))%py <> None ->
        _fit_mass_oceans solve fuel self = Returned (m_k, s_k))) /\
  (forall (solver : DifferentialEquation R -> option (solver_result R))
          (self : FourBodyProblemComplex.instance R) k s_k m_k achieved,
     iterate (FourBodyProblemComplex.solve solver) k self
     = Some (s_k, m_k, achieved) ->
     FourBodyProblemComplex.m_O s_k = m_k) /\
  (forall achieved : R,
     loop_condition achieved = false <-> within_tolerance achieved) /\
  (forall achieved : float,
     loop_condition achieved = false <->
     PrimFloat.leb (PrimFloat.abs (1 - achieved / tau)) accuracy = true
     \/ PrimFloat.is_nan (PrimFloat.abs (1 - achieved / tau)) = true).
Proof.
  split; [|split; [|split; [exact loop_condition_exact
                           | exact loop_condition_binary64]]].
  - intros F arithmetic solve self. split; [|split].
    + intros s d ts ws w_h w_last t_h t_last Es Et Ew Ewh Ewl Eth Etl.
      rewrite (@calculate_current_tau_two_points _ _ s d ts ws Es Et Ew).
      rewrite Ewh, Ewl, Etl, Eth. reflexivity.
    + intros k s_k m_k achieved Ek. split; [|split].
      * destruct k as [|k]; cbn [iterate] in Ek.
        -- destruct (solve_and_calculate solve m_O self)
             as [[s a]|] eqn:E; [cbn [bind] in Ek | discriminate].
           destruct (f_round _); [cbn [bind] in Ek | discriminate].
           inversion Ek; subst. now apply solve_and_calculate_Some in E.
        -- destruct (iterate solve k self) as [[[s m] a]|];
             [cbn [bind] in Ek | discriminate].
           destruct (solve_and_calculate solve _ s) as [[s' a']|] eqn:E;
             [cbn [bind] in Ek | discriminate].
           inversion Ek; subst. now apply solve_and_calculate_Some in E.
      * intros ->. cbn [iterate] in Ek.
        destruct (solve_and_calculate solve m_O self) as [[s a]|] eqn:E;
          [cbn [bind] in Ek | discriminate].
        destruct (f_round _); [cbn [bind] in Ek | discriminate].
        inversion Ek; subst. split; [reflexivity|].
        now apply solve_and_calculate_Some in E.
      * intros s' m' achieved' E'.
        rewrite (@iterate_S _ _ solve self k s_k m_k achieved Ek) in E'.
        destruct (solve_and_calculate solve _ s_k) as [[s2 a2]|] eqn:E;
          [cbn [bind] in E' | discriminate].
        inversion E'; subst. split; [reflexivity|].
        now apply solve_and_calculate_Some in E.
    + intros k s_k m_k achieved fuel Ek Hw Hout Hfuel Hround.
      rewrite fit_mass_oceans_iterate_0.
      destruct (iterate solve 0 self) as [[[s m] a]|] eqn:E0.
      * rewrite (@while_loop_first_exit _ _ solve self k s_k m_k achieved Ek Hw Hout
                   k 0%nat s m a fuel (Nat.add_0_l k) Hfuel E0).
        destruct (f_round _); [reflexivity | now elim Hround].
      * exfalso. destruct k as [|k]; [congruence|].
        destruct (Hout 0%nat) as (s & m & a & E & _); [lia | congruence].
  - intros solver self k s_k m_k achieved Ek.
    assert (Hm : forall m s s' a,
      solve_and_calculate (FourBodyProblemComplex.solve solver) m s = Some (s', a) ->
      FourBodyProblemComplex.m_O s' = m).
    { intros m s s' a E. apply solve_and_calculate_Some in E.
      destruct E as [(ok & E) _]. unfold FourBodyProblemComplex.solve in E.
      destruct (solver _) as [result|]; [|now inversion E].
      destruct (FourBodyProblemComplex.solution_dict result); now inversion E. }
    destruct k as [|k]; cbn [iterate] in Ek.
    + destruct (solve_and_calculate _ m_O self) as [[s a]|] eqn:E;
        [cbn [bind] in Ek | discriminate].
      destruct (f_round _); [cbn [bind] in Ek | discriminate].
      inversion Ek; subst. exact (Hm _ _ _ _ E).
    + destruct (iterate _ k self) as [[[s m] a]|];
        [cbn [bind] in Ek | discriminate].
      destruct (solve_and_calculate _ _ s) as [[s' a']|] eqn:E;
        [cbn [bind] in Ek | discriminate].
      inversion Ek; subst. exact (Hm _ _ _ _ E).
Qed.

(** With [exact_solver] every solve achieves the target drift. *)
Lemma exact_solver_achieves (m : R) (s : FourBodyProblemComplex.instance R) :
  exists s',
    solve_and_calculate (FourBodyProblemComplex.solve fits.exact_solver) m s
    = Some (s', constants.tau).
Proof.
  destruct (solve_and_calculate_fixed
              [0; fits.century; 2 * fits.century]
              [1; 1; 1 / (1 + constants.tau / (2 * PI))] m s)
    as (s' & E & _).
  exists s'. unfold fits.exact_solver. rewrite E.
  unfold py_last. cbn [length]. change (3 / 2)%nat with 1%nat.
  cbn [nth_error Nat.sub bind].
  fold fits.century. pose proof century_pos. pose proof PI_gt_2.
  assert (0 < constants.tau) by (unfold constants.tau; lra).
  assert (0 < constants.tau / (2 * PI)) by (apply Rdiv_lt_0_compat; lra).
  do 2 f_equal. field. repeat split; try lra.
  match goal with
  | |- ?e <> 0 => replace e with (2 * PI * fits.century) by ring
  end.
  apply Rmult_integral_contrapositive_currified; lra.
Qed.

Lemma tau_within_tolerance : within_tolerance constants.tau.
Proof.
  unfold within_tolerance.
  replace (1 - constants.tau / constants.tau) with 0
    by (unfold constants.tau; lra).
  rewrite Rabs_R0. lra.
Qed.

(** [solve] calls the solver once, on the instance with the new mass. *)
Lemma solve_and_calculate_ext solver solver' (m : R)
    (s : FourBodyProblemComplex.instance R) :
  solver (FourBodyProblemComplex.as_differential_equation
            (FourBodyProblemComplex.set_m_O m s))
  = solver' (FourBodyProblemComplex.as_differential_equation
               (FourBodyProblemComplex.set_m_O m s)) ->
  solve_and_calculate (FourBodyProblemComplex.solve solver) m s
  = solve_and_calculate (FourBodyProblemComplex.solve solver') m s.
Proof.
  intros E. unfold solve_and_calculate, FourBodyProblemComplex.solve.
  now rewrite E.
Qed.

Lemma spin_change_of_mass (m : R) (s : FourBodyProblemComplex.instance R) :
  fits.spin_change (FourBodyProblemComplex.as_differential_equation
                      (FourBodyProblemComplex.set_m_O m s))
  = Some (5 / 4 * constants.r_E * m / constants.m_E * constants.k).
Proof.
  unfold fits.spin_change, fits.probe. cbn [differential_equation_function
    FourBodyProblemComplex.as_differential_equation FourBodyProblemComplex.f
    FourBodyProblemComplex.set_m_O FourBodyProblemComplex.m_O bind nth_error].
  f_equal. replace (1 - 0) with 1 by ring. replace (0 - 0) with 0 by ring.
  rewrite Rabs_R1, Rabs_R0. ring.
Qed.

Lemma relaxing_solver_nominal (s : FourBodyProblemComplex.instance R) :
  exists s',
    solve_and_calculate (FourBodyProblemComplex.solve fits.relaxing_solver)
                        constants.m_O s
    = Some (s', PI).
Proof.
  rewrite (@solve_and_calculate_ext fits.relaxing_solver fits.stuck_solver).
  - apply stuck_solver_achieves.
  - unfold fits.relaxing_solver. rewrite spin_change_of_mass. cbn [bind].
    destruct (Req_dec_T _ _) as [_|Hne]; [reflexivity | now elim Hne].
Qed.

Lemma relaxing_solver_other (m : R) (s : FourBodyProblemComplex.instance R) :
  m <> constants.m_O ->
  exists s',
    solve_and_calculate (FourBodyProblemComplex.solve fits.relaxing_solver) m s
    = Some (s', constants.tau).
Proof.
  intros Hm.
  rewrite (@solve_and_calculate_ext fits.relaxing_solver fits.exact_solver).
  - apply exact_solver_achieves.
  - unfold fits.relaxing_solver. rewrite spin_change_of_mass. cbn [bind].
    destruct (Req_dec_T _ _) as [E|_]; [exfalso | reflexivity].
    apply Hm.
    assert (Hr : constants.r_E <> 0) by (unfold constants.r_E; lra).
    assert (HE : constants.m_E <> 0) by (unfold constants.m_E; lra).
    assert (Hk : constants.k <> 0) by (unfold constants.k; lra).
    revert E Hr HE Hk.
    generalize constants.r_E constants.m_E constants.k constants.m_O.
    intros r_E m_E k m_O E Hr HE Hk.
    apply Rmult_eq_reg_r with (5 / 4 * r_E / m_E * k).
    + transitivity (5 / 4 * r_E * m / m_E * k); [field; exact HE|].
      rewrite E. field. exact HE.
    + repeat apply Rmult_integral_contrapositive_currified; try assumption;
        try lra.
      now apply Rinv_neq_0_compat.
Qed.

Lemma relaxed_mass_differs : constants.m_O / (PI / constants.tau) <> constants.m_O.
Proof.
  pose proof PI_gt_2 as HPI.
  assert (Htau : 0 < constants.tau < 1) by (unfold constants.tau; lra).
  assert (Hm : 0 < constants.m_O) by (unfold constants.m_O; lra).
  revert Htau Hm. generalize constants.tau constants.m_O. intros tau0 m0 Htau Hm E.
  assert (E' : m0 * tau0 = m0 * PI).
  { rewrite <- E at 2. field. lra. }
  apply Rmult_eq_reg_l in E'; lra.
Qed.

(** A fit that relaxes once: with [relaxing_solver] the nominal mass
    achieves the drift [PI], the mass divided by [PI / tau] achieves [tau],
    and the fit returns that mass. *)
Lemma fit_mass_oceans_two_point_relaxation_witness :
  exists s_1,
    _fit_mass_oceans (FourBodyProblemComplex.solve fits.relaxing_solver) 1
                     fits.start
    = Returned (@m_O R _ / (PI / @tau R _), s_1).
Proof.
  destruct fit_literals_exact as (Etau & Em & _).
  destruct (relaxing_solver_nominal fits.start) as (s_0 & E0).
  assert (I0 : iterate (FourBodyProblemComplex.solve fits.relaxing_solver) 0
                       fits.start
               = Some (s_0, @m_O R _, PI)).
  { cbn [iterate]. rewrite Em at 1. rewrite E0. reflexivity. }
  destruct (@relaxing_solver_other (@m_O R _ / (PI / @tau R _)) s_0)
    as (s_1 & E1).
  { rewrite Etau, Em. exact relaxed_mass_differs. }
  assert (I1 : iterate (FourBodyProblemComplex.solve fits.relaxing_solver) 1
                       fits.start
               = Some (s_1, @m_O R _ / (PI / @tau R _), @tau R _)).
  { rewrite (@iterate_S _ _ _ fits.start 0 s_0 (@m_O R _) PI I0).
    change (f_div (@m_O R _) (f_div PI (@tau R _)))
      with (@m_O R _ / (PI / @tau R _)).
    rewrite E1. reflexivity. }
  exists s_1.
  apply (proj2 (proj2 (proj1 fit_mass_oceans_two_point_relaxation R _
                         (FourBodyProblemComplex.solve fits.relaxing_solver)
                         fits.start)))
    with (k := 1%nat) (achieved := @tau R _).
  - exact I1.
  - apply loop_condition_exact. exact tau_within_tolerance.
  - intros j Hj. assert (j = 0%nat) by lia. subst j.
    exists s_0, (@m_O R _), PI. split; [exact I0 | exact loop_condition_PI].
  - lia.
  - discriminate.
Defined.

(** The instance after [solve] with a solver that returns [ts] and [ws]. *)
Lemma solve_fixed_solution (ts ws : list R) (m : R)
    (s : FourBodyProblemComplex.instance R) :
  exists d,
    FourBodyProblemComplex.solution
      (fst (FourBodyProblemComplex.solve (fits.fixed_solver ts ws) m s)) = Some d
    /\ dict_get "t" d = Some ts /\ dict_get "vphi_E" d = Some ws.
Proof.
  unfold FourBodyProblemComplex.solve, fits.fixed_solver.
  destruct (solution_dict_spin_rows ts ws) as (d & -> & Et & Ew).
  exists d. cbn. auto.
Qed.

(** C3 fails as stated.  On eight samples with [vphi_E = 1, 1, 1, 1, 1, 2,
    1, 1] at the times [0 .. 7], the code reads the samples 4 and 7, finds
    the slope 0 and the drift 0; the least-squares line through the samples
    4 to 7 has the slope [-1/10] and gives another drift. *)
Lemma two_point_estimate_is_not_regression :
  let s := fst (FourBodyProblemComplex.solve fits.wobble_solver constants.m_O
                                             fits.start) in
  _calculate_current_tau s = Some 0 /\
  _calculate_current_tau s <> regression.calculate_current_tau s.
Proof.
  intros s.
  destruct (solve_fixed_solution [0; 1; 2; 3; 4; 5; 6; 7] [1; 1; 1; 1; 1; 2; 1; 1]
              constants.m_O fits.start) as (d & Es & Et & Ew).
  fold fits.wobble_solver in Es. fold s in Es.
  assert (Ecode : _calculate_current_tau s = Some 0).
  { rewrite (@calculate_current_tau_two_points _ _ s d _ _ Es Et Ew).
    unfold py_last. cbn [length]. change (8 / 2)%nat with 4%nat.
    cbn [nth_error Nat.sub bind].
    change (Some (2 * PI * (1 / (1 + 100 * 365.24 * 24 * 3600
                                     * ((1 - 1) / (7 - 4))) - 1 / 1)) = Some 0).
    f_equal. field. }
  split; [exact Ecode|]. rewrite Ecode.
  unfold regression.calculate_current_tau. rewrite Es. cbn [bind].
  rewrite Et, Ew. cbn [bind length]. change (8 / 2)%nat with 4%nat.
  cbn [nth_error bind skipn].
  assert (Eslope : regression.linear_regression_slope [4; 5; 6; 7] [1; 2; 1; 1]
                   = - (1 / 10)).
  { unfold regression.linear_regression_slope, regression.mean, regression.sum.
    cbn [zip_with map fold_right length]. change (INR 4) with (1 + 1 + 1 + 1).
    field. }
  rewrite Eslope. intros E. injection E as E.
  pose proof PI_gt_2.
  assert (E1 : 1 / (1 + 100 * 365.24 * 24 * 3600 * - (1 / 10)) - 1 / 1 = 0).
  { apply Rmult_eq_reg_l with (2 * PI); [|lra]. rewrite <- E. ring. }
  replace (1 + 100 * 365.24 * 24 * 3600 * - (1 / 10)) with (-315567359) in E1
    by lra.
  lra.
Qed.

(** C10.  Every call of [FourBodyProblemComplex.solve] assigns its
    argument [m_O] to the field [m_O] of the instance before it calls the
    solver: the field holds the argument afterwards, whether the solver
    returns or raises, the solver is called on the instance with the new
    mass, and the mass the instance had before plays no part.  The default
    of the argument is the nominal constant, so a call without [m_O]
    replaces any mass set before (a fitted one, say) by the nominal one.
    [initial_conditions], [time_boundaries] and [data_points_amount] are
    left as they were. *)
Theorem solve_assigns_m_O
    (solver : DifferentialEquation R -> option (solver_result R))
    (m_O : R) (self : FourBodyProblemComplex.instance R) :
  let after := fst (FourBodyProblemComplex.solve solver m_O self) in
  FourBodyProblemComplex.m_O after = m_O /\
  FourBodyProblemComplex.solve solver m_O self
  = FourBodyProblemComplex.solve
      (fun _ => solver (FourBodyProblemComplex.as_differential_equation
                          (FourBodyProblemComplex.set_m_O m_O self)))
      m_O self /\
  (forall previous,
     FourBodyProblemComplex.solve solver m_O
       (FourBodyProblemComplex.set_m_O previous self)
     = FourBodyProblemComplex.solve solver m_O self) /\
  (forall fitted,
     FourBodyProblemComplex.m_O
       (fst (FourBodyProblemComplex.solve_default_m_O solver
               (FourBodyProblemComplex.set_m_O fitted self)))
     = constants.m_O) /\
  FourBodyProblemComplex.initial_conditions after
  = FourBodyProblemComplex.initial_conditions self /\
  FourBodyProblemComplex.time_boundaries after
  = FourBodyProblemComplex.time_boundaries self /\
  FourBodyProblemComplex.data_points_amount after
  = FourBodyProblemComplex.data_points_amount self.
Proof.
  assert (Hm : forall solver' m s,
    FourBodyProblemComplex.m_O (fst (FourBodyProblemComplex.solve solver' m s)) = m).
  { intros solver' m s. unfold FourBodyProblemComplex.solve.
    destruct (solver' _) as [result|]; [|reflexivity].
    destruct (FourBodyProblemComplex.solution_dict result); reflexivity. }
  cbv zeta. split; [apply Hm|]. split; [reflexivity|]. split; [reflexivity|].
  split; [intros fitted; apply Hm|].
  unfold FourBodyProblemComplex.solve.
  destruct (solver _) as [result|]; [|repeat split].
  destruct (FourBodyProblemComplex.solution_dict result); repeat split.
Qed.

End Fit.

(** ** More on the solvers: shapes, errors and edge cases *)

Section SolverShapes.
Context {F : Type} `{PyFloat F}.

Lemma zip_with_length (g : F -> F -> F) (u : list F) : forall v,
  length (zip_with g u v) = Nat.min (length u) (length v).
Proof.
  induction u as [|x u IH]; intros [|y v]; cbn; try reflexivity.
  now rewrite IH.
Qed.

Lemma np_iadd_length (r v r' : list F) :
  np_iadd r v = Some r' -> length r' = length r.
Proof.
  unfold np_iadd. destruct (Nat.eqb_spec (length r) (length v)) as [E|_].
  - intros [= <-]. rewrite zip_with_length. lia.
  - destruct v as [|y [|? ?]]; try discriminate.
    intros [= <-]. apply length_map.
Qed.

Lemma np_add_same_length (u v : list F) :
  length u = length v -> np_add u v = Some (zip_with f_add u v).
Proof. intros E. unfold np_add. now rewrite E, Nat.eqb_refl. Qed.

Lemma euler_step_length f (h t : F) (s s' : list F) :
  euler_step f h t s = Some s' -> length s' = length s.
Proof.
  unfold euler_step. intros E. bind_inv E. eapply np_iadd_length; eassumption.
Qed.

Lemma RungeKuttaSolver_update_length f (h t : F) (r r' : list F) :
  RungeKuttaSolver.update f h r t = Some r' -> length r' = length r.
Proof.
  unfold RungeKuttaSolver.update. intros E.
  repeat bind_inv E. eapply np_iadd_length; eassumption.
Qed.

(** A property of the state kept by every step holds of every row. *)
Lemma trajectory_Forall (P : list F -> Prop) step (ts : list F) :
  (forall t s s', P s -> step t s = Some s' -> P s') ->
  forall s rows, P s -> trajectory step ts s = Some rows -> Forall P rows.
Proof.
  intros Hstep. induction ts as [|t ts IH]; intros s rows Hs E; cbn in E.
  - injection E as <-. constructor.
  - bind_inv E. bind_inv E. injection E as <-.
    assert (Hl : P l) by (eapply Hstep; eassumption).
    constructor; [exact Hl|]. eapply IH; eassumption.
Qed.

(** Steps that cannot fail on the states with a property they keep take
    the whole trajectory. *)
Lemma trajectory_total (P : list F -> Prop) step (ts : list F) :
  (forall t s, P s -> exists s', step t s = Some s' /\ P s') ->
  forall s, P s -> exists rows, trajectory step ts s = Some rows.
Proof.
  intros Hstep. induction ts as [|t ts IH]; intros s Hs; cbn.
  - now exists [].
  - destruct (Hstep t s Hs) as (s' & -> & Hs'). cbn.
    destruct (IH s' Hs') as (rows & ->). cbn. now exists (s' :: rows).
Qed.

(** X1.  Whatever the right-hand side returns and in any arithmetic, a
    result of [EulerSolver.solve] or [RungeKuttaSolver.solve] is
    rectangular: every row has as many entries as [initial_conditions]
    (the update [r += ...] cannot change the shape of [r]), and there is
    one row per time point, or a single row when there is no time point.
    The first row of [EulerSolver.solve] is [initial_conditions], as
    floats. *)
Theorem fixed_step_solvers_rows_rectangular (de : DifferentialEquation F)
    t_points r_points :
  EulerSolver.solve de = Some (t_points, r_points) \/
  RungeKuttaSolver.solve de = Some (t_points, r_points) ->
  Forall (fun row => length row = length (initial_conditions de))
         (rows_of_result r_points)
  /\ length (rows_of_result r_points) = Nat.max 1 (length t_points)
  /\ (EulerSolver.solve de = Some (t_points, r_points) ->
      hd [] (rows_of_result r_points)
      = np_array_float (initial_conditions de)).
Proof.
  assert (Hic : length (np_array_float (initial_conditions de))
                = length (initial_conditions de)) by apply length_map.
  intros [E|E].
  - apply EulerSolver_solve_rows in E. destruct E as (h & rows & _ & _ & ET & ->).
    cbn [rows_of_result]. split; [|split; [|reflexivity]].
    + constructor; [exact Hic|].
      apply (@trajectory_Forall
               (fun row => length row = length (initial_conditions de))
               _ _ (fun t s s' Hs Es =>
                      eq_trans (euler_step_length _ _ _ _ Es) Hs)
               _ _ Hic ET).
    + apply trajectory_length in ET. cbn [length]. rewrite ET.
      destruct t_points; cbn; lia.
  - split; [|split].
    + apply RungeKuttaSolver_solve_rows in E.
      destruct E as (h & rows & _ & _ & ET & -> & _).
      assert (HF : Forall (fun row => length row = length (initial_conditions de))
                          rows).
      { apply (@trajectory_Forall
                 (fun row => length row = length (initial_conditions de))
                 _ _ (fun t s s' Hs Es =>
                        eq_trans (RungeKuttaSolver_update_length _ _ _ _ Es) Hs)
                 _ _ Hic ET). }
      constructor; [|exact HF]. destruct HF; [exact Hic | assumption].
    + apply RungeKuttaSolver_solve_rows in E.
      destruct E as (h & rows & _ & _ & ET & -> & _).
      apply trajectory_length in ET. cbn [length]. rewrite ET.
      destruct t_points; cbn; lia.
    + intros E'. apply EulerSolver_solve_rows in E'.
      destruct E' as (h & rows & _ & _ & _ & ->). reflexivity.
Qed.

(** X2.  Once [RungeKuttaSolver.solve] takes a step, that is with two time
    points or more, it returns a two-dimensional array whose rows 0 and 1
    are the same row, the state after the first step from the initial
    conditions: [r_points = [r]] holds the array that [r += ...] updates in
    place.  The initial conditions then hold a float. *)
Theorem RungeKuttaSolver_first_row_is_second_row (de : DifferentialEquation F)
    t_points r_points (d : F) :
  RungeKuttaSolver.solve de = Some (t_points, r_points) ->
  (2 <= length t_points)%nat ->
  exists h s_1 rest,
    py_truediv (f_sub (snd (time_boundaries de)) (fst (time_boundaries de)))
               (data_points_amount de) = Some h /\
    r_points = Array2D (s_1 :: s_1 :: rest) /\
    RungeKuttaSolver.update (differential_equation_function de) h
                            (np_array_float (initial_conditions de))
                            (nth 1 t_points d)
    = Some s_1 /\
    np_array (initial_conditions de)
    = Float64Array (np_array_float (initial_conditions de)).
Proof.
  intros E Hlen. apply RungeKuttaSolver_solve_rows in E.
  destruct E as (h & rows & Eh & _ & ET & _ & _ & Hsteps).
  destruct t_points as [|t0 [|t1 ts]]; cbn in Hlen; try lia.
  cbn [tl trajectory] in ET. bind_inv ET. bind_inv ET. injection ET as <-.
  destruct Hsteps as [-> Hdtype]; [discriminate|].
  exists h, l, l0. cbn [hd nth]. auto.
Qed.

End SolverShapes.

Lemma fixed_step_solvers_rows_rectangular_witness :
  Forall (fun row => length row = length (initial_conditions inputs.clock))
         [[0]; [1]]%float
  /\ length [[0]; [1]]%float = Nat.max 1 (length [0; 1]%float)
  /\ hd [] [[0]; [1]]%float = np_array_float (initial_conditions inputs.clock).
Proof.
  assert (E : EulerSolver.solve inputs.clock
              = Some ([0; 1], Array2D [[0]; [1]])%float)
    by (vm_compute; reflexivity).
  destruct (@fixed_step_solvers_rows_rectangular float _ inputs.clock
              [0; 1]%float (Array2D [[0]; [1]]%float) (or_introl E))
    as (HF & Hlen & Hhd).
  split; [exact HF|]. split; [exact Hlen | exact (Hhd E)].
Defined.

Lemma RungeKuttaSolver_first_row_is_second_row_witness :
  exists h s_1 rest,
    py_truediv (f_sub (snd (time_boundaries inputs.clock))
                      (fst (time_boundaries inputs.clock)))
               (data_points_amount inputs.clock) = Some h /\
    Array2D [[1.5]; [1.5]]%float = Array2D (s_1 :: s_1 :: rest) /\
    RungeKuttaSolver.update (differential_equation_function inputs.clock) h
                            (np_array_float (initial_conditions inputs.clock))
                            (nth 1 [0; 1]%float 0%float)
    = Some s_1 /\
    np_array (initial_conditions inputs.clock)
    = Float64Array (np_array_float (initial_conditions inputs.clock)).
Proof.
  apply (@RungeKuttaSolver_first_row_is_second_row float _ inputs.clock
           [0; 1]%float (Array2D [[1.5]; [1.5]]%float) 0%float).
  - vm_compute. reflexivity.
  - cbn. lia.
Defined.

Section SolverEdges.
Local Open Scope R_scope.

(** [np_arange_exact] for any interval that is not empty and any number
    of points but zero: a grid that runs backwards when [b < a], and no
    point at all when [n] is negative. *)
Lemma np_arange_exact_nonzero (a b : R) (n : Z) :
  a <> b -> n <> 0%Z ->
  np_arange a b ((b - a) / IZR n) =
  Some (map (fun i => a + INR i * ((b - a) / IZR n)) (seq 0 (Z.to_nat n))).
Proof.
  intros Hab Hn.
  assert (Hn' : IZR n <> 0) by (apply not_0_IZR; exact Hn).
  assert (Hd : b - a <> 0) by lra.
  assert (Hh : (b - a) / IZR n <> 0).
  { unfold Rdiv. apply Rmult_integral_contrapositive_currified;
      [exact Hd | apply Rinv_neq_0_compat; exact Hn']. }
  unfold np_arange. cbn -[Rceil].
  destruct (Req_dec_T ((b - a) / IZR n) 0) as [E|_]; [contradiction|].
  replace ((b - a) / ((b - a) / IZR n)) with (IZR n) by (field; split; assumption).
  rewrite Rceil_IZR. f_equal. apply map_ext. intros i. apply arange_item_exact.
Qed.

Lemma np_iadd_same_length (r v : list R) :
  length r = length v -> np_iadd r v = Some (zip_with f_add r v).
Proof. intros E. unfold np_iadd. now rewrite E, Nat.eqb_refl. Qed.

(** The loop of [RungeKuttaSolver.solve], started with the list [[r]] of
    an array of floats. *)
Lemma RungeKuttaSolver_loop_from_list (f : R -> list R -> option (list R)) h
    (ts : list R) (r : list R) :
  for_each (RungeKuttaSolver.loop_body f h) ts
           (Float64Array r, RungeKuttaSolver.ListOfR) =
  (rows <- trajectory (fun t s => RungeKuttaSolver.update f h s t) ts r ;;
   Some (Float64Array (last rows r),
         match rows with
         | [] => RungeKuttaSolver.ListOfR
         | s_1 :: _ => RungeKuttaSolver.NdArray (s_1 :: rows)
         end)).
Proof.
  destruct ts as [|t ts]; [reflexivity|]. cbn.
  destruct (RungeKuttaSolver.update f h r t) as [r'|]; cbn; [|reflexivity].
  unfold RungeKuttaSolver.np_append. cbn. rewrite RungeKuttaSolver_loop.
  destruct (trajectory _ ts r') as [rows|]; cbn; [|reflexivity].
  destruct rows as [|row rows]; [reflexivity|].
  change (last (r' :: row :: rows) r) with (last (row :: rows) r).
  now rewrite (last_cons_default rows row r r').
Qed.

(** One float among the initial conditions makes [np.array] choose the
    dtype [float64]. *)
Lemma np_array_holds_float {F : Type} `{PyFloat F} (l : list (number F)) :
  (exists x, In (Float x) l) ->
  np_array l = Float64Array (np_array_float l).
Proof.
  intros (x & Hx). apply np_array_with_float.
  induction l as [|[z|y] l IH]; cbn; [destruct Hx | | reflexivity].
  destruct Hx as [Hx|Hx]; [discriminate|]. now rewrite (IH Hx).
Qed.

Ltac same_length :=
  unfold np_div_scalar, np_scale;
  repeat (rewrite ?length_map, ?zip_with_length); lia.

Lemma euler_step_total (f : R -> list R -> option (list R)) (w : nat) h t s :
  (forall t s, length s = w -> exists d, f t s = Some d /\ length d = w) ->
  length s = w ->
  exists s', euler_step f h t s = Some s' /\ length s' = w.
Proof.
  intros Hf Hs. unfold euler_step. destruct (Hf t s Hs) as (d & -> & Hd).
  cbn [bind]. rewrite np_iadd_same_length by same_length.
  eexists; split; [reflexivity|]. same_length.
Qed.

Lemma RungeKuttaSolver_update_total (f : R -> list R -> option (list R))
    (w : nat) h t r :
  (forall t s, length s = w -> exists d, f t s = Some d /\ length d = w) ->
  length r = w ->
  exists r', RungeKuttaSolver.update f h r t = Some r' /\ length r' = w.
Proof.
  intros Hf Hr. unfold RungeKuttaSolver.update.
  destruct (Hf t r Hr) as (d_1 & -> & H1). cbn [bind].
  rewrite np_add_same_length by same_length. cbn [bind].
  match goal with |- context [f ?t' ?s'] =>
    destruct (Hf t' s') as (d_2 & -> & H2); [same_length|] end.
  cbn [bind]. rewrite np_add_same_length by same_length. cbn [bind].
  match goal with |- context [f ?t' ?s'] =>
    destruct (Hf t' s') as (d_3 & -> & H3); [same_length|] end.
  cbn [bind]. rewrite np_add_same_length by same_length. cbn [bind].
  match goal with |- context [f ?t' ?s'] =>
    destruct (Hf t' s') as (d_4 & -> & H4); [same_length|] end.
  cbn [bind]. rewrite np_add_same_length by same_length. cbn [bind].
  rewrite np_add_same_length by same_length. cbn [bind].
  rewrite np_add_same_length by same_length. cbn [bind].
  rewrite np_iadd_same_length by same_length.
  eexists; split; [reflexivity|]. same_length.
Qed.

(** In exact arithmetic the solvers return, on the grid of [n] times
    [t0 + i * h], when the right-hand side returns a list of the width of
    the state for every state of a set [P] that the steps do not leave;
    every row is in [P]. *)
Lemma EulerSolver_solve_total (P : list R -> Prop) (de : DifferentialEquation R) :
  fst (time_boundaries de) <> snd (time_boundaries de) ->
  (1 <= data_points_amount de)%Z ->
  (forall h t s, P s ->
     exists s', euler_step (differential_equation_function de) h t s = Some s'
                /\ P s') ->
  P (np_array_float (initial_conditions de)) ->
  let t0 := fst (time_boundaries de) in
  let t1 := snd (time_boundaries de) in
  let h := (t1 - t0) / IZR (data_points_amount de) in
  exists rows,
    EulerSolver.solve de
    = Some (map (fun i => t0 + INR i * h)
                (seq 0 (Z.to_nat (data_points_amount de))), Array2D rows)
    /\ Forall P rows.
Proof.
  intros Hab Hn Hstep Hic t0 t1 h.
  unfold EulerSolver.solve.
  subst h t0 t1. destruct (time_boundaries de) as [a b]. cbn [fst snd] in *.
  unfold py_truediv. destruct (Z.eqb_spec (data_points_amount de) 0) as [E|_]; [lia|].
  cbn [bind f_sub f_div f_of_Z PyFloat_R].
  rewrite (@np_arange_exact_nonzero a b (data_points_amount de) Hab) by lia.
  cbn [bind]. rewrite EulerSolver_loop.
  destruct (@trajectory_total R P
              (euler_step (differential_equation_function de)
                          ((b - a) / IZR (data_points_amount de)))
              (tl (map (fun i => a + INR i * ((b - a) / IZR (data_points_amount de)))
                       (seq 0 (Z.to_nat (data_points_amount de)))))
              (Hstep _) (np_array_float (initial_conditions de)) Hic)
    as (rows & ET).
  rewrite ET. cbn. eexists; split; [reflexivity|].
  constructor; [exact Hic|].
  eapply trajectory_Forall; [|exact Hic|exact ET].
  intros t s s' Hs Es.
  destruct (Hstep ((b - a) / IZR (data_points_amount de)) t s Hs)
    as (s'' & Es' & Hs'').
  rewrite Es in Es'. injection Es' as <-. exact Hs''.
Qed.

Lemma RungeKuttaSolver_solve_total (P : list R -> Prop) (de : DifferentialEquation R) :
  fst (time_boundaries de) <> snd (time_boundaries de) ->
  (1 <= data_points_amount de)%Z ->
  (forall h t s, P s ->
     exists s', RungeKuttaSolver.update (differential_equation_function de) h s t
                = Some s' /\ P s') ->
  P (np_array_float (initial_conditions de)) ->
  np_array (initial_conditions de)
  = Float64Array (np_array_float (initial_conditions de)) ->
  let t0 := fst (time_boundaries de) in
  let t1 := snd (time_boundaries de) in
  let h := (t1 - t0) / IZR (data_points_amount de) in
  exists r_points,
    RungeKuttaSolver.solve de
    = Some (map (fun i => t0 + INR i * h)
                (seq 0 (Z.to_nat (data_points_amount de))), r_points)
    /\ Forall P (rows_of_result r_points)
    /\ ((2 <= data_points_amount de)%Z ->
        exists rows, r_points = Array2D rows).
Proof.
  intros Hab Hn Hstep Hic Hdtype t0 t1 h.
  unfold RungeKuttaSolver.solve.
  subst h t0 t1. destruct (time_boundaries de) as [a b]. cbn [fst snd] in *.
  unfold py_truediv. destruct (Z.eqb_spec (data_points_amount de) 0) as [E|_]; [lia|].
  cbn [bind f_sub f_div f_of_Z PyFloat_R].
  rewrite (@np_arange_exact_nonzero a b (data_points_amount de) Hab) by lia.
  cbn [bind]. rewrite Hdtype, RungeKuttaSolver_loop_from_list.
  destruct (@trajectory_total R P
              (fun t s => RungeKuttaSolver.update
                            (differential_equation_function de)
                            ((b - a) / IZR (data_points_amount de)) s t)
              (tl (map (fun i => a + INR i * ((b - a) / IZR (data_points_amount de)))
                       (seq 0 (Z.to_nat (data_points_amount de)))))
              (Hstep _) (np_array_float (initial_conditions de)) Hic)
    as (rows & ET).
  rewrite ET. cbn [bind].
  assert (HF : Forall P rows).
  { eapply trajectory_Forall; [|exact Hic|exact ET].
    intros t s s' Hs Es.
    destruct (Hstep ((b - a) / IZR (data_points_amount de)) t s Hs)
      as (s'' & Es' & Hs'').
    cbn beta in Es. rewrite Es in Es'. injection Es' as <-. exact Hs''. }
  assert (Hlen : length rows = (Z.to_nat (data_points_amount de) - 1)%nat).
  { apply trajectory_length in ET. rewrite ET.
    destruct (Z.to_nat (data_points_amount de)) as [|n] eqn:En; [reflexivity|].
    cbn [seq map tl length]. rewrite length_map, length_seq. lia. }
  destruct rows as [|s_1 rows];
    cbn [RungeKuttaSolver.returned last rows_of_result array_values];
    eexists; (split; [reflexivity|]); split.
  - constructor; [exact Hic | constructor].
  - intros H2. cbn [length] in Hlen. lia.
  - constructor; [|exact HF]. now inversion HF.
  - intros _. eauto.
Qed.

(** The first step of [RungeKuttaSolver.solve] raises on initial
    conditions that are all ints. *)
Lemma RungeKuttaSolver_solve_ints (de : DifferentialEquation R) zs :
  fst (time_boundaries de) <> snd (time_boundaries de) ->
  (2 <= data_points_amount de)%Z ->
  np_array (initial_conditions de) = Int64Array zs ->
  RungeKuttaSolver.solve de = None.
Proof.
  intros Hab Hn Hdtype. unfold RungeKuttaSolver.solve.
  destruct (time_boundaries de) as [a b]. cbn [fst snd] in *.
  unfold py_truediv. destruct (Z.eqb_spec (data_points_amount de) 0) as [E|_]; [lia|].
  cbn [bind f_sub f_div f_of_Z PyFloat_R].
  rewrite (@np_arange_exact_nonzero a b (data_points_amount de) Hab) by lia.
  cbn [bind]. rewrite Hdtype.
  destruct (Z.to_nat (data_points_amount de)) as [|[|n]] eqn:En; [lia | lia |].
  reflexivity.
Qed.

(** X3.  In exact arithmetic [EulerSolver.solve] returns, on the grid of
    [n] times [t0 + i * h], for every equation with [t0 <> t1], [n >= 1]
    and a right-hand side that returns, for every time and every state of
    the width of [initial_conditions], a list of that width.
    [RungeKuttaSolver.solve] returns on the same grid when, besides, one of
    the initial conditions is a float; when all of them are ints and
    [n >= 2], it raises at the first step, for its array [r] holds ints.
    The interval may run backwards ([t1 < t0]): [h] is negative then and so
    are the steps. *)
Theorem fixed_step_solvers_return (de : DifferentialEquation R) :
  fst (time_boundaries de) <> snd (time_boundaries de) ->
  (1 <= data_points_amount de)%Z ->
  (forall t s, length s = length (initial_conditions de) ->
     exists d, differential_equation_function de t s = Some d
               /\ length d = length (initial_conditions de)) ->
  let t0 := fst (time_boundaries de) in
  let t1 := snd (time_boundaries de) in
  let h := (t1 - t0) / IZR (data_points_amount de) in
  let grid := map (fun i => t0 + INR i * h)
                  (seq 0 (Z.to_nat (data_points_amount de))) in
  (exists rows, EulerSolver.solve de = Some (grid, Array2D rows)) /\
  ((exists x, In (Float x) (initial_conditions de)) ->
   exists r_points, RungeKuttaSolver.solve de = Some (grid, r_points)) /\
  (forall zs, np_array (initial_conditions de) = Int64Array zs ->
     (2 <= data_points_amount de)%Z ->
     RungeKuttaSolver.solve de = None).
Proof.
  intros Hab Hn Hf t0 t1 h grid.
  assert (Hic : length (np_array_float (initial_conditions de))
                = length (initial_conditions de)) by apply length_map.
  split; [|split].
  - destruct (@EulerSolver_solve_total
                (fun s => length s = length (initial_conditions de)) de Hab Hn
                (fun h t s Hs => @euler_step_total _ _ h t s Hf Hs) Hic)
      as (rows & E & _).
    exists rows. exact E.
  - intros Hfloat.
    destruct (@RungeKuttaSolver_solve_total
                (fun s => length s = length (initial_conditions de)) de Hab Hn
                (fun h t s Hs => @RungeKuttaSolver_update_total _ _ h t s Hf Hs)
                Hic (np_array_holds_float _ Hfloat))
      as (r_points & E & _).
    exists r_points. exact E.
  - intros zs Hdtype H2. exact (RungeKuttaSolver_solve_ints de Hab H2 Hdtype).
Qed.

End SolverEdges.

Section SolverErrors.
Local Open Scope R_scope.

(** X4.  Both fixed-step solvers raise, before the right-hand side is ever
    called, when [data_points_amount] is zero ([ZeroDivisionError] in
    [h = (b - a) / n]) and, in exact arithmetic, when the time interval is
    empty (the step [h] is zero and [np.arange] refuses it). *)
Theorem fixed_step_solvers_raise (de : DifferentialEquation R) :
  data_points_amount de = 0%Z
  \/ fst (time_boundaries de) = snd (time_boundaries de) ->
  EulerSolver.solve de = None /\ RungeKuttaSolver.solve de = None.
Proof.
  intros Hde. unfold EulerSolver.solve, RungeKuttaSolver.solve.
  destruct (time_boundaries de) as [a b]. cbn [fst snd] in Hde.
  unfold py_truediv.
  destruct (Z.eqb_spec (data_points_amount de) 0) as [E|E]; [split; reflexivity|].
  destruct Hde as [Hn | ->]; [contradiction|].
  cbn [bind f_sub f_div f_of_Z PyFloat_R]. unfold np_arange.
  cbn [f_eqb f_of_Z PyFloat_R].
  destruct (Req_dec_T ((b - b) / IZR (data_points_amount de)) 0) as [_|Hh];
    [split; reflexivity|].
  exfalso. apply Hh. unfold Rdiv. rewrite Rminus_diag. apply Rmult_0_l.
Qed.

Lemma fixed_step_solvers_raise_witness :
  EulerSolver.solve (TwoBodyProblem.init constants.DEFAULT_TIME_BOUNDARIES 0) = None
  /\ RungeKuttaSolver.solve (TwoBodyProblem.init constants.DEFAULT_TIME_BOUNDARIES 0)
     = None.
Proof.
  apply (fixed_step_solvers_raise
           (TwoBodyProblem.init constants.DEFAULT_TIME_BOUNDARIES 0)).
  left. reflexivity.
Defined.

(** X5.  A negative [data_points_amount] is not refused: in exact
    arithmetic, over a time interval that is not empty, both fixed-step
    solvers return no time point at all and one row, the initial
    conditions, without calling the right-hand side.  [EulerSolver]
    returns the row in a two-dimensional array, [RungeKuttaSolver] in the
    list [[r]]. *)
Theorem fixed_step_solvers_negative_amount (de : DifferentialEquation R) :
  fst (time_boundaries de) <> snd (time_boundaries de) ->
  (data_points_amount de < 0)%Z ->
  EulerSolver.solve de
  = Some ([], Array2D [np_array_float (initial_conditions de)]) /\
  RungeKuttaSolver.solve de
  = Some ([], ListOfArray (np_array (initial_conditions de))).
Proof.
  intros Hab Hn. unfold EulerSolver.solve, RungeKuttaSolver.solve.
  destruct (time_boundaries de) as [a b]. cbn [fst snd] in Hab.
  unfold py_truediv.
  destruct (Z.eqb_spec (data_points_amount de) 0) as [E|_]; [lia|].
  cbn [bind f_sub f_div f_of_Z PyFloat_R].
  rewrite (@np_arange_exact_nonzero a b (data_points_amount de) Hab) by lia.
  replace (Z.to_nat (data_points_amount de)) with 0%nat by lia.
  split; reflexivity.
Qed.

Lemma fixed_step_solvers_negative_amount_witness :
  EulerSolver.solve (TwoBodyProblem.init constants.DEFAULT_TIME_BOUNDARIES (-5))
    = Some ([], Array2D [TwoBodyProblem.initial_conditions]) /\
  RungeKuttaSolver.solve (TwoBodyProblem.init constants.DEFAULT_TIME_BOUNDARIES (-5))
    = Some ([], ListOfArray (Float64Array TwoBodyProblem.initial_conditions)).
Proof.
  pose proof (fixed_step_solvers_negative_amount
                (TwoBodyProblem.init constants.DEFAULT_TIME_BOUNDARIES (-5))) as Hw.
  cbn [TwoBodyProblem.init initial_conditions time_boundaries data_points_amount
       constants.DEFAULT_TIME_BOUNDARIES fst snd] in Hw.
  destruct (np_array_map_Float TwoBodyProblem.initial_conditions) as [E1 E2].
  rewrite E1, E2 in Hw. apply Hw; [lra | reflexivity].
Defined.

(** X6.  What [EulerSolver.solve] does, in exact arithmetic, with a
    right-hand side whose value at the first step has not the width of the
    state ([n >= 2] points): a value of one entry [[c]] is not refused but
    broadcast, the second row is the initial state with [h * c] added to
    every entry; a value of any other width makes the solver raise. *)
Theorem EulerSolver_rhs_of_other_width (de : DifferentialEquation R) (d : list R) :
  let t0 := fst (time_boundaries de) in
  let t1 := snd (time_boundaries de) in
  let h := (t1 - t0) / IZR (data_points_amount de) in
  let r := np_array_float (initial_conditions de) in
  t0 <> t1 ->
  (2 <= data_points_amount de)%Z ->
  differential_equation_function de (t0 + h) r = Some d ->
  length d <> length r ->
  match d with
  | [c] =>
      forall t_points r_points,
        EulerSolver.solve de = Some (t_points, r_points) ->
        nth 1 (rows_of_result r_points) [] = map (fun x => x + h * c) r
  | _ => EulerSolver.solve de = None
  end.
Proof.
  intros t0 t1 h r Hab Hn Hd Hlen.
  assert (Hstep : euler_step (differential_equation_function de) h
                    (t0 + INR 1 * h) r
                  = match d with
                    | [c] => Some (map (fun x => x + h * c) r)
                    | _ => None
                    end).
  { unfold euler_step. replace (t0 + INR 1 * h) with (t0 + h) by (cbn; ring).
    rewrite Hd. cbn [bind]. unfold np_iadd, np_scale. rewrite length_map.
    destruct (Nat.eqb_spec (length r) (length d)) as [E|_];
      [congruence|].
    destruct d as [|c [|? ?]]; reflexivity. }
  assert (Hgrid : exists m, Z.to_nat (data_points_amount de) = S (S m)).
  { exists (Z.to_nat (data_points_amount de) - 2)%nat. lia. }
  destruct Hgrid as (m & Hm).
  assert (Hsolve : EulerSolver.solve de =
    (rows <- trajectory (euler_step (differential_equation_function de) h)
               (tl (map (fun i => t0 + INR i * h) (seq 0 (S (S m))))) r ;;
     Some (map (fun i => t0 + INR i * h) (seq 0 (S (S m))),
           Array2D (r :: rows)))).
  { unfold EulerSolver.solve. subst h t0 t1 r.
    destruct (time_boundaries de) as [a b]. cbn [fst snd] in *.
    unfold py_truediv.
    destruct (Z.eqb_spec (data_points_amount de) 0) as [E|_]; [lia|].
    cbn [bind f_sub f_div f_of_Z PyFloat_R].
    rewrite (@np_arange_exact_nonzero a b (data_points_amount de) Hab) by lia.
    rewrite Hm. cbn [bind]. rewrite EulerSolver_loop.
    destruct (trajectory _ _ (np_array_float (initial_conditions de)));
      reflexivity. }
  cbn [seq map tl trajectory] in Hsolve. rewrite Hstep in Hsolve.
  destruct d as [|c [|? ?]]; try exact Hsolve.
  intros t_points r_points E. rewrite Hsolve in E. cbn [bind] in E.
  destruct (trajectory _ _ _) as [rows|]; [|discriminate E].
  cbn [bind] in E. injection E as _ <-. reflexivity.
Qed.

Lemma EulerSolver_rhs_of_other_width_witness :
  EulerSolver.solve
    (Build_DifferentialEquation (fun _ _ => Some [1; 2; 3])
                                [Float 0; Float 0] (0, 2) 2)
  = None.
Proof.
  apply (@EulerSolver_rhs_of_other_width
           (Build_DifferentialEquation (fun _ _ => Some [1; 2; 3])
                                       [Float 0; Float 0] (0, 2) 2)
           [1; 2; 3]).
  - cbn. lra.
  - cbn. lia.
  - reflexivity.
  - cbn. lia.
Defined.

Lemma TwoBodyProblem_f_total (t : R) (s : list R) :
  length s = 8%nat ->
  exists d, TwoBodyProblem.f t s = Some d /\ length d = 8%nat.
Proof.
  intros Hs. do 9 (destruct s as [|? s]; try discriminate Hs).
  eexists. split; reflexivity.
Qed.

(** The two-body problem over the default time boundaries with 5000 points
    is solved by both; the equation [r' = 0] from the ints [(0,)] with two
    points only by [EulerSolver]. *)
Lemma fixed_step_solvers_return_witness :
  ((exists rows,
      EulerSolver.solve (TwoBodyProblem.init constants.DEFAULT_TIME_BOUNDARIES 5000)
      = Some (map (fun i => 0 + INR i * ((60 * 24 * 60 * 60 - 0) / 5000))
                  (seq 0 (Z.to_nat 5000)), Array2D rows)) /\
   (exists r_points,
      RungeKuttaSolver.solve
        (TwoBodyProblem.init constants.DEFAULT_TIME_BOUNDARIES 5000)
      = Some (map (fun i => 0 + INR i * ((60 * 24 * 60 * 60 - 0) / 5000))
                  (seq 0 (Z.to_nat 5000)), r_points))) /\
  RungeKuttaSolver.solve
    (Build_DifferentialEquation (fun _ _ => Some [0])
                                [Int (Build_int64 0 eq_refl)] (0, 1) 2)
  = None.
Proof.
  split.
  - destruct (@fixed_step_solvers_return
                (TwoBodyProblem.init constants.DEFAULT_TIME_BOUNDARIES 5000))
      as (HE & HRK & _).
    + cbn. lra.
    + cbn. lia.
    + intros t s Hs. apply TwoBodyProblem_f_total.
      cbn in Hs. exact Hs.
    + split; [exact HE|]. apply HRK.
      exists (- constants.r_C). left. reflexivity.
  - refine (proj2 (proj2 (@fixed_step_solvers_return
                            (Build_DifferentialEquation
                               (fun _ _ => Some [0])
                               [Int (Build_int64 0 eq_refl)] (0, 1) 2) _ _ _))
                  [Build_int64 0 eq_refl] eq_refl _).
    + cbn. lra.
    + cbn. lia.
    + intros t s Hs. exists [0]. split; reflexivity.
    + cbn. lia.
Defined.

End SolverErrors.

(** ** The two-body problem under the fixed-step solvers *)

Section TwoBodyConservation.
Local Open Scope R_scope.

(** Newton's third law in [TwoBodyProblem.f]: the forces on Earth and on
    Moon are opposite. *)
Lemma TwoBodyProblem_f_forces (t x_E vx_E y_E vy_E x_M vx_M y_M vy_M : R) :
  exists ax_E ay_E ax_M ay_M,
    TwoBodyProblem.f t [x_E; vx_E; y_E; vy_E; x_M; vx_M; y_M; vy_M]
    = Some [vx_E; ax_E; vy_E; ay_E; vx_M; ax_M; vy_M; ay_M]
    /\ constants.m_E * ax_E + constants.m_M * ax_M = 0
    /\ constants.m_E * ay_E + constants.m_M * ay_M = 0.
Proof.
  do 4 eexists. split; [reflexivity|].
  generalize constants.m_E constants.m_M constants.G. intros m_E m_M G.
  split; unfold Rdiv; ring.
Qed.

Ltac eight s H :=
  do 8 (destruct s as [|? s]; [exfalso; exact H|]);
  destruct s as [|? s]; [|exfalso; exact H].

Lemma euler_step_centre_of_mass (h t : R) (s : list R) :
  two_body_problem.centre_of_mass_at_rest s ->
  exists s', euler_step TwoBodyProblem.f h t s = Some s'
             /\ two_body_problem.centre_of_mass_at_rest s'.
Proof.
  intros Hs. eight s Hs.
  destruct (TwoBodyProblem_f_forces t r r0 r1 r2 r3 r4 r5 r6)
    as (ax_E & ay_E & ax_M & ay_M & Ef & Hx & Hy).
  unfold euler_step. rewrite Ef. cbn [bind].
  unfold np_iadd, np_scale.
  cbn [length map Nat.eqb zip_with f_add f_mul PyFloat_R].
  eexists. split; [reflexivity|].
  cbn [two_body_problem.centre_of_mass_at_rest] in *.
  destruct Hs as (HX & HP & HY & HQ).
  revert HX HP HY HQ Hx Hy.
  generalize constants.m_E constants.m_M. intros m_E m_M HX HP HY HQ Hx Hy.
  pose proof (f_equal (Rmult h) HP). pose proof (f_equal (Rmult h) HQ).
  pose proof (f_equal (Rmult h) Hx). pose proof (f_equal (Rmult h) Hy).
  repeat split; lra.
Qed.

Ltac two_body_stage :=
  match goal with
  | |- context [TwoBodyProblem.f ?t [?a; ?b; ?c; ?d; ?e; ?f; ?g; ?i]] =>
      let Ef := fresh "Ef" in
      destruct (TwoBodyProblem_f_forces t a b c d e f g i)
        as (? & ? & ? & ? & Ef & ? & ?);
      rewrite Ef; clear Ef;
      cbn [bind np_add np_iadd np_scale np_div_scalar length map Nat.eqb zip_with
           f_add f_mul f_div f_of_Z PyFloat_R]
  end.

Lemma RungeKuttaSolver_update_centre_of_mass (h t : R) (s : list R) :
  two_body_problem.centre_of_mass_at_rest s ->
  exists s', RungeKuttaSolver.update TwoBodyProblem.f h s t = Some s'
             /\ two_body_problem.centre_of_mass_at_rest s'.
Proof.
  intros Hs. eight s Hs.
  unfold RungeKuttaSolver.update.
  do 4 two_body_stage.
  eexists. split; [reflexivity|].
  cbn [two_body_problem.centre_of_mass_at_rest] in *.
  destruct Hs as (HX & HP & HY & HQ).
  repeat match goal with
         | H : _ * _ + _ * _ = 0 |- _ => revert H
         end.
  generalize constants.m_E constants.m_M. intros m_E m_M.
  intros.
  repeat match goal with
         | H : ?e = 0 |- _ =>
             pose proof (f_equal (Rmult h) H);
             pose proof (f_equal (Rmult (h * h)) H);
             revert H
         end.
  intros. repeat split; lra.
Qed.

Lemma TwoBodyProblem_initial_centre_of_mass :
  two_body_problem.centre_of_mass_at_rest TwoBodyProblem.initial_conditions.
Proof.
  unfold TwoBodyProblem.initial_conditions, two_body_problem.centre_of_mass_at_rest,
    constants.r_C.
  assert (Hm : constants.m_M + constants.m_E <> 0)
    by (unfold constants.m_M, constants.m_E; lra).
  assert (HT : constants.T_M <> 0) by (unfold constants.T_M; lra).
  revert Hm HT.
  generalize constants.m_E constants.m_M constants.r_M constants.T_M PI.
  intros m_E m_M r_M T_M pi Hm HT.
  repeat split; field; auto.
Qed.

(** The tuple of initial conditions holds floats: the solvers start from
    it as a [float64] array. *)
Lemma TwoBodyProblem_init_dtype (time_boundaries : R * R) (data_points_amount : Z) :
  let de := TwoBodyProblem.init time_boundaries data_points_amount in
  np_array (initial_conditions de)
  = Float64Array (np_array_float (initial_conditions de)).
Proof.
  cbn [TwoBodyProblem.init initial_conditions].
  destruct (np_array_map_Float TwoBodyProblem.initial_conditions) as [-> ->].
  reflexivity.
Qed.

Lemma TwoBodyProblem_init_centre_of_mass (time_boundaries : R * R)
    (data_points_amount : Z) :
  two_body_problem.centre_of_mass_at_rest
    (np_array_float
       (initial_conditions (TwoBodyProblem.init time_boundaries data_points_amount))).
Proof.
  cbn [TwoBodyProblem.init initial_conditions].
  destruct (np_array_map_Float TwoBodyProblem.initial_conditions) as [_ ->].
  exact TwoBodyProblem_initial_centre_of_mass.
Qed.

(** X7.  Both fixed-step solvers conserve the total momentum of the
    two-body problem in exact arithmetic: for every time interval that is
    not empty and every [n >= 1] they return, and in every row the total
    momentum [m_E * v_E + m_M * v_M] is zero and the centre of mass
    [m_E * r_E + m_M * r_M] is at the origin, as in the initial
    conditions (the two forces of [TwoBodyProblem.f] are opposite, and the
    steps are linear in the right-hand side). *)
Theorem TwoBodyProblem_centre_of_mass_conserved (time_boundaries : R * R)
    (data_points_amount : Z) :
  fst time_boundaries <> snd time_boundaries ->
  (1 <= data_points_amount)%Z ->
  (exists t_points r_points,
     EulerSolver.solve (TwoBodyProblem.init time_boundaries data_points_amount)
     = Some (t_points, r_points)
     /\ Forall two_body_problem.centre_of_mass_at_rest (rows_of_result r_points)) /\
  (exists t_points r_points,
     RungeKuttaSolver.solve (TwoBodyProblem.init time_boundaries data_points_amount)
     = Some (t_points, r_points)
     /\ Forall two_body_problem.centre_of_mass_at_rest (rows_of_result r_points)).
Proof.
  intros Hab Hn. split.
  - destruct (@EulerSolver_solve_total two_body_problem.centre_of_mass_at_rest
                (TwoBodyProblem.init time_boundaries data_points_amount) Hab Hn
                euler_step_centre_of_mass (TwoBodyProblem_init_centre_of_mass _ _))
      as (rows & E & HF).
    eexists. exists (Array2D rows). split; [exact E | exact HF].
  - destruct (@RungeKuttaSolver_solve_total two_body_problem.centre_of_mass_at_rest
                (TwoBodyProblem.init time_boundaries data_points_amount) Hab Hn
                RungeKuttaSolver_update_centre_of_mass
                (TwoBodyProblem_init_centre_of_mass _ _)
                (TwoBodyProblem_init_dtype _ _))
      as (r_points & E & HF & _).
    eexists. exists r_points. split; [exact E | exact HF].
Qed.

Lemma TwoBodyProblem_centre_of_mass_conserved_witness :
  (exists t_points r_points,
     EulerSolver.solve (TwoBodyProblem.init constants.DEFAULT_TIME_BOUNDARIES 5000)
     = Some (t_points, r_points)
     /\ Forall two_body_problem.centre_of_mass_at_rest (rows_of_result r_points)) /\
  (exists t_points r_points,
     RungeKuttaSolver.solve
       (TwoBodyProblem.init constants.DEFAULT_TIME_BOUNDARIES 5000)
     = Some (t_points, r_points)
     /\ Forall two_body_problem.centre_of_mass_at_rest (rows_of_result r_points)).
Proof.
  apply (@TwoBodyProblem_centre_of_mass_conserved
           constants.DEFAULT_TIME_BOUNDARIES 5000).
  - cbn. lra.
  - lia.
Defined.

End TwoBodyConservation.

(** ** The dictionaries of [solve] and what is computed from them *)

Section Solutions.
Local Open Scope R_scope.

Lemma column_of_width {A : Type} (k : nat) (d : A) (rows : list (list A)) :
  Forall (fun row => (k < length row)%nat) rows ->
  column k rows = Some (map (fun row => nth k row d) rows).
Proof.
  unfold column. induction 1 as [|row rows Hrow _ IH]; [reflexivity|].
  cbn [map_option map]. rewrite (nth_error_nth' row d Hrow). cbn [bind].
  rewrite IH. reflexivity.
Qed.

Lemma centre_of_mass_width (row : list R) (k : nat) :
  two_body_problem.centre_of_mass_at_rest row -> (k < 8)%nat ->
  (k < length row)%nat.
Proof.
  intros Hs Hk. do 8 (destruct row as [|? row]; [exfalso; exact Hs|]).
  destruct row; [exact Hk | exfalso; exact Hs].
Qed.

Lemma centre_of_mass_rows (rows : list (list R)) :
  Forall two_body_problem.centre_of_mass_at_rest rows ->
  np_div_scalar
    (zip_with f_add (np_scale constants.m_E (map (fun row => nth 0 row 0) rows))
                    (np_scale constants.m_M (map (fun row => nth 4 row 0) rows)))
    (constants.m_E + constants.m_M) = repeat 0 (length rows)
  /\ np_div_scalar
    (zip_with f_add (np_scale constants.m_E (map (fun row => nth 2 row 0) rows))
                    (np_scale constants.m_M (map (fun row => nth 6 row 0) rows)))
    (constants.m_E + constants.m_M) = repeat 0 (length rows).
Proof.
  induction 1 as [|row rows Hrow _ [IHx IHy]]; [split; reflexivity|].
  do 8 (destruct row as [|? row]; [exfalso; exact Hrow|]).
  destruct row; [|exfalso; exact Hrow].
  destruct Hrow as (HX & _ & HY & _).
  unfold np_div_scalar, np_scale in *.
  cbn [map zip_with nth length repeat f_add f_mul f_div PyFloat_R] in *.
  rewrite IHx, IHy, HX, HY. unfold Rdiv. rewrite Rmult_0_l. split; reflexivity.
Qed.

Lemma centre_of_mass_plot_of_rows (t_points : list R) (rows : list (list R)) :
  Forall two_body_problem.centre_of_mass_at_rest rows ->
  exists solution,
    two_body_problem.solution_dict (t_points, Array2D rows) = Some solution
    /\ two_body_problem._render_center_of_mass solution
       = Some (repeat 0 (length rows), repeat 0 (length rows)).
Proof.
  intros HF. unfold two_body_problem.solution_dict. cbn [T_row].
  assert (Hcol : forall k, (k < 8)%nat ->
            column k rows = Some (map (fun row => nth k row 0) rows)).
  { intros k Hk. apply column_of_width.
    eapply Forall_impl; [|exact HF]. intros row Hrow.
    now apply centre_of_mass_width. }
  rewrite !Hcol by lia. cbn [bind]. eexists. split; [reflexivity|].
  unfold two_body_problem._render_center_of_mass.
  change (dict_get "x_E" _) with (Some (map (fun row => nth 0 row 0) rows)).
  change (dict_get "y_E" _) with (Some (map (fun row => nth 2 row 0) rows)).
  change (dict_get "x_M" _) with (Some (map (fun row => nth 4 row 0) rows)).
  change (dict_get "y_M" _) with (Some (map (fun row => nth 6 row 0) rows)).
  cbn [bind]. unfold two_body_problem.np_array2.
  rewrite !length_map, Nat.eqb_refl. cbn [bind].
  rewrite !np_add_same_length by (unfold np_scale; now rewrite !length_map).
  cbn [bind]. destruct (centre_of_mass_rows HF) as [-> ->].
  reflexivity.
Qed.

(** X8.  The centre of mass that [_render_center_of_mass] computes from a
    solution of the two-body problem is the origin at every sample, in
    exact arithmetic, for every time interval that is not empty: with
    [EulerSolver] and [n >= 1], and with [RungeKuttaSolver] and [n >= 2],
    [solve] returns and both rows of [r_points_center] are [n] zeros.  With
    [RungeKuttaSolver] and [n = 1] the solver takes no step and returns the
    Python list [[r]], which has no attribute [T]: [solve] raises. *)
Theorem TwoBodyProblem_centre_of_mass_plot (tb : R * R) (n : Z) :
  fst tb <> snd tb ->
  (1 <= n)%Z ->
  (exists solution,
     two_body_problem.solve EulerSolver.solve (TwoBodyProblem.init tb n)
     = Some solution
     /\ two_body_problem._render_center_of_mass solution
        = Some (repeat 0 (Z.to_nat n), repeat 0 (Z.to_nat n))) /\
  ((2 <= n)%Z ->
   exists solution,
     two_body_problem.solve RungeKuttaSolver.solve (TwoBodyProblem.init tb n)
     = Some solution
     /\ two_body_problem._render_center_of_mass solution
        = Some (repeat 0 (Z.to_nat n), repeat 0 (Z.to_nat n))) /\
  (n = 1%Z ->
   two_body_problem.solve RungeKuttaSolver.solve (TwoBodyProblem.init tb n)
   = None).
Proof.
  intros Hab Hn.
  destruct (@RungeKuttaSolver_solve_total two_body_problem.centre_of_mass_at_rest
              (TwoBodyProblem.init tb n) Hab Hn
              RungeKuttaSolver_update_centre_of_mass
              (TwoBodyProblem_init_centre_of_mass _ _)
              (TwoBodyProblem_init_dtype _ _))
    as (r_points & E & HF & Harray).
  pose proof (RungeKuttaSolver_solve_rows _ E)
    as (h & rows & _ & _ & ET & Hrows & Hlist & _).
  apply trajectory_length in ET.
  rewrite length_tl, length_map, length_seq in ET.
  cbn [TwoBodyProblem.init data_points_amount] in ET.
  split; [|split].
  - destruct (@EulerSolver_solve_total two_body_problem.centre_of_mass_at_rest
                (TwoBodyProblem.init tb n) Hab Hn
                euler_step_centre_of_mass (TwoBodyProblem_init_centre_of_mass _ _))
      as (rows_E & EE & HFE).
    pose proof (EulerSolver_solve_rows _ EE) as (h_E & rest & _ & _ & ETE & Hrest).
    apply trajectory_length in ETE.
    rewrite length_tl, length_map, length_seq in ETE.
    cbn [TwoBodyProblem.init data_points_amount] in ETE.
    unfold two_body_problem.solve. rewrite EE. cbn [bind].
    destruct (centre_of_mass_plot_of_rows
                (map (fun i => fst tb + INR i * ((snd tb - fst tb) / IZR n))
                     (seq 0 (Z.to_nat n))) HFE)
      as (solution & Ed & Ec).
    exists solution. split; [exact Ed|]. rewrite Ec.
    injection Hrest as ->. cbn [length]. rewrite ETE.
    replace (S (Z.to_nat n - 1)) with (Z.to_nat n) by lia. reflexivity.
  - intros H2. destruct (Harray H2) as (rows_K & ->).
    cbn [rows_of_result] in HF, Hrows.
    unfold two_body_problem.solve. rewrite E. cbn [bind].
    destruct (centre_of_mass_plot_of_rows
                (map (fun i => fst tb + INR i * ((snd tb - fst tb) / IZR n))
                     (seq 0 (Z.to_nat n))) HF)
      as (solution & Ed & Ec).
    exists solution. split; [exact Ed|]. rewrite Ec, Hrows.
    cbn [length]. rewrite ET.
    replace (S (Z.to_nat n - 1)) with (Z.to_nat n) by lia. reflexivity.
  - intros ->. change (Z.to_nat 1 - 1)%nat with 0%nat in ET.
    destruct rows; [|discriminate ET].
    unfold two_body_problem.solve. rewrite E. cbn [bind].
    now rewrite (Hlist eq_refl).
Qed.

Lemma TwoBodyProblem_centre_of_mass_plot_witness :
  (exists solution,
     two_body_problem.solve EulerSolver.solve
       (TwoBodyProblem.init constants.DEFAULT_TIME_BOUNDARIES 5000)
     = Some solution
     /\ two_body_problem._render_center_of_mass solution
        = Some (repeat 0 (Z.to_nat 5000), repeat 0 (Z.to_nat 5000))) /\
  (exists solution,
     two_body_problem.solve RungeKuttaSolver.solve
       (TwoBodyProblem.init constants.DEFAULT_TIME_BOUNDARIES 5000)
     = Some solution
     /\ two_body_problem._render_center_of_mass solution
        = Some (repeat 0 (Z.to_nat 5000), repeat 0 (Z.to_nat 5000))) /\
  two_body_problem.solve RungeKuttaSolver.solve
    (TwoBodyProblem.init constants.DEFAULT_TIME_BOUNDARIES 1)
  = None.
Proof.
  assert (Hab : fst constants.DEFAULT_TIME_BOUNDARIES
                <> snd constants.DEFAULT_TIME_BOUNDARIES) by (cbn; lra).
  destruct (@TwoBodyProblem_centre_of_mass_plot
              constants.DEFAULT_TIME_BOUNDARIES 5000 Hab ltac:(lia))
    as (HE & HK & _).
  destruct (@TwoBodyProblem_centre_of_mass_plot
              constants.DEFAULT_TIME_BOUNDARIES 1 Hab ltac:(lia))
    as (_ & _ & H1).
  split; [exact HE|]. split; [apply HK; lia | exact (H1 eq_refl)].
Defined.

End Solutions.

Section SolutionDictionaries.
Local Open Scope R_scope.

Lemma column_None {A : Type} (k : nat) (rows : list (list A)) :
  Exists (fun row => (length row <= k)%nat) rows -> column k rows = None.
Proof.
  unfold column. induction 1 as [row rows Hrow | row rows _ IH]; cbn [map_option].
  - apply nth_error_None in Hrow. now rewrite Hrow.
  - destruct (nth_error row k); [|reflexivity]. cbn [bind]. now rewrite IH.
Qed.

(** X9.  The dictionary of [TwoBodyProblem.solve].  When the solver
    returns a two-dimensional array whose rows all have eight entries or
    more, [solve] returns and each key holds the column of the state entry
    of that name (["x_E"] column 0, ["vx_E"] column 1, ["y_E"] column 2,
    ... in the order in which [f] unpacks the state, although the literal
    lists the keys in another order), and ["t"] holds the time points;
    when some row has fewer than eight entries, [solve] raises.  It also
    raises when the solver returns a Python list, which has no attribute
    [T]. *)
Theorem TwoBodyProblem_solve_layout
    (solver : DifferentialEquation R -> option (solver_result R))
    (self : DifferentialEquation R) (t_points : list R)
    (r_points : r_points_result R) :
  solver self = Some (t_points, r_points) ->
  (forall rows, r_points = Array2D rows ->
     (Forall (fun row => (8 <= length row)%nat) rows ->
      exists d,
        two_body_problem.solve solver self = Some d
        /\ dict_get "t" d = Some t_points
        /\ dict_get "x_E" d = Some (map (fun row => nth 0 row 0) rows)
        /\ dict_get "vx_E" d = Some (map (fun row => nth 1 row 0) rows)
        /\ dict_get "y_E" d = Some (map (fun row => nth 2 row 0) rows)
        /\ dict_get "vy_E" d = Some (map (fun row => nth 3 row 0) rows)
        /\ dict_get "x_M" d = Some (map (fun row => nth 4 row 0) rows)
        /\ dict_get "vx_M" d = Some (map (fun row => nth 5 row 0) rows)
        /\ dict_get "y_M" d = Some (map (fun row => nth 6 row 0) rows)
        /\ dict_get "vy_M" d = Some (map (fun row => nth 7 row 0) rows))
     /\ (Exists (fun row => (length row < 8)%nat) rows ->
         two_body_problem.solve solver self = None))
  /\ (forall r, r_points = ListOfArray r ->
        two_body_problem.solve solver self = None).
Proof.
  intros E. unfold two_body_problem.solve. rewrite E. cbn [bind].
  unfold two_body_problem.solution_dict.
  split; [intros rows -> | intros r ->; reflexivity].
  cbn [T_row]. split.
  - intros HF.
    assert (Hcol : forall k, (k < 8)%nat ->
              column k rows = Some (map (fun row => nth k row 0) rows)).
    { intros k Hk. apply column_of_width.
      eapply Forall_impl; [|exact HF]. cbn beta. intros row Hrow. lia. }
    rewrite !Hcol by lia. cbn [bind]. eexists. split; [reflexivity|].
    repeat split; reflexivity.
  - intros HE.
    assert (H7 : column 7 rows = None).
    { apply column_None. eapply Exists_impl; [|exact HE]. cbn beta. intros row Hrow. lia. }
    rewrite H7.
    repeat match goal with
           | |- bind ?m _ = None => destruct m; cbn [bind]; [|reflexivity]
           end.
    reflexivity.
Qed.

Lemma TwoBodyProblem_solve_layout_witness :
  exists d,
    two_body_problem.solve
      (fun _ => Some ([0], Array2D [[1; 2; 3; 4; 5; 6; 7; 8]]))
      (TwoBodyProblem.init (0, 1) 1) = Some d
    /\ dict_get "t" d = Some [0]
    /\ dict_get "x_E" d = Some (map (fun row => nth 0 row 0) [[1; 2; 3; 4; 5; 6; 7; 8]])
    /\ dict_get "vx_E" d = Some (map (fun row => nth 1 row 0) [[1; 2; 3; 4; 5; 6; 7; 8]])
    /\ dict_get "y_E" d = Some (map (fun row => nth 2 row 0) [[1; 2; 3; 4; 5; 6; 7; 8]])
    /\ dict_get "vy_E" d = Some (map (fun row => nth 3 row 0) [[1; 2; 3; 4; 5; 6; 7; 8]])
    /\ dict_get "x_M" d = Some (map (fun row => nth 4 row 0) [[1; 2; 3; 4; 5; 6; 7; 8]])
    /\ dict_get "vx_M" d = Some (map (fun row => nth 5 row 0) [[1; 2; 3; 4; 5; 6; 7; 8]])
    /\ dict_get "y_M" d = Some (map (fun row => nth 6 row 0) [[1; 2; 3; 4; 5; 6; 7; 8]])
    /\ dict_get "vy_M" d = Some (map (fun row => nth 7 row 0) [[1; 2; 3; 4; 5; 6; 7; 8]]).
Proof.
  apply (proj1 (proj1 (@TwoBodyProblem_solve_layout
                  (fun _ => Some ([0], Array2D [[1; 2; 3; 4; 5; 6; 7; 8]]))
                  (TwoBodyProblem.init (0, 1) 1) [0]
                  (Array2D [[1; 2; 3; 4; 5; 6; 7; 8]])
                  eq_refl) [[1; 2; 3; 4; 5; 6; 7; 8]] eq_refl)).
  constructor; [cbn; lia | constructor].
Defined.

(** X10.  [NBodyProblem.solve] reads the columns 10 to 13 of the rows
    (["phi1"], ["vphi1"], ["phi2"], ["vphi2"]), which are there only for
    two tide particles or more: on a two-dimensional array of rows of the
    width [10 + 2 * N] of the state of [N] particles, the dictionary is
    built if and only if [N >= 2]; for [N = 0] and [N = 1] the method
    raises [IndexError].  When it is built, ["r_N"] holds the [2 * N]
    columns from 10 on. *)
Theorem NBodyProblem_solve_needs_two_particles (N : nat) (t_points : list R)
    (rows : list (list R)) :
  rows <> [] ->
  Forall (fun row => length row = (10 + 2 * N)%nat) rows ->
  (n_body_problem.solution_dict (t_points, Array2D rows) = None <-> (N < 2)%nat)
  /\ forall d, n_body_problem.solution_dict (t_points, Array2D rows) = Some d ->
       exists r_N, dict_get "r_N" d = Some (n_body_problem.Array2 r_N)
                   /\ length r_N = (2 * N)%nat.
Proof.
  intros Hne HF.
  assert (Hcol : forall k, (k < 10 + 2 * N)%nat ->
            column k rows = Some (map (fun row => nth k row 0) rows)).
  { intros k Hk. apply column_of_width.
    eapply Forall_impl; [|exact HF]. cbn beta. intros row Hrow. lia. }
  assert (Hnone : forall k, (10 + 2 * N <= k)%nat -> column k rows = None).
  { intros k Hk. apply column_None. destruct rows as [|row rows]; [congruence|].
    apply Exists_cons_hd. inversion HF; subst. lia. }
  assert (Hfrom : exists r_N, n_body_problem.columns_from 10 rows = Some r_N
                              /\ length r_N = (2 * N)%nat).
  { unfold n_body_problem.columns_from.
    assert (Hw : length (hd [] rows) = (10 + 2 * N)%nat).
    { destruct rows as [|row rows]; [congruence|]. now inversion HF. }
    rewrite Hw. replace (10 + 2 * N - 10)%nat with (2 * N)%nat by lia.
    assert (Hall : forall m a, (a + m <= 10 + 2 * N)%nat ->
              exists cols, map_option (fun i => column i rows) (seq a m) = Some cols
                           /\ length cols = m).
    { induction m as [|m IH]; intros a Ha; cbn [seq map_option].
      - now exists [].
      - rewrite Hcol by lia. cbn [bind].
        destruct (IH (S a)) as (cols & -> & Hlen); [lia|]. cbn [bind].
        eexists. split; [reflexivity|]. cbn [length]. now rewrite Hlen. }
    apply Hall. lia. }
  destruct Hfrom as (r_N & Efrom & Hlen).
  unfold n_body_problem.solution_dict, n_body_problem.T_rows_from. cbn [T_row].
  rewrite !(Hcol 0%nat), !(Hcol 1%nat), !(Hcol 2%nat), !(Hcol 3%nat),
    !(Hcol 4%nat), !(Hcol 5%nat), !(Hcol 6%nat), !(Hcol 7%nat), !(Hcol 8%nat),
    !(Hcol 9%nat) by lia.
  cbn [bind]. rewrite Efrom. cbn [bind].
  destruct (Nat.lt_ge_cases N 2) as [Hlt | Hge].
  - split.
    + split; [intros _; exact Hlt | intros _].
      destruct N as [|[|N]]; [| |lia].
      * rewrite (Hnone 10%nat) by lia. reflexivity.
      * rewrite (Hcol 10%nat), (Hcol 11%nat) by lia. cbn [bind].
        rewrite (Hnone 12%nat) by lia. reflexivity.
    + intros d Ed. exfalso.
      destruct N as [|[|N]]; [| |lia].
      * rewrite (Hnone 10%nat) in Ed by lia. discriminate Ed.
      * rewrite (Hcol 10%nat), (Hcol 11%nat) in Ed by lia. cbn [bind] in Ed.
        rewrite (Hnone 12%nat) in Ed by lia. discriminate Ed.
  - rewrite (Hcol 10%nat), (Hcol 11%nat), (Hcol 12%nat), (Hcol 13%nat) by lia.
    cbn [bind]. split.
    + split; [discriminate | lia].
    + intros d [= <-]. exists r_N. split; [reflexivity | exact Hlen].
Qed.

Lemma NBodyProblem_solve_needs_two_particles_witness :
  n_body_problem.solution_dict
    ([0], Array2D [NBodyProblem.initial_conditions_for 1]) = None.
Proof.
  refine (proj2 (proj1 (@NBodyProblem_solve_needs_two_particles 1 [0]
                          [NBodyProblem.initial_conditions_for 1] _ _)) _).
  - discriminate.
  - constructor; [reflexivity | constructor].
  - lia.
Defined.

End SolutionDictionaries.

(** ** The right-hand sides compared *)

Section ModelsCompared.
Local Open Scope R_scope.

(** X11.  [FourBodyProblemComplex.f] is [FourBodyProblemSimple.f] with
    friction: with the nominal ocean mass, on a state that extends a state
    of the simple model by the rotation [phi_E], [vphi_E] of Earth, the
    first twelve entries are those of the simple model, but for the
    angular accelerations of the two tides, from which
    [r_E * k * |vphi_i - vphi_E| * (vphi_i - vphi_E)] is subtracted; the
    two new entries are [vphi_E] and the change of Earth's spin. *)
Theorem FourBodyProblemComplex_f_adds_friction
    (self : FourBodyProblemComplex.instance R)
    (t x_E vx_E y_E vy_E x_M vx_M y_M vy_M phi1 vphi1 phi2 vphi2 phi_E vphi_E : R) :
  FourBodyProblemComplex.m_O self = constants.m_O ->
  exists s_1 s_2 s_3 s_4 s_5 s_6 s_7 s_8 s_9 s_10 s_11 s_12,
    FourBodyProblemSimple.f t
      [x_E; vx_E; y_E; vy_E; x_M; vx_M; y_M; vy_M; phi1; vphi1; phi2; vphi2]
    = Some [s_1; s_2; s_3; s_4; s_5; s_6; s_7; s_8; s_9; s_10; s_11; s_12]
    /\ FourBodyProblemComplex.f self t
         [x_E; vx_E; y_E; vy_E; x_M; vx_M; y_M; vy_M; phi1; vphi1; phi2; vphi2;
          phi_E; vphi_E]
       = Some [s_1; s_2; s_3; s_4; s_5; s_6; s_7; s_8; s_9;
               s_10 - constants.r_E * constants.k
                      * Rabs (vphi1 - vphi_E) * (vphi1 - vphi_E);
               s_11;
               s_12 - constants.r_E * constants.k
                      * Rabs (vphi2 - vphi_E) * (vphi2 - vphi_E);
               vphi_E;
               5 / 4 * constants.r_E * constants.m_O / constants.m_E * constants.k
               * (Rabs (vphi1 - vphi_E) * (vphi1 - vphi_E)
                  + Rabs (vphi2 - vphi_E) * (vphi2 - vphi_E))].
Proof.
  intros Hm. do 12 eexists. split; [reflexivity|].
  unfold FourBodyProblemComplex.f. rewrite Hm. reflexivity.
Qed.

Lemma FourBodyProblemComplex_f_adds_friction_witness :
  exists s_1 s_2 s_3 s_4 s_5 s_6 s_7 s_8 s_9 s_10 s_11 s_12,
    FourBodyProblemSimple.f 0 [0; 0; 0; 0; 1; 0; 0; 0; 0; 1; 0; 2]
    = Some [s_1; s_2; s_3; s_4; s_5; s_6; s_7; s_8; s_9; s_10; s_11; s_12]
    /\ FourBodyProblemComplex.f (FourBodyProblemComplex.init (0, 1) 1) 0
         [0; 0; 0; 0; 1; 0; 0; 0; 0; 1; 0; 2; 0; 3]
       = Some [s_1; s_2; s_3; s_4; s_5; s_6; s_7; s_8; s_9;
               s_10 - constants.r_E * constants.k * Rabs (1 - 3) * (1 - 3);
               s_11;
               s_12 - constants.r_E * constants.k * Rabs (2 - 3) * (2 - 3);
               3;
               5 / 4 * constants.r_E * constants.m_O / constants.m_E * constants.k
               * (Rabs (1 - 3) * (1 - 3) + Rabs (2 - 3) * (2 - 3))].
Proof.
  apply (@FourBodyProblemComplex_f_adds_friction
           (FourBodyProblemComplex.init (0, 1) 1)
           0 0 0 0 0 1 0 0 0 0 1 0 2 0 3).
  reflexivity.
Defined.

Lemma friction_sign (a : R) : (a < 0 -> Rabs a * a < 0) /\ (0 < a -> 0 < Rabs a * a).
Proof.
  split; intros Ha.
  - rewrite Rabs_left by exact Ha. nra.
  - rewrite Rabs_right by lra. nra.
Qed.

Lemma spin_coefficient_pos (m : R) :
  0 < m -> 0 < 5 / 4 * constants.r_E * m / constants.m_E * constants.k.
Proof.
  intros Hm.
  assert (Hr : 0 < constants.r_E) by (unfold constants.r_E; lra).
  assert (HE : 0 < constants.m_E) by (unfold constants.m_E; lra).
  assert (Hk : 0 < constants.k) by (unfold constants.k; lra).
  revert Hr HE Hk. generalize constants.r_E constants.m_E constants.k.
  intros r_E m_E k Hr HE Hk.
  apply Rmult_lt_0_compat; [|exact Hk].
  apply Rdiv_lt_0_compat; [|exact HE].
  apply Rmult_lt_0_compat; [|exact Hm].
  apply Rmult_lt_0_compat; [lra | exact Hr].
Qed.

(** X12.  In exact arithmetic, tidal friction in
    [FourBodyProblemComplex.f] brakes the faster rotation: for a positive
    ocean mass, the spin of Earth (the last entry
    of the result) decreases when both tides turn slower than Earth,
    increases when both turn faster, and does not change when both turn
    with Earth.  The exchange conserves angular momentum, with Earth a
    homogeneous sphere ([2/5 * m_E * r_E ^ 2]) and each tide a point of
    mass [m_O / 2] at the distance [r_E]: the change of spin times Earth's
    moment of inertia is the opposite of the friction terms of the two
    tides times theirs. *)
Theorem FourBodyProblemComplex_friction_brakes
    (self : FourBodyProblemComplex.instance R) (t : R) (r out : list R) :
  0 < FourBodyProblemComplex.m_O self ->
  FourBodyProblemComplex.f self t r = Some out ->
  let vphi1 := nth 9 r 0 in
  let vphi2 := nth 11 r 0 in
  let vphi_E := nth 13 r 0 in
  let friction v := constants.r_E * constants.k * Rabs (v - vphi_E) * (v - vphi_E) in
  (vphi1 < vphi_E -> vphi2 < vphi_E -> nth 13 out 0 < 0)
  /\ (vphi_E < vphi1 -> vphi_E < vphi2 -> 0 < nth 13 out 0)
  /\ (vphi1 = vphi_E -> vphi2 = vphi_E -> nth 13 out 0 = 0)
  /\ 2 / 5 * constants.m_E * constants.r_E ^ 2 * nth 13 out 0
     = FourBodyProblemComplex.m_O self / 2 * constants.r_E ^ 2
       * (friction vphi1 + friction vphi2).
Proof.
  intros Hm E vphi1 vphi2 vphi_E friction.
  do 14 (destruct r as [|? r]; [discriminate E|]).
  destruct r; [|discriminate E].
  unfold FourBodyProblemComplex.f in E. injection E as <-.
  subst vphi1 vphi2 vphi_E friction. cbn [nth].
  pose proof (spin_coefficient_pos Hm) as Hc.
  assert (HE : constants.m_E <> 0) by (unfold constants.m_E; lra).
  revert Hc HE.
  generalize constants.r_E constants.m_E constants.k (FourBodyProblemComplex.m_O self).
  intros r_E m_E k m Hc HE.
  repeat split.
  - intros H1 H2.
    destruct (friction_sign (r9 - r13)) as [F1 _].
    destruct (friction_sign (r11 - r13)) as [F2 _].
    specialize (F1 ltac:(lra)). specialize (F2 ltac:(lra)). nra.
  - intros H1 H2.
    destruct (friction_sign (r9 - r13)) as [_ F1].
    destruct (friction_sign (r11 - r13)) as [_ F2].
    specialize (F1 ltac:(lra)). specialize (F2 ltac:(lra)). nra.
  - intros -> ->. rewrite !Rminus_diag. ring.
  - field. exact HE.
Qed.

Lemma FourBodyProblemComplex_friction_brakes_witness :
  exists out,
    FourBodyProblemComplex.f (FourBodyProblemComplex.init (0, 1) 1) 0
      FourBodyProblemComplex.class_initial_conditions = Some out
    /\ nth 13 out 0 < 0.
Proof.
  eexists. split; [reflexivity|].
  refine (proj1 (@FourBodyProblemComplex_friction_brakes
                   (FourBodyProblemComplex.init (0, 1) 1) 0
                   FourBodyProblemComplex.class_initial_conditions _ _ eq_refl)
                _ _).
  - cbn. unfold constants.m_O. lra.
  - cbn [nth FourBodyProblemComplex.class_initial_conditions].
    unfold constants.T_M.
    apply Rmult_lt_reg_r with (r := / (2 * PI)).
    + apply Rinv_0_lt_compat. pose proof PI_RGT_0. lra.
    + pose proof PI_RGT_0.
      replace (2 * PI / (27.32166140 * 24 * 3600) * / (2 * PI))
        with (/ (27.32166140 * 24 * 3600)) by (field; lra).
      replace (2 * PI / (24 * 60 * 60) * / (2 * PI))
        with (/ (24 * 60 * 60)) by (field; lra).
      apply Rinv_lt_contravar; lra.
  - cbn [nth FourBodyProblemComplex.class_initial_conditions].
    unfold constants.T_M.
    apply Rmult_lt_reg_r with (r := / (2 * PI)).
    + apply Rinv_0_lt_compat. pose proof PI_RGT_0. lra.
    + pose proof PI_RGT_0.
      replace (2 * PI / (27.32166140 * 24 * 3600) * / (2 * PI))
        with (/ (27.32166140 * 24 * 3600)) by (field; lra).
      replace (2 * PI / (24 * 60 * 60) * / (2 * PI))
        with (/ (24 * 60 * 60)) by (field; lra).
      apply Rinv_lt_contravar; lra.
Defined.

End ModelsCompared.

(** ** The positions and velocities of the tides drawn by the plots *)

Section TideCurves.
Local Open Scope R_scope.

Lemma np_sub_same_length (u v : list R) :
  length u = length v -> np_sub u v = Some (zip_with f_sub u v).
Proof. intros E. unfold np_sub. now rewrite E, Nat.eqb_refl. Qed.


Lemma r_E_nonneg : 0 <= constants.r_E.
Proof. unfold constants.r_E. lra. Qed.

Lemma distance_on_circle (c p x y : R) :
  0 <= c ->
  sqrt ((c * cos p + x - x) ^ 2 + (c * sin p + y - y) ^ 2) = c.
Proof.
  intros Hc.
  replace ((c * cos p + x - x) ^ 2 + (c * sin p + y - y) ^ 2)
    with (c ^ 2 * ((sin p) ^ 2 + (cos p) ^ 2)) by ring.
  rewrite <- !Rsqr_pow2, sin2_cos2, Rmult_1_r. now apply sqrt_Rsqr.
Qed.


(** The curve of distances computed from the columns [x], [y] and [phi]
    of the rows. *)
Lemma distance_curve (rows : list (list R)) (i_x i_y i_phi : nat) :
  map sqrt
    (zip_with f_add
       (map (fun a => a ^ 2)
          (zip_with f_sub
             (zip_with f_add
                (np_scale constants.r_E
                   (map cos (map (fun row => nth i_phi row 0) rows)))
                (map (fun row => nth i_x row 0) rows))
             (map (fun row => nth i_x row 0) rows)))
       (map (fun a => a ^ 2)
          (zip_with f_sub
             (zip_with f_add
                (np_scale constants.r_E
                   (map sin (map (fun row => nth i_phi row 0) rows)))
                (map (fun row => nth i_y row 0) rows))
             (map (fun row => nth i_y row 0) rows))))
  = repeat constants.r_E (length rows).
Proof.
  unfold np_scale. induction rows as [|row rows IH]; [reflexivity|].
  cbn [map zip_with length repeat f_add f_sub f_mul PyFloat_R] in *.
  rewrite IH. f_equal. apply distance_on_circle, r_E_nonneg.
Qed.


Ltac lengths :=
  unfold np_scale; repeat (rewrite ?length_map, ?zip_with_length); lia.

(** X13.  The tides of the four-body problem stay on the surface of
    Earth: whatever two-dimensional array of rows of twelve entries or
    more a solver returns, the two curves that [plot_distance_earth_tide] draws from the dictionary of
    [FourBodyProblemSimple.solve] are constant, equal to the radius [r_E]
    of Earth at every sample (exact arithmetic). *)
Theorem tides_stay_on_the_surface
    (solver : DifferentialEquation R -> option (solver_result R))
    (self : DifferentialEquation R) (t_points : list R) (rows : list (list R)) :
  solver self = Some (t_points, Array2D rows) ->
  Forall (fun row => (12 <= length row)%nat) rows ->
  exists solution,
    four_body_problem_simple.solve solver self = Some solution
    /\ four_body_problem_simple.plot_distance_earth_tide solution
       = Some (repeat constants.r_E (length rows),
               repeat constants.r_E (length rows)).
Proof.
  intros E HF. unfold four_body_problem_simple.solve. rewrite E. cbn [bind].
  assert (Hcol : forall k, (k < 12)%nat ->
            column k rows = Some (map (fun row => nth k row 0) rows)).
  { intros k Hk. apply column_of_width.
    eapply Forall_impl; [|exact HF]. cbn beta. intros row Hrow. lia. }
  unfold four_body_problem_simple.solution_dict. cbn [seq map_option T_row].
  rewrite !Hcol by lia. cbn [bind combine four_body_problem_simple.solution_keys].
  eexists. split; [reflexivity|].
  unfold four_body_problem_simple.plot_distance_earth_tide,
    four_body_problem_simple._x_points_phi, four_body_problem_simple._y_points_phi.
  change (dict_get "phi1" _) with (Some (map (fun row => nth 8 row 0) rows)).
  change (dict_get "phi2" _) with (Some (map (fun row => nth 10 row 0) rows)).
  change (dict_get "x_E" _) with (Some (map (fun row => nth 0 row 0) rows)).
  change (dict_get "y_E" _) with (Some (map (fun row => nth 2 row 0) rows)).
  cbn [bind].
  rewrite !np_add_same_length by lengths. cbn [bind].
  rewrite !np_sub_same_length by lengths. cbn [bind].
  unfold four_body_problem_simple.np_hypot.
  rewrite !np_add_same_length by lengths. cbn [bind].
  now rewrite !distance_curve.
Qed.

Lemma tides_stay_on_the_surface_witness :
  exists solution,
    four_body_problem_simple.solve
      (fun _ => Some ([0], Array2D [FourBodyProblemSimple.initial_conditions]))
      (FourBodyProblemSimple.init (0, 1) 1) = Some solution
    /\ four_body_problem_simple.plot_distance_earth_tide solution
       = Some (repeat constants.r_E
                      (length [FourBodyProblemSimple.initial_conditions]),
               repeat constants.r_E
                      (length [FourBodyProblemSimple.initial_conditions])).
Proof.
  apply (@tides_stay_on_the_surface
           (fun _ => Some ([0], Array2D [FourBodyProblemSimple.initial_conditions]))
           (FourBodyProblemSimple.init (0, 1) 1) [0]
           [FourBodyProblemSimple.initial_conditions]).
  - reflexivity.
  - constructor; [cbn; lia | constructor].
Defined.



End TideCurves.

(** ** The estimate of the drift *)

Section DriftEstimate.
Local Open Scope R_scope.

(** X15.  [_calculate_current_tau] needs a solution with samples: it
    raises on a model that has not been solved, and on a solved model
    whose arrays ["t"] and ["vphi_E"] have the same length it raises
    exactly when they are empty ([IndexError]); with one sample or more it
    returns. *)
Theorem calculate_current_tau_needs_samples
    (self : FourBodyProblemComplex.instance R) :
  (FourBodyProblemComplex.solution self = None ->
   exercise_2_3_c._calculate_current_tau self = None) /\
  (forall d ts ws,
     FourBodyProblemComplex.solution self = Some d ->
     dict_get "t" d = Some ts ->
     dict_get "vphi_E" d = Some ws ->
     length ws = length ts ->
     (exercise_2_3_c._calculate_current_tau self = None <-> ts = [])).
Proof.
  split.
  - intros E. unfold exercise_2_3_c._calculate_current_tau. now rewrite E.
  - intros d ts ws Es Et Ew Hlen.
    rewrite (@calculate_current_tau_two_points _ _ self d ts ws Es Et Ew).
    destruct ts as [|t0 ts].
    + destruct ws; [|discriminate Hlen]. split; reflexivity.
    + split; [|discriminate]. intros E. exfalso.
      assert (Hh : (length (t0 :: ts) / 2 < length (t0 :: ts))%nat)
        by (apply Nat.div_lt; cbn [length]; lia).
      assert (Hl : (length (t0 :: ts) - 1 < length (t0 :: ts))%nat)
        by (cbn [length]; lia).
      destruct (@nth_error_in_bounds R ws (length (t0 :: ts) / 2)) as (w_h & Ewh);
        [rewrite Hlen; exact Hh|].
      destruct (@nth_error_in_bounds R (t0 :: ts) (length (t0 :: ts) / 2))
        as (t_h & Eth); [exact Hh|].
      destruct (@nth_error_in_bounds R ws (length ws - 1)) as (w_l & Ewl);
        [rewrite Hlen; exact Hl|].
      destruct (@nth_error_in_bounds R (t0 :: ts) (length (t0 :: ts) - 1))
        as (t_l & Etl); [exact Hl|].
      unfold py_last in E. rewrite Ewh, Ewl, Etl, Eth in E. discriminate E.
Qed.

Lemma calculate_current_tau_needs_samples_witness :
  exercise_2_3_c._calculate_current_tau
    (FourBodyProblemComplex.set_solution [("t"%string, []); ("vphi_E"%string, [])]
       fits.start) = None.
Proof.
  apply (proj2 (calculate_current_tau_needs_samples
                  (FourBodyProblemComplex.set_solution
                     [("t"%string, []); ("vphi_E"%string, [])] fits.start))
               [("t"%string, []); ("vphi_E"%string, [])] [] []
               eq_refl eq_refl eq_refl eq_refl).
  reflexivity.
Defined.

(** X16.  The sign of the estimate, in exact arithmetic: when the time of
    the last sample is after that of the middle sample, the spin at the
    middle sample is positive and so is the spin extrapolated over 100
    years, the drift [_calculate_current_tau] returns is positive (the day
    gets longer) if the last spin is below the middle one, zero if they
    are equal and negative if it is above.  (In binary64 a small
    difference of the two spins can be rounded away, and a drift that is
    not zero here be returned as zero.) *)
Theorem calculate_current_tau_sign (self : FourBodyProblemComplex.instance R)
    d ts ws w_h w_last t_h t_last :
  FourBodyProblemComplex.solution self = Some d ->
  dict_get "t" d = Some ts ->
  dict_get "vphi_E" d = Some ws ->
  nth_error ws (length ts / 2) = Some w_h ->
  py_last ws = Some w_last ->
  nth_error ts (length ts / 2) = Some t_h ->
  py_last ts = Some t_last ->
  t_h < t_last ->
  0 < w_h ->
  0 < w_h + 100 * 365.24 * 24 * 3600 * ((w_last - w_h) / (t_last - t_h)) ->
  exists current_tau,
    exercise_2_3_c._calculate_current_tau self = Some current_tau
    /\ (w_last < w_h -> 0 < current_tau)
    /\ (w_last = w_h -> current_tau = 0)
    /\ (w_h < w_last -> current_tau < 0).
Proof.
  intros Es Et Ew Ewh Ewl Eth Etl Ht Hw Hfinal.
  rewrite (@calculate_current_tau_two_points _ _ self d ts ws Es Et Ew).
  rewrite Ewh, Ewl, Etl, Eth. cbn [bind]. eexists. split; [reflexivity|].
  change (@f_decimal R _ 36524 (-2)) with 365.24.
  cbn [f_add f_sub f_mul f_div f_of_Z f_pi PyFloat_R].
  assert (Hc : 0 < 100 * 365.24 * 24 * 3600) by lra.
  revert Hfinal Hc. generalize (100 * 365.24 * 24 * 3600). intros c Hfinal Hc.
  assert (Hdt : 0 < t_last - t_h) by lra.
  set (slope := (w_last - w_h) / (t_last - t_h)) in *.
  pose proof PI_RGT_0 as Hpi.
  assert (Hdiff : 1 / (w_h + c * slope) - 1 / w_h
                  = - (c * slope) / ((w_h + c * slope) * w_h))
    by (field; lra).
  assert (Hden : 0 < (w_h + c * slope) * w_h) by (apply Rmult_lt_0_compat; lra).
  rewrite Hdiff.
  repeat split.
  - intros Hlt.
    assert (Hs : slope < 0).
    { pose proof (Rinv_0_lt_compat _ Hdt). unfold slope, Rdiv. nra. }
    apply Rmult_lt_0_compat; [lra|].
    apply Rdiv_lt_0_compat; [nra | exact Hden].
  - intros ->. unfold slope. rewrite Rminus_diag. unfold Rdiv.
    rewrite !Rmult_0_l, Rmult_0_r, Ropp_0, Rmult_0_l. apply Rmult_0_r.
  - intros Hgt.
    assert (Hs : 0 < slope).
    { unfold slope. apply Rdiv_lt_0_compat; lra. }
    assert (Hq : 0 < c * slope / ((w_h + c * slope) * w_h)).
    { apply Rdiv_lt_0_compat; [nra | exact Hden]. }
    unfold Rdiv in *. rewrite <- Ropp_mult_distr_l. nra.
Qed.

Lemma calculate_current_tau_sign_witness :
  exists current_tau,
    exercise_2_3_c._calculate_current_tau
      (FourBodyProblemComplex.set_solution
         [("t"%string, [0; fits.century; 2 * fits.century]);
          ("vphi_E"%string, [2; 2; 1])] fits.start) = Some current_tau
    /\ (1 < 2 -> 0 < current_tau)
    /\ (1 = 2 -> current_tau = 0)
    /\ (2 < 1 -> current_tau < 0).
Proof.
  apply (@calculate_current_tau_sign
           (FourBodyProblemComplex.set_solution
              [("t"%string, [0; fits.century; 2 * fits.century]);
               ("vphi_E"%string, [2; 2; 1])] fits.start)
           [("t"%string, [0; fits.century; 2 * fits.century]);
            ("vphi_E"%string, [2; 2; 1])]
           [0; fits.century; 2 * fits.century] [2; 2; 1]
           2 1 fits.century (2 * fits.century)
           eq_refl eq_refl eq_refl eq_refl eq_refl eq_refl eq_refl).
  - unfold fits.century. lra.
  - lra.
  - replace (100 * 365.24 * 24 * 3600
             * ((1 - 2) / (2 * fits.century - fits.century)))
      with (-1) by (unfold fits.century; field; lra).
    lra.
Defined.

End DriftEstimate.

(** ** The times at which [MagicSolver] samples *)

Section MagicSolverGrid.
Context {F : Type} `{PyFloat F}.

Lemma np_linspace_two_or_more (start stop : F) (num : Z) :
  (2 <= num)%Z ->
  np_linspace start stop num
  = Some (map (linspace_item start stop num) (seq 0 (Z.to_nat num - 1)) ++ [stop]).
Proof.
  intros Hn. unfold np_linspace.
  destruct (Z.ltb_spec num 0) as [Hneg|_]; [lia|].
  destruct (Z.ltb_spec 1 num) as [_|Hsmall]; [|lia].
  replace (Z.to_nat num) with (S (Z.to_nat num - 1)) at 1 by lia.
  rewrite seq_S, map_app. cbn [map]. now rewrite removelast_last.
Qed.

(** X18.  The edge cases of [MagicSolver.solve] are not those of the
    fixed-step solvers, in any arithmetic and whatever [solve_ivp] does: a
    negative [data_points_amount] raises ([np.linspace] refuses it) before
    [solve_ivp] is called; zero asks [solve_ivp] for no sample at all; and
    from two on the samples asked for are [data_points_amount] times of
    which the last is exactly the end [t1] of the time interval. *)
Theorem MagicSolver_sample_times (de : DifferentialEquation F) :
  let n := data_points_amount de in
  let run solve_ivp t_eval :=
    ' (solution_t, solution_y) <-
      solve_ivp (differential_equation_function de) (time_boundaries de)
                (initial_conditions de) t_eval ;;
    solution_y_T <- MagicSolver.transpose solution_y ;;
    Some (solution_t, Array2D solution_y_T) in
  ((n < 0)%Z -> forall solve_ivp, MagicSolver.solve solve_ivp de = None)
  /\ (n = 0%Z ->
      forall solve_ivp, MagicSolver.solve solve_ivp de = run solve_ivp [])
  /\ ((2 <= n)%Z ->
      exists t_eval,
        (forall solve_ivp, MagicSolver.solve solve_ivp de = run solve_ivp t_eval)
        /\ length t_eval = Z.to_nat n
        /\ forall d, last t_eval d = snd (time_boundaries de)).
Proof.
  intros n run. subst n run. unfold MagicSolver.solve.
  destruct (time_boundaries de) as [a b] eqn:Etb. cbn [snd].
  split; [|split].
  - intros Hn solve_ivp. unfold np_linspace.
    destruct (Z.ltb_spec (data_points_amount de) 0) as [_|Hge]; [reflexivity | lia].
  - intros Hn solve_ivp. rewrite Hn. reflexivity.
  - intros Hn. rewrite (np_linspace_two_or_more a b Hn).
    eexists. split; [intros solve_ivp; reflexivity|]. split.
    + rewrite length_app, length_map, length_seq. cbn [length]. lia.
    + intros d. apply last_last.
Qed.

End MagicSolverGrid.

Lemma MagicSolver_sample_times_witness :
  exists t_eval,
    (forall solve_ivp,
       MagicSolver.solve solve_ivp inputs.seven_points
       = (' (solution_t, solution_y) <-
            solve_ivp (differential_equation_function inputs.seven_points)
                      (time_boundaries inputs.seven_points)
                      (initial_conditions inputs.seven_points) t_eval ;;
          solution_y_T <- MagicSolver.transpose solution_y ;;
          Some (solution_t, Array2D solution_y_T)))
    /\ length t_eval = Z.to_nat (data_points_amount inputs.seven_points)
    /\ forall d, last t_eval d = snd (time_boundaries inputs.seven_points).
Proof.
  apply (proj2 (proj2 (@MagicSolver_sample_times float _ inputs.seven_points))).
  cbn. lia.
Defined.

Section MagicSolverExact.
Local Open Scope R_scope.

Lemma nth_map_seq (g : nat -> R) (m i : nat) :
  (i < m)%nat -> nth i (map g (seq 0 m)) 0 = g i.
Proof.
  intros Hi. rewrite (nth_indep _ 0 (g 0%nat)) by (rewrite length_map, length_seq; lia).
  rewrite map_nth, seq_nth by lia. reflexivity.
Qed.

(** X17.  In exact arithmetic, over a time interval with [t0 < t1] and for
    [n >= 2], [MagicSolver.solve] asks [solve_ivp] for samples at the [n]
    times [t0 + i * (t1 - t0) / (n - 1)], from [t0] to [t1] inclusive.
    They are not the times of the fixed-step solvers: but for [t0], each
    lies after the time [t0 + i * (t1 - t0) / n] of the same index at
    which [EulerSolver] and [RungeKuttaSolver] sample. *)
Theorem MagicSolver_grid_exact (de : DifferentialEquation R) :
  let t0 := fst (time_boundaries de) in
  let t1 := snd (time_boundaries de) in
  let n := data_points_amount de in
  let t_eval := map (fun i => INR i * ((t1 - t0) / IZR (n - 1)) + t0)
                    (seq 0 (Z.to_nat n)) in
  t0 < t1 ->
  (2 <= n)%Z ->
  (forall solve_ivp,
     MagicSolver.solve solve_ivp de
     = (' (solution_t, solution_y) <-
          solve_ivp (differential_equation_function de) (time_boundaries de)
                    (initial_conditions de) t_eval ;;
        solution_y_T <- MagicSolver.transpose solution_y ;;
        Some (solution_t, Array2D solution_y_T)))
  /\ nth 0 t_eval 0 = t0
  /\ last t_eval 0 = t1
  /\ forall i, (1 <= i < Z.to_nat n)%nat ->
       t0 + INR i * ((t1 - t0) / IZR n) < nth i t_eval 0.
Proof.
  intros t0 t1 n t_eval Hab Hn.
  assert (Hn1 : 0 < IZR (n - 1)) by (apply IZR_lt; lia).
  assert (Hn0 : 0 < IZR n) by (apply IZR_lt; lia).
  assert (Hstep : (t1 - t0) / IZR (n - 1) <> 0).
  { apply Rgt_not_eq. apply Rdiv_lt_0_compat; lra. }
  assert (Hitem : forall i, linspace_item t0 t1 n i
                            = INR i * ((t1 - t0) / IZR (n - 1)) + t0).
  { intros i. unfold linspace_item.
    destruct (Z.ltb_spec 0 (n - 1)) as [_|Hle]; [|lia].
    cbn [f_eqb f_of_Z f_add f_sub f_mul f_div PyFloat_R].
    destruct (Req_dec_T ((t1 - t0) / IZR (n - 1)) 0) as [E|_]; [contradiction|].
    now rewrite <- INR_IZR_INZ. }
  assert (Hlast : INR (Z.to_nat n - 1) * ((t1 - t0) / IZR (n - 1)) + t0 = t1).
  { rewrite INR_IZR_INZ. replace (Z.of_nat (Z.to_nat n - 1)) with (n - 1)%Z by lia.
    field. lra. }
  assert (Hgrid : np_linspace t0 t1 n = Some t_eval).
  { rewrite (np_linspace_two_or_more t0 t1 Hn). f_equal. unfold t_eval.
    replace (Z.to_nat n) with (S (Z.to_nat n - 1)) at 2 by lia.
    rewrite seq_S, map_app. cbn [map Nat.add]. rewrite Hlast.
    f_equal. apply map_ext. exact Hitem. }
  split; [|split; [|split]].
  - intros solve_ivp. unfold MagicSolver.solve.
    subst t0 t1 n. destruct (time_boundaries de) as [a b]. cbn [fst snd] in *.
    rewrite Hgrid. reflexivity.
  - unfold t_eval. replace (Z.to_nat n) with (S (Z.to_nat n - 1)) by lia.
    cbn [seq map nth INR]. ring.
  - unfold t_eval. replace (Z.to_nat n) with (S (Z.to_nat n - 1)) at 1 by lia.
    rewrite seq_S, map_app. cbn [map Nat.add]. rewrite last_last. exact Hlast.
  - intros i Hi. unfold t_eval.
    rewrite nth_map_seq by lia.
    assert (Hi' : 0 < INR i) by (apply lt_0_INR; lia).
    assert (Hlt : (t1 - t0) / IZR n < (t1 - t0) / IZR (n - 1)).
    { unfold Rdiv. apply Rmult_lt_compat_l; [lra|].
      apply Rinv_lt_contravar; [apply Rmult_lt_0_compat; assumption|].
      apply IZR_lt. lia. }
    nra.
Qed.

Lemma MagicSolver_grid_exact_witness :
  nth 0 (map (fun i => INR i * ((60 * 24 * 60 * 60 - 0) / IZR (150 - 1)) + 0)
             (seq 0 (Z.to_nat 150))) 0 = 0
  /\ last (map (fun i => INR i * ((60 * 24 * 60 * 60 - 0) / IZR (150 - 1)) + 0)
               (seq 0 (Z.to_nat 150))) 0 = 60 * 24 * 60 * 60.
Proof.
  refine (let H := @MagicSolver_grid_exact
                     (TwoBodyProblem.init constants.DEFAULT_TIME_BOUNDARIES 150) _ _
          in conj (proj1 (proj2 H)) (proj1 (proj2 (proj2 H)))).
  - cbn. lra.
  - cbn. lia.
Defined.

End MagicSolverExact.

(** ** The domain of [NBodyProblem.f] and the state left by a failed [solve] *)

Section Domains.
Local Open Scope R_scope.



Lemma map_option_None {A B : Type} (g : A -> option B) (l : list A) x :
  In x l -> g x = None -> map_option g l = None.
Proof.
  intros Hin Hx. induction l as [|y l IH]; [contradiction|].
  cbn [map_option]. destruct Hin as [-> | Hin].
  - now rewrite Hx.
  - destruct (g y); [cbn [bind]; now rewrite IH | reflexivity].
Qed.



(** X20.  A call of [FourBodyProblemComplex.solve] that fails leaves the
    instance with the new ocean mass and the OLD solution: when the solver
    raises, or when it returns rows of which one has fewer than fourteen
    entries, or a Python list in place of an array (as [RungeKuttaSolver]
    does for one data point), [solve] raises after [m_O] has been assigned, and
    [self.solution] is what it was before the call (none, if there was
    none); the dictionary and the mass of the instance then belong to
    different runs. *)
Theorem FourBodyProblemComplex_failed_solve_keeps_solution
    (solver : DifferentialEquation R -> option (solver_result R))
    (m_O : R) (self : FourBodyProblemComplex.instance R) :
  let de := FourBodyProblemComplex.as_differential_equation
              (FourBodyProblemComplex.set_m_O m_O self) in
  (solver de = None
   \/ (exists t_points rows,
         solver de = Some (t_points, Array2D rows)
         /\ Exists (fun row => (length row < 14)%nat) rows)
   \/ (exists t_points r, solver de = Some (t_points, ListOfArray r))) ->
  FourBodyProblemComplex.solve solver m_O self
  = (FourBodyProblemComplex.set_m_O m_O self, None)
  /\ FourBodyProblemComplex.solution
       (fst (FourBodyProblemComplex.solve solver m_O self))
     = FourBodyProblemComplex.solution self
  /\ FourBodyProblemComplex.m_O
       (fst (FourBodyProblemComplex.solve solver m_O self)) = m_O.
Proof.
  intros de Hfail.
  assert (E : FourBodyProblemComplex.solve solver m_O self
              = (FourBodyProblemComplex.set_m_O m_O self, None)).
  { unfold FourBodyProblemComplex.solve. fold de.
    destruct Hfail as [-> | [(t_points & rows & -> & HE) | (t_points & r & ->)]];
      [reflexivity | | reflexivity].
    assert (Hd : FourBodyProblemComplex.solution_dict (t_points, Array2D rows)
                 = None).
    { unfold FourBodyProblemComplex.solution_dict.
      assert (H13 : column 13 rows = None).
      { apply column_None. eapply Exists_impl; [|exact HE].
        cbn beta. intros row Hrow. lia. }
      rewrite (@map_option_None _ _ (fun i => T_row i (Array2D rows))
                 (seq 0 14) 13%nat);
        [reflexivity | apply in_seq; lia | exact H13]. }
    now rewrite Hd. }
  rewrite E. repeat split.
Qed.

Lemma FourBodyProblemComplex_failed_solve_keeps_solution_witness :
  FourBodyProblemComplex.solve (fun _ => None) 1 fits.start
  = (FourBodyProblemComplex.set_m_O 1 fits.start, None)
  /\ FourBodyProblemComplex.solution
       (fst (FourBodyProblemComplex.solve (fun _ => None) 1 fits.start))
     = FourBodyProblemComplex.solution fits.start
  /\ FourBodyProblemComplex.m_O
       (fst (FourBodyProblemComplex.solve (fun _ => None) 1 fits.start)) = 1.
Proof.
  apply (@FourBodyProblemComplex_failed_solve_keeps_solution
           (fun _ => None) 1 fits.start).
  left. reflexivity.
Defined.

End Domains.
